(** * Deployment lifecycle of the Vespa Cloud integration tests

    A shallow embedding of the deploy / poll / teardown sequences of
    - [tests/integration/test_integration_vespa_cloud_token.py]
      (class [TestMsmarcoProdApplicationWithTokenAuth]: [setUp], [tearDown]) and
    - [vespa/test_integration_vespa_cloud.py] (class [TestCloudDeployment]: [setUp]).

    The Python code is a sequence of calls into collaborators that live outside
    these files ([VespaCloud], [Vespa], [ApplicationPackage]); they are modelled
    as a scripted environment ([Cloud]) that answers the k-th call of each kind
    with a latency and either a value or a raised exception.  Everything the
    test methods themselves do (the polling loop, the clock reads, the
    mutation of the application package, the order of the calls) is modelled
    statement by statement in a state-and-exception monad. *)

From Stdlib Require Import ZArith Lia String Ascii List DecimalString.
From stdpp Require Import gmap strings list fin_maps.

Local Open Scope string_scope.
Local Open Scope Z_scope.

(** ** Python values and exceptions *)

(** Exceptions that reach the caller of a test method.  [Upstream] stands for
    whatever a collaborator raises (an [HTTPError], a [RuntimeError], ...). *)
Inductive exn : Type :=
| ValueError (msg : string)
| KeyError (key : string)
| AttributeError (msg : string)
| TypeError (msg : string)
| Upstream (what : string).

(** The JSON scalars a build-status response can hold. *)
Inductive pyval : Type :=
| VStr (s : string)
| VInt (z : Z)
| VBool (b : bool)
| VNone.

(** Python's [==] between a JSON scalar and a string literal. *)
Definition eq_str (v : pyval) (s : string) : bool :=
  match v with
  | VStr s' => String.eqb s' s
  | _ => false
  end.

(** ** The application package (the fields the tests assign) *)

Record Nodes := { count : string }.

Inductive Cluster : Type :=
| ContentCluster (id : string) (nodes : Nodes) (document_name min_redundancy : string)
| ContainerCluster (id : string) (nodes : Nodes).

(** [vespa.package.Parameter]; the name is a reserved word here. *)
Record AuthParameter := { param_name : string; param_args : gmap string string }.

Record AuthClient := {
  client_id : string;
  permissions : list string;
  parameters : list AuthParameter
}.

Inductive DeploymentConfig : Type :=
| DeploymentConfiguration (environment : string) (regions : list string)
| EmptyDeploymentConfiguration.

Record ValidationID := { validation_value : string }.

Record Validation := { validation_id : ValidationID; until : string }.

Record ApplicationPackage := {
  name : string;
  clusters : list Cluster;
  deployment_config : option DeploymentConfig;
  auth_clients : list AuthClient;
  validations : list Validation
}.

(** The handle on a running application ([vespa.application.Vespa]). *)
Record Vespa := { url : string }.

(** ** The environment *)

(** One entry per effect a test method performs, newest first in the log,
    stamped with the clock reading at which the call was started and with
    whether it returned normally. *)
Inductive Call : Type :=
| Edeploy (instance disk_folder : string)
| Edeploy_to_prod (instance disk_folder : string) (submit_options : gmap string string)
| Echeck_production_build_status (build_no : Z)
| Eget_application (environment : string)
| Edelete_all_docs (content_cluster_name schema : string)
| Eto_files (disk_folder : string) (package : ApplicationPackage)
| Estart_prod_deployment (disk_folder : string) (contents : option ApplicationPackage)
| Ermtree (disk_folder : string)
| Esleep (secs : Z)
| Eprint (line : string).

Record Event := { ev_time : Z; ev_call : Call; ev_ok : bool }.

(** What a collaborator does when called: it takes [latency] seconds and then
    returns a value or raises. *)
Record Reply (A : Type) := { latency : N; outcome : exn + A }.
Arguments latency {A} _.
Arguments outcome {A} _.

(** The scripted control plane and data plane: the answer to the k-th call
    (counting from 0) of each remote operation. *)
Record Cloud := {
  on_deploy : nat -> Reply Vespa;
  on_deploy_to_prod : nat -> Reply Z;
  on_check_production_build_status : nat -> Reply (gmap string pyval);
  on_get_application : nat -> Reply Vespa;
  on_start_prod_deployment : nat -> Reply Z;
  on_delete_all_docs : nat -> Reply unit
}.

(** The host: a clock in whole seconds since the epoch, as [time.time()]
    reads it; the time zone, as the seconds the local time is ahead of UTC at
    a given reading of the clock; the seconds the k-th call (counting from 0)
    of [to_files] takes to write a package; the process environment, the
    working directory, the staging folders on disk and the log of effects.
    The clock moves while a remote call is being answered, during
    [time.sleep] and while a package is being written; the statements of the
    test methods themselves and [rmtree] take no time. *)
Record World := {
  now : Z;
  utcoffset : Z -> Z;
  to_files_time : nat -> N;
  environ : gmap string string;
  cwd : string;
  disk : gmap string ApplicationPackage;
  log : list Event
}.

Definition is_deploy (e : Event) : bool :=
  match ev_call e with Edeploy _ _ => true | _ => false end.
Definition is_deploy_to_prod (e : Event) : bool :=
  match ev_call e with Edeploy_to_prod _ _ _ => true | _ => false end.
Definition is_status_query (e : Event) : bool :=
  match ev_call e with Echeck_production_build_status _ => true | _ => false end.
Definition is_get_application (e : Event) : bool :=
  match ev_call e with Eget_application _ => true | _ => false end.
Definition is_delete_all_docs (e : Event) : bool :=
  match ev_call e with Edelete_all_docs _ _ => true | _ => false end.
Definition is_start_prod (e : Event) : bool :=
  match ev_call e with Estart_prod_deployment _ _ => true | _ => false end.
Definition is_sleep (e : Event) : bool :=
  match ev_call e with Esleep _ => true | _ => false end.
Definition is_to_files (e : Event) : bool :=
  match ev_call e with Eto_files _ _ => true | _ => false end.

(** Number of logged calls of one kind. *)
Fixpoint calls (p : Event -> bool) (l : list Event) : nat :=
  match l with
  | [] => O
  | e :: l' => if p e then S (calls p l') else calls p l'
  end.

(** ** The test case object and the monad *)

Record VespaCloud := {
  tenant : string;
  application : string;
  key_content : string;
  auth_client_token_id : option string
}.

(** The attributes the test methods assign on [self]; [None] is an attribute
    that has not been assigned yet. *)
Record TestCase := {
  app_package : option ApplicationPackage;
  vespa_cloud : option VespaCloud;
  disk_folder : option string;
  instance_name : option string;
  build_no : option Z;
  app : option Vespa;
  fields_to_send : list (gmap string string);
  fields_to_update : list (gmap string string)
}.

Record St := { self : TestCase; world : World }.

(** A computation either runs out of fuel ([None], only the polling loop can)
    or ends by raising or returning, in a new state. *)
Definition M (A : Type) : Type := St -> option ((exn + A) * St).

Definition ret {A} (a : A) : M A := fun s => Some (inr a, s).
Definition raise {A} (e : exn) : M A := fun s => Some (inl e, s).
Definition bind {A B} (c : M A) (k : A -> M B) : M B :=
  fun s =>
    match c s with
    | None => None
    | Some (inl e, s') => Some (inl e, s')
    | Some (inr a, s') => k a s'
    end.

Declare Scope py_scope.
Delimit Scope py_scope with py.
Notation "'do' x <~ c ; k" := (bind c (fun x => k))
  (at level 10, x name, c at level 100, k at level 200) : py_scope.
Notation "'run' c ; k" := (bind c (fun _ => k))
  (at level 10, c at level 100, k at level 200) : py_scope.
Local Open Scope py_scope.

Definition get_world : M World := fun s => Some (inr (world s), s).
Definition set_world (w : World) : M unit :=
  fun s => Some (inr tt, {| self := self s; world := w |}).
Definition get_self : M TestCase := fun s => Some (inr (self s), s).
Definition set_self (t : TestCase) : M unit :=
  fun s => Some (inr tt, {| self := t; world := world s |}).

(** The attribute read [self.x] on a test case of class [cls]: an
    unassigned attribute raises. *)
Definition no_attribute (cls what : string) : exn :=
  AttributeError ("'" ++ cls ++ "' object has no attribute '" ++ what ++ "'").

Definition attr {A} (cls what : string) (o : option A) : M A :=
  match o with
  | Some a => ret a
  | None => raise (no_attribute cls what)
  end.

Definition prod_test : string := "TestMsmarcoProdApplicationWithTokenAuth".
Definition dev_test : string := "TestCloudDeployment".

(** Appending to the log and letting time pass. *)
Definition record (c : Call) (ok : bool) (w : World) : World :=
  {| now := now w; utcoffset := utcoffset w; to_files_time := to_files_time w;
     environ := environ w; cwd := cwd w; disk := disk w;
     log := {| ev_time := now w; ev_call := c; ev_ok := ok |} :: log w |}.

Definition advance (d : Z) (w : World) : World :=
  {| now := now w + d; utcoffset := utcoffset w; to_files_time := to_files_time w;
     environ := environ w; cwd := cwd w; disk := disk w; log := log w |}.

Definition is_inr {A B} (x : A + B) : bool :=
  match x with inr _ => true | inl _ => false end.

(** A remote call: logged at the time it starts, it returns or raises after
    its latency. *)
Definition remote {A} (c : Call) (r : Reply A) : M A :=
  fun s =>
    let w := advance (Z.of_N (latency r)) (record c (is_inr (outcome r)) (world s)) in
    Some (outcome r, {| self := self s; world := w |}).

(** [time.time()] and [time.sleep(secs)]. *)
Definition time_time : M Z := do w <~ get_world; ret (now w).

Definition time_sleep (secs : Z) : M unit :=
  if secs <? 0 then raise (ValueError "sleep length must be non-negative")
  else do w <~ get_world; set_world (advance secs (record (Esleep secs) true w)).

(** [print(line)]. *)
Definition print (line : string) : M unit :=
  do w <~ get_world; set_world (record (Eprint line) true w).

(** [d[key]] on a dict. *)
Definition getitem (d : gmap string pyval) (key : string) : M pyval :=
  match d !! key with
  | Some v => ret v
  | None => raise (KeyError key)
  end.

(** ** Standard-library helpers the tests call *)

(** [str(n)] for a non-negative integer. *)
Definition str (n : Z) : string :=
  NilEmpty.string_of_uint (N.to_uint (Z.to_N n)).

(** [s.replace(r"\n", "\n")]: every backslash followed by [n] becomes a
    newline, scanning left to right. *)
Fixpoint unescape_newlines (s : string) : string :=
  match s with
  | EmptyString => EmptyString
  | String c rest =>
    match rest with
    | String c' rest' =>
      if (Ascii.eqb c "092" && Ascii.eqb c' "n")%bool
      then String "010" (unescape_newlines rest')
      else String c (unescape_newlines rest)
    | EmptyString => String c EmptyString
    end
  end.

Fixpoint ends_with_slash (s : string) : bool :=
  match s with
  | EmptyString => false
  | String c EmptyString => Ascii.eqb c "/"
  | String _ rest => ends_with_slash rest
  end.

(** [os.path.join(a, b)] on a POSIX host. *)
Definition path_join (a b : string) : string :=
  match b with
  | String "/" _ => b
  | _ =>
    match a with
    | EmptyString => b
    | _ => if ends_with_slash a then a ++ b else a ++ "/" ++ b
    end
  end.

(** Calendar day (days since 1970-01-01) of a clock reading, and the
    proleptic Gregorian date of a day number. *)
Definition seconds_per_day : Z := 86400.

Definition day_of (t : Z) : Z := t / seconds_per_day.

Definition civil_from_days (days : Z) : Z * Z * Z :=
  let z := days + 719468 in
  let era := z / 146097 in
  let doe := z - era * 146097 in
  let yoe := (doe - doe / 1460 + doe / 36524 - doe / 146096) / 365 in
  let doy := doe - (365 * yoe + yoe / 4 - yoe / 100) in
  let mp := (5 * doy + 2) / 153 in
  let d := doy - (153 * mp + 2) / 5 + 1 in
  let m := if mp <? 10 then mp + 3 else mp - 9 in
  let y := yoe + era * 400 + (if m <=? 2 then 1 else 0) in
  (y, m, d).

Definition pad2 (n : Z) : string :=
  if n <? 10 then "0" ++ str n else str n.

(** A naive [datetime] is the number of whole seconds from 1970-01-01
    00:00:00 to it on its own calendar.  The type holds the years 1 to 9999:
    [datetime_min] is 0001-01-01 00:00:00 and [datetime_end] the first second
    after 9999-12-31. *)
Definition datetime_min : Z := -62135596800.
Definition datetime_end : Z := 253402300800.

Definition representable (dt : Z) : bool :=
  (datetime_min <=? dt) && (dt <? datetime_end).

(** [timedelta(days=n)] in seconds, and [dt.strftime("%Y-%m-%d")] as the C
    library of a Linux host formats it: the year is not padded. *)
Definition timedelta_days (n : Z) : Z := n * seconds_per_day.

Definition strftime_Ymd (dt : Z) : string :=
  let '(y, m, d) := civil_from_days (day_of dt) in
  str y ++ "-" ++ pad2 m ++ "-" ++ pad2 d.

(** [os.getenv(key)] and [os.getcwd()]. *)
Definition os_getenv (key : string) : M (option string) :=
  do w <~ get_world; ret (environ w !! key).

Definition os_getcwd : M string := do w <~ get_world; ret (cwd w).

(** [datetime.now()]: the naive local time, which is the clock reading
    moved by the offset of the host's time zone at that reading.  Outside the
    years that a [datetime] holds the call raises, and so does the addition
    of a day that leaves them; this is left out, and what is stated about a
    date is stated of a [representable] today and tomorrow. *)
Definition local_time (w : World) : Z := now w + utcoffset w (now w).

Definition datetime_now : M Z := do w <~ get_world; ret (local_time w).

(** [shutil.rmtree(folder, ignore_errors=True)]: never raises. *)
Definition rmtree (folder : string) : M unit :=
  do w <~ get_world;
  let w' := record (Ermtree folder) true w in
  set_world {| now := now w'; utcoffset := utcoffset w';
               to_files_time := to_files_time w'; environ := environ w';
               cwd := cwd w'; disk := delete folder (disk w'); log := log w' |}.

(** [package.to_files(folder)]: the package is what the folder holds once
    the call, logged at the time it starts, has taken the time the host needs
    for it.  The tests write into a folder of their own; an error of the
    write is left out. *)
Definition to_files (package : ApplicationPackage) (folder : string) : M unit :=
  do w <~ get_world;
  let secs := Z.of_N (to_files_time w (calls is_to_files (log w))) in
  let w' := advance secs (record (Eto_files folder package) true w) in
  set_world {| now := now w'; utcoffset := utcoffset w';
               to_files_time := to_files_time w'; environ := environ w';
               cwd := cwd w'; disk := <[folder := package]> (disk w');
               log := log w' |}.

(** ** Attribute assignment on [self] and on the application package *)

Definition assign (f : TestCase -> TestCase) : M unit :=
  do t <~ get_self; set_self (f t).

Definition with_app_package (p : ApplicationPackage) (t : TestCase) : TestCase :=
  {| app_package := Some p; vespa_cloud := vespa_cloud t;
     disk_folder := disk_folder t; instance_name := instance_name t;
     build_no := build_no t; app := app t;
     fields_to_send := fields_to_send t; fields_to_update := fields_to_update t |}.

Definition with_vespa_cloud (v : VespaCloud) (t : TestCase) : TestCase :=
  {| app_package := app_package t; vespa_cloud := Some v;
     disk_folder := disk_folder t; instance_name := instance_name t;
     build_no := build_no t; app := app t;
     fields_to_send := fields_to_send t; fields_to_update := fields_to_update t |}.

Definition with_disk_folder (d : string) (t : TestCase) : TestCase :=
  {| app_package := app_package t; vespa_cloud := vespa_cloud t;
     disk_folder := Some d; instance_name := instance_name t;
     build_no := build_no t; app := app t;
     fields_to_send := fields_to_send t; fields_to_update := fields_to_update t |}.

Definition with_instance_name (i : string) (t : TestCase) : TestCase :=
  {| app_package := app_package t; vespa_cloud := vespa_cloud t;
     disk_folder := disk_folder t; instance_name := Some i;
     build_no := build_no t; app := app t;
     fields_to_send := fields_to_send t; fields_to_update := fields_to_update t |}.

Definition with_build_no (b : Z) (t : TestCase) : TestCase :=
  {| app_package := app_package t; vespa_cloud := vespa_cloud t;
     disk_folder := disk_folder t; instance_name := instance_name t;
     build_no := Some b; app := app t;
     fields_to_send := fields_to_send t; fields_to_update := fields_to_update t |}.

Definition with_app (a : Vespa) (t : TestCase) : TestCase :=
  {| app_package := app_package t; vespa_cloud := vespa_cloud t;
     disk_folder := disk_folder t; instance_name := instance_name t;
     build_no := build_no t; app := Some a;
     fields_to_send := fields_to_send t; fields_to_update := fields_to_update t |}.

Definition with_fields (send update : list (gmap string string)) (t : TestCase) : TestCase :=
  {| app_package := app_package t; vespa_cloud := vespa_cloud t;
     disk_folder := disk_folder t; instance_name := instance_name t;
     build_no := build_no t; app := app t;
     fields_to_send := send; fields_to_update := update |}.

Definition set_clusters (c : list Cluster) (p : ApplicationPackage) : ApplicationPackage :=
  {| name := name p; clusters := c; deployment_config := deployment_config p;
     auth_clients := auth_clients p; validations := validations p |}.

Definition set_deployment_config (d : DeploymentConfig) (p : ApplicationPackage)
  : ApplicationPackage :=
  {| name := name p; clusters := clusters p; deployment_config := Some d;
     auth_clients := auth_clients p; validations := validations p |}.

Definition set_auth_clients (a : list AuthClient) (p : ApplicationPackage)
  : ApplicationPackage :=
  {| name := name p; clusters := clusters p; deployment_config := deployment_config p;
     auth_clients := a; validations := validations p |}.

Definition set_validations (v : list Validation) (p : ApplicationPackage)
  : ApplicationPackage :=
  {| name := name p; clusters := clusters p; deployment_config := deployment_config p;
     auth_clients := auth_clients p; validations := v |}.

(** [self.app_package.<field> = ...]: the package object is mutated in place. *)
Definition mutate_app_package (f : ApplicationPackage -> ApplicationPackage) : M unit :=
  do t <~ get_self;
  do p <~ attr prod_test "app_package" (app_package t);
  set_self (with_app_package (f p) t).

(** The constructor call [VespaCloud(tenant=..., application=..., key_content=
    os.getenv(var).replace(r"\n", "\n"), ...)]. *)
Definition new_VespaCloud (tenant application var : string) (token : option string)
  : M VespaCloud :=
  do key <~ os_getenv var;
  match key with
  | None => raise (AttributeError "'NoneType' object has no attribute 'replace'")
  | Some k =>
    ret {| tenant := tenant; application := application;
           key_content := unescape_newlines k; auth_client_token_id := token |}
  end.

Definition fixture (i : Z) (title : string) (with_body : bool) : gmap string string :=
  let d := <["id" := str i]> (<["title" := title ++ str i]> ∅) in
  if with_body then <["body" := "this is body " ++ str i]> d else d.

(** [range(n)]. *)
Definition range (n : nat) : list Z := map Z.of_nat (seq 0 n).

(** ** The test methods *)

Section Harness.

Variable cloud : Cloud.

(** The result of [create_msmarco_application_package()], defined in
    [test_integration_docker]. *)
Variable create_msmarco_application_package : ApplicationPackage.

(** *** Calls into [VespaCloud] and [Vespa] *)

Definition deploy (instance folder : string) : M Vespa :=
  do w <~ get_world;
  remote (Edeploy instance folder) (on_deploy cloud (calls is_deploy (log w))).

Definition deploy_to_prod (instance folder : string)
    (submit_options : gmap string string) : M Z :=
  do w <~ get_world;
  remote (Edeploy_to_prod instance folder submit_options)
         (on_deploy_to_prod cloud (calls is_deploy_to_prod (log w))).

Definition check_production_build_status (build : Z) : M (gmap string pyval) :=
  do w <~ get_world;
  remote (Echeck_production_build_status build)
         (on_check_production_build_status cloud (calls is_status_query (log w))).

Definition get_application (environment : string) : M Vespa :=
  do w <~ get_world;
  remote (Eget_application environment)
         (on_get_application cloud (calls is_get_application (log w))).

Definition delete_all_docs (content_cluster_name schema : string) : M unit :=
  do w <~ get_world;
  remote (Edelete_all_docs content_cluster_name schema)
         (on_delete_all_docs cloud (calls is_delete_all_docs (log w))).

(** [_start_prod_deployment(folder)] submits what the folder holds. *)
Definition _start_prod_deployment (folder : string) : M Z :=
  do w <~ get_world;
  remote (Estart_prod_deployment folder (disk w !! folder))
         (on_start_prod_deployment cloud (calls is_start_prod (log w))).

(** *** [TestMsmarcoProdApplicationWithTokenAuth.setUp]: the wait *)

(** The [while] loop of lines 221-228; the result is the flag [success]. *)
Fixpoint poll_loop (fuel : nat) (max_wait poll start : Z) : M bool :=
  match fuel with
  | O => fun _ => None
  | S fuel' =>
    do t <~ time_time;
    if t - start <? max_wait then
      do me <~ get_self;
      do build <~ attr prod_test "build_no" (build_no me);
      do build_status <~ check_production_build_status build;
      do status <~ getitem build_status "status";
      if eq_str status "done" then ret true
      else
        run time_sleep poll;
        poll_loop fuel' max_wait poll start
    else ret false
  end.

(** Lines 218-230, with the two literals as parameters. *)
Definition await_build (fuel : nat) (max_wait poll : Z) : M unit :=
  do start <~ time_time;
  do success <~ poll_loop fuel max_wait poll start;
  if negb success then raise (ValueError "Deployment failed") else ret tt.

Definition prod_region : string := "aws-us-east-1c".
Definition schema_name : string := "msmarco".
Definition token_id : string := "colbert_xai_token".

Definition security_clients_pem : gmap string string :=
  {[ "file" := "security/clients.pem" ]}.

Definition prod_clusters : list Cluster :=
  [ ContentCluster (schema_name ++ "_content") {| count := "2" |} schema_name "2";
    ContainerCluster (schema_name ++ "_container") {| count := "2" |} ].

Definition prod_auth_clients : list AuthClient :=
  [ {| client_id := "mtls"; permissions := ["read,write"];
       parameters := [ {| param_name := "certificate";
                          param_args := security_clients_pem |} ] |};
    {| client_id := "token"; permissions := ["read,write"];
       parameters := [ {| param_name := "token";
                          param_args := {[ "id" := token_id ]} |} ] |} ].

(** Lines 167-208: the package, the [VespaCloud] object, folder and instance. *)
Definition configure : M unit :=
  run assign (with_app_package create_msmarco_application_package);
  run mutate_app_package (set_clusters prod_clusters);
  run mutate_app_package (set_deployment_config
    (DeploymentConfiguration "prod" [prod_region]));
  run mutate_app_package (set_auth_clients prod_auth_clients);
  do vc <~ new_VespaCloud "vespa-team" "pyvespa-integration" "VESPA_TEAM_API_KEY"
             (Some token_id);
  run assign (with_vespa_cloud vc);
  do here <~ os_getcwd;
  run assign (with_disk_folder (path_join here "sample_application"));
  assign (with_instance_name "token").

(** Lines 209-215: the prod submission, which returns the build number. *)
Definition submit_build : M unit :=
  do me <~ get_self;
  do instance <~ attr prod_test "instance_name" (instance_name me);
  do folder <~ attr prod_test "disk_folder" (disk_folder me);
  do b <~ deploy_to_prod instance folder
            {[ "sourceUrl" := "https://github.com/vespa-engine/pyvespa" ]};
  assign (with_build_no b).

(** Lines 231-248: the application handle and the documents to feed. *)
Definition connect : M unit :=
  do a <~ get_application "prod";
  run assign (with_app a);
  run print ("Endpoint used " ++ url a);
  assign (with_fields
    (map (fun i => fixture i "this is title " true) (range 10))
    (map (fun i => fixture i "this is my updated title number " false) (range 10))).

(** The whole of [setUp], the wait of lines 218-230 in the middle. *)
Definition setUp_with (fuel : nat) (max_wait poll : Z) : M unit :=
  run configure;
  run submit_build;
  run await_build fuel max_wait poll;
  connect.

(** Fuel that lets the loop of a wait of [max_wait] seconds polled every
    [poll] seconds run to its end. *)
Definition enough_fuel (max_wait poll : Z) : nat :=
  S (S (Z.to_nat (max_wait / poll))).

Definition max_wait : Z := 1200.
Definition poll_interval : Z := 5.

Definition setUp : M unit :=
  setUp_with (enough_fuel max_wait poll_interval) max_wait poll_interval.

(** *** [TestMsmarcoProdApplicationWithTokenAuth.tearDown] *)

Definition tearDown : M unit :=
  do me <~ get_self;
  run attr prod_test "app" (app me);
  run delete_all_docs "msmarco_content" "msmarco";
  run mutate_app_package (set_deployment_config EmptyDeploymentConfiguration);
  do today <~ datetime_now;
  let tomorrow := today + timedelta_days 1 in
  let formatted_date := strftime_Ymd tomorrow in
  run mutate_app_package (set_validations
    [ {| validation_id := {| validation_value := "deployment-removal" |};
         until := formatted_date |} ]);
  do me <~ get_self;
  do package <~ attr prod_test "app_package" (app_package me);
  do folder <~ attr prod_test "disk_folder" (disk_folder me);
  run to_files package folder;
  run attr prod_test "vespa_cloud" (vespa_cloud me);
  run _start_prod_deployment folder;
  rmtree folder.

(** *** [TestCloudDeployment.setUp] and [tearDown] (the dev deployment) *)

(** The application package of lines 25-50 is a local value handed to the
    [VespaCloud] constructor; the test case keeps no attribute for it. *)

Definition setUp_dev : M unit :=
  do vc <~ new_VespaCloud "vespa-team" "pyvespa-integration" "VESPA_CLOUD_USER_KEY" None;
  run assign (with_vespa_cloud vc);
  do work_dir <~ os_getenv "WORK_DIR";
  do folder <~ match work_dir with
               | Some d => ret (path_join d "sample_application")
               | None => raise (TypeError "expected str, bytes or os.PathLike object, not NoneType")
               end;
  run assign (with_disk_folder folder);
  run assign (with_instance_name "test");
  do me <~ get_self;
  do instance <~ attr dev_test "instance_name" (instance_name me);
  do folder <~ attr dev_test "disk_folder" (disk_folder me);
  do a <~ deploy instance folder;
  assign (with_app a).

Definition tearDown_dev : M unit :=
  do me <~ get_self;
  do folder <~ attr dev_test "disk_folder" (disk_folder me);
  rmtree folder.

End Harness.

(** ** Reading a run *)

(** The spec's lifecycle states, read off the test case and the log: the
    deployment is [Removed] once the control plane has accepted a submission
    of a package whose deployment configuration is the empty one; it is
    [Running] while the test holds an application handle; [Submitted] while
    it only holds a build number. *)
Inductive Phase : Type := Created | Submitted | Running | Removed.

Definition is_removal (p : option ApplicationPackage) : bool :=
  match p with
  | Some {| deployment_config := Some EmptyDeploymentConfiguration |} => true
  | _ => false
  end.

(** The newest accepted prod submission decides whether the deployment is
    gone. *)
Fixpoint removal_acknowledged (l : list Event) : bool :=
  match l with
  | [] => false
  | e :: l' =>
    match ev_call e with
    | Estart_prod_deployment _ contents =>
      if ev_ok e then is_removal contents else removal_acknowledged l'
    | Edeploy_to_prod _ _ _ =>
      if ev_ok e then false else removal_acknowledged l'
    | _ => removal_acknowledged l'
    end
  end.

Definition lifecycle_phase (s : St) : Phase :=
  if removal_acknowledged (log (world s)) then Removed
  else match app (self s), build_no (self s) with
       | Some _, _ => Running
       | None, Some _ => Submitted
       | None, None => Created
       end.

(** Result, final state, elapsed time and counters of a run. *)
Definition result {A} (r : option ((exn + A) * St)) : option (exn + A) :=
  fst <$> r.

Definition final {A} (r : option ((exn + A) * St)) (s0 : St) : St :=
  match r with Some (_, s) => s | None => s0 end.

Definition queries (s : St) : nat := calls is_status_query (log (world s)).
Definition sleeps (s : St) : nat := calls is_sleep (log (world s)).
Definition submissions (s : St) : nat := calls is_start_prod (log (world s)).

(** ** Scripted environments used in the examples *)

Definition returns {A} (lat : N) (a : A) : Reply A :=
  {| latency := lat; outcome := inr a |}.

Definition raises {A} (lat : N) (what : string) : Reply A :=
  {| latency := lat; outcome := inl (Upstream what) |}.

Definition status_is (lat : N) (s : string) : Reply (gmap string pyval) :=
  returns lat {[ "status" := VStr s ]}.

Definition endpoint : Vespa := {| url := "https://token.pyvespa-integration.vespa-team.example" |}.

(** A cloud in which everything but the build-status query and delete-all is
    immediate and succeeds. *)
Definition scripted (status : nat -> Reply (gmap string pyval))
    (delete_all : nat -> Reply unit) : Cloud :=
  {| on_deploy := fun _ => returns 0 endpoint;
     on_deploy_to_prod := fun _ => returns 0 42;
     on_check_production_build_status := status;
     on_get_application := fun _ => returns 0 endpoint;
     on_start_prod_deployment := fun _ => returns 0 43;
     on_delete_all_docs := delete_all |}.

Definition nth_status (l : list string) (last : string) (lat : N) (k : nat)
  : Reply (gmap string pyval) :=
  status_is lat (nth k l last).

Definition msmarco : ApplicationPackage :=
  {| name := "msmarco"; clusters := []; deployment_config := None;
     auth_clients := []; validations := [] |}.

Definition unset : TestCase :=
  {| app_package := None; vespa_cloud := None; disk_folder := None;
     instance_name := None; build_no := None; app := None;
     fields_to_send := []; fields_to_update := [] |}.

Definition host (t0 : Z) : World :=
  {| now := t0; utcoffset := fun _ => 0; to_files_time := fun _ => 0%N;
     environ := {[ "VESPA_TEAM_API_KEY" := "-----BEGIN KEY-----\nabc";
                   "VESPA_CLOUD_USER_KEY" := "-----BEGIN KEY-----\nabc";
                   "WORK_DIR" := "/work" ]};
     cwd := "/home/ci"; disk := ∅; log := [] |}.

Definition fresh (t0 : Z) : St := {| self := unset; world := host t0 |}.

(** A test case that has been given build number 42 and nothing else. *)
Definition submitted (t0 : Z) : St :=
  {| self := with_build_no 42 unset; world := host t0 |}.

(** A control plane that answers every status query with the same status
    after the same latency. *)
Definition stuck (status : string) (lat : N) : Cloud :=
  scripted (fun _ => status_is lat status) (fun _ => returns 0 tt).

(** The wait of [setUp] (ceiling 1200, interval 5) against a stuck control
    plane, from a test case that holds build number 42 at time 0. *)
Definition stuck_run (status : string) (lat : N) : option ((exn + unit) * St) :=
  await_build (stuck status lat) (enough_fuel 1200 5) 1200 5 (submitted 0).

(** A control plane whose build is done at the second status query, and
    the test case after [setUp] has run against it from time [t0]. *)
Definition quick (delete_all : nat -> Reply unit) : Cloud :=
  scripted (nth_status ["submitted"; "done"] "done" 1) delete_all.

Definition deployed (cloud : Cloud) (t0 : Z) : St :=
  final (setUp cloud msmarco (fresh t0)) (fresh t0).

(** A data plane on which delete-all raises. *)
Definition broken_cleanup : Cloud := quick (fun _ => raises 2 "HTTPError: 500").

Definition healthy : Cloud := quick (fun _ => returns 2 tt).

(** The state [tearDown] leaves. *)
Definition torn_down (cloud : Cloud) (s : St) : St := final (tearDown cloud s) s.

(** A state on a host on which every write of a package takes [secs]
    seconds, and on a host whose local time is [offset] seconds ahead of
    UTC. *)
Definition slow_disk (secs : N) (s : St) : St :=
  {| self := self s;
     world := {| now := now (world s); utcoffset := utcoffset (world s);
                 to_files_time := fun _ => secs; environ := environ (world s);
                 cwd := cwd (world s); disk := disk (world s);
                 log := log (world s) |} |}.

Definition in_zone (offset : Z) (s : St) : St :=
  {| self := self s;
     world := {| now := now (world s); utcoffset := fun _ => offset;
                 to_files_time := to_files_time (world s);
                 environ := environ (world s); cwd := cwd (world s);
                 disk := disk (world s); log := log (world s) |} |}.

(** The check of a control plane that rejects an override dated the day of
    the submission or an earlier day: [t] is the time of the submission and
    [date] the date of the override, both on the calendar of the control
    plane. *)
Definition later_day (t date : Z) : bool := day_of t <? day_of date.

(** Control planes that go through Submitted, InProgress, InProgress, Done
    and through Submitted, Done, a second per answer. *)
Definition long_build : Cloud :=
  scripted (nth_status ["submitted"; "running"; "running"; "done"] "done" 1)
           (fun _ => returns 0 tt).

Definition short_build : Cloud :=
  scripted (nth_status ["submitted"; "done"] "done" 1) (fun _ => returns 0 tt).

(** ** States and replies named in the statements *)

(** The state after the status query of an iteration, and after its sleep. *)
Definition after_query (cloud : Cloud) (b : Z) (s : St) : St :=
  let r := on_check_production_build_status cloud (queries s) in
  {| self := self s;
     world := advance (Z.of_N (latency r))
                (record (Echeck_production_build_status b) (is_inr (outcome r)) (world s)) |}.

Definition after_sleep (poll : Z) (s : St) : St :=
  {| self := self s; world := advance poll (record (Esleep poll) true (world s)) |}.

(** The status a reply carries, if it is a dict with that key. *)
Definition reply_status (r : Reply (gmap string pyval)) : option pyval :=
  match outcome r with
  | inr d => d !! "status"
  | inl _ => None
  end.

Definition is_done (r : Reply (gmap string pyval)) : bool :=
  match reply_status r with
  | Some v => eq_str v "done"
  | None => false
  end.

(** Every status query returns a dict with a ["status"] entry. *)
Definition well_formed (cloud : Cloud) : Prop :=
  forall k, is_Some (reply_status (on_check_production_build_status cloud k)).

(** No status query ever answers ["done"]. *)
Definition never_done (cloud : Cloud) : Prop :=
  forall k, is_done (on_check_production_build_status cloud k) = false.

(** The state after a remote call that was answered by [r]. *)
Definition after_remote {A} (c : Call) (r : Reply A) (s : St) : St :=
  {| self := self s;
     world := advance (Z.of_N (latency r)) (record c (is_inr (outcome r)) (world s)) |}.

(** The control plane answers the status queries number [from], [from + 1],
    ... with the latencies and statuses of [script]. *)
Definition answers (cloud : Cloud) (from : nat) (script : list (N * string)) : Prop :=
  forall k lat st, script !! k = Some (lat, st) ->
    latency (on_check_production_build_status cloud (from + k)) = lat /\
    reply_status (on_check_production_build_status cloud (from + k)) = Some (VStr st).

(** Seconds taken by polling through [script], a sleep after every answer. *)
Fixpoint script_time (poll : Z) (script : list (N * string)) : Z :=
  match script with
  | [] => 0
  | (lat, _) :: rest => Z.of_N lat + poll + script_time poll rest
  end.

(** The package [tearDown] submits when [datetime.now()] gives [today]: the
    empty deployment configuration and one validation override that holds
    until the next day. *)
Definition removal_package (today : Z) (p : ApplicationPackage) : ApplicationPackage :=
  set_validations
    [ {| validation_id := {| validation_value := "deployment-removal" |};
         until := strftime_Ymd (today + timedelta_days 1) |} ]
    (set_deployment_config EmptyDeploymentConfiguration p).

(** The replies [tearDown] will get from the state [s]. *)
Definition delete_all_reply (cloud : Cloud) (s : St) : Reply unit :=
  on_delete_all_docs cloud (calls is_delete_all_docs (log (world s))).

Definition submission_reply (cloud : Cloud) (s : St) : Reply Z :=
  on_start_prod_deployment cloud (calls is_start_prod (log (world s))).

(** The states [tearDown] goes through: after delete-all, after the package
    has been changed and written to the folder, after the submission, and
    after the folder has been removed. *)
Definition cleaned (cloud : Cloud) (s : St) : St :=
  after_remote (Edelete_all_docs "msmarco_content" "msmarco") (delete_all_reply cloud s) s.

(** The seconds the next call of [to_files] takes. *)
Definition write_time (w : World) : Z :=
  Z.of_N (to_files_time w (calls is_to_files (log w))).

Definition write_folder (folder : string) (p : ApplicationPackage) (w : World) : World :=
  {| now := now w + write_time w; utcoffset := utcoffset w;
     to_files_time := to_files_time w; environ := environ w; cwd := cwd w;
     disk := <[folder := p]> (disk w);
     log := {| ev_time := now w; ev_call := Eto_files folder p; ev_ok := true |} :: log w |}.

Definition staged (cloud : Cloud) (p : ApplicationPackage) (folder : string) (s : St) : St :=
  let s1 := cleaned cloud s in
  let p' := removal_package (local_time (world s1)) p in
  {| self := with_app_package p' (self s); world := write_folder folder p' (world s1) |}.

Definition removal_submitted (cloud : Cloud) (p : ApplicationPackage) (folder : string)
    (s : St) : St :=
  after_remote
    (Estart_prod_deployment folder
       (Some (removal_package (local_time (world (cleaned cloud s))) p)))
    (submission_reply cloud s) (staged cloud p folder s).

Definition released (folder : string) (s : St) : St :=
  {| self := self s;
     world := {| now := now (world s); utcoffset := utcoffset (world s);
                 to_files_time := to_files_time (world s);
                 environ := environ (world s);
                 cwd := cwd (world s); disk := delete folder (disk (world s));
                 log := {| ev_time := now (world s); ev_call := Ermtree folder;
                           ev_ok := true |} :: log (world s) |} |}.

(** Control planes whose second status query raises, or answers without a
    status. *)
Definition flaky : Cloud :=
  scripted (fun k => match k with
                     | O => status_is 1 "running"
                     | _ => raises 1 "HTTPError: 503"
                     end)
           (fun _ => returns 0 tt).

Definition malformed : Cloud :=
  scripted (fun k => match k with
                     | O => status_is 1 "running"
                     | _ => returns 1 {[ "deployed" := VBool false ]}
                     end)
           (fun _ => returns 0 tt).

(** A control plane that rejects the prod submission, and a host without
    the API key. *)
Definition rejecting : Cloud :=
  {| on_deploy := fun _ => returns 0 endpoint;
     on_deploy_to_prod := fun _ => raises 3 "HTTPError: 403";
     on_check_production_build_status := fun _ => status_is 1 "done";
     on_get_application := fun _ => returns 0 endpoint;
     on_start_prod_deployment := fun _ => raises 3 "HTTPError: 403";
     on_delete_all_docs := fun _ => returns 0 tt |}.

Definition keyless (t0 : Z) : St :=
  {| self := unset;
     world := {| now := t0; utcoffset := fun _ => 0; to_files_time := fun _ => 0%N;
                 environ := ∅; cwd := "/home/ci"; disk := ∅; log := [] |} |}.

Definition is_rmtree (e : Event) : bool :=
  match ev_call e with Ermtree _ => true | _ => false end.

(** A control plane that deploys but refuses the removal. *)
Definition unremovable : Cloud :=
  {| on_deploy := fun _ => returns 0 endpoint;
     on_deploy_to_prod := fun _ => returns 0 42;
     on_check_production_build_status := nth_status ["submitted"; "done"] "done" 1;
     on_get_application := fun _ => returns 0 endpoint;
     on_start_prod_deployment := fun _ => raises 3 "HTTPError: 400";
     on_delete_all_docs := fun _ => returns 2 tt |}.

(** ** [vespa/experimental/ranking.py]: query clean-up

    Python strings are sequences of code points; here they are lists of
    code-point numbers, so that the quotation marks outside ASCII are single
    characters as they are in Python. *)

(** Whether a string holds a backslash followed by [n]. *)
Fixpoint has_escaped_newline (s : string) : bool :=
  match s with
  | EmptyString => false
  | String c rest =>
    match rest with
    | String c' _ =>
      (Ascii.eqb c "092" && Ascii.eqb c' "n") || has_escaped_newline rest
    | EmptyString => false
    end
  end.

Module Ranking.

Definition QUOTES : list (list N) :=
  map (fun c => [c])
    [ 0x22; 0x27; 0xab; 0xbb; 0x2018; 0x2019; 0x201a; 0x201b; 0x201c; 0x201d;
      0x201e; 0x201f; 0x2039; 0x203a; 0x300c; 0x300d; 0x300e; 0x300f; 0x301d;
      0x301e; 0x301f; 0xfe41; 0xfe42; 0xfe43; 0xfe44; 0xff02; 0xff07; 0xff62;
      0xff63 ]%N.

(** ["("], [")"], [" -"], [" +"], extended by the quotes. *)
Definition REPLACE_SYMBOLS : list (list N) :=
  ([ [0x28]; [0x29]; [0x20; 0x2d]; [0x20; 0x2b] ]%N ++ QUOTES)%list.

Fixpoint starts_with (old s : list N) : bool :=
  match old, s with
  | [], _ => true
  | a :: old', b :: s' => (a =? b)%N && starts_with old' s'
  | _ :: _, [] => false
  end.

(** [old in s]: [old] occurs somewhere in [s]. *)
Fixpoint occurs (old s : list N) : bool :=
  starts_with old s ||
  match s with
  | [] => false
  | _ :: rest => occurs old rest
  end.

(** The scan of [s.replace(old, "")] for a non-empty [old]: [skip] characters
    of a match found earlier are still to be dropped. *)
Fixpoint remove_from (old : list N) (skip : nat) (s : list N) : list N :=
  match s with
  | [] => []
  | c :: rest =>
    match skip with
    | S k => remove_from old k rest
    | O =>
      if starts_with old s then remove_from old (length old - 1) rest
      else c :: remove_from old 0 rest
    end
  end.

(** [s.replace(old, "")]: the occurrences of [old] are removed left to right,
    without overlap; an empty [old] changes nothing. *)
Definition replace_by_empty (old s : list N) : list N :=
  match old with
  | [] => s
  | _ => remove_from old 0 s
  end.

(** [Dataset.replace_symbols]. *)
Definition replace_symbols (x : list N) : list N :=
  fold_left (fun x symbol => replace_by_empty symbol x) REPLACE_SYMBOLS x.

(** [re.sub(" +", " ", s)]: every run of spaces becomes one space; [seen] is
    whether the character before was a space. *)
Fixpoint collapse_from (seen : bool) (s : list N) : list N :=
  match s with
  | [] => []
  | c :: rest =>
    if (c =? 0x20)%N
    then if seen then collapse_from true rest else c :: collapse_from true rest
    else c :: collapse_from false rest
  end.

Definition collapse_spaces (s : list N) : list N := collapse_from false s.

(** [c.isspace()], the characters [strip()] removes. *)
Definition isspace (c : N) : bool :=
  ((0x09 <=? c) && (c <=? 0x0d) || (0x1c <=? c) && (c <=? 0x20)
   || (c =? 0x85) || (c =? 0xa0) || (c =? 0x1680)
   || (0x2000 <=? c) && (c <=? 0x200a)
   || (c =? 0x2028) || (c =? 0x2029) || (c =? 0x202f) || (c =? 0x205f)
   || (c =? 0x3000))%N.

Fixpoint lstrip (s : list N) : list N :=
  match s with
  | [] => []
  | c :: rest => if isspace c then lstrip rest else s
  end.

Fixpoint rstrip (s : list N) : list N :=
  match s with
  | [] => []
  | c :: rest =>
    match rstrip rest with
    | [] => if isspace c then [] else [c]
    | r => c :: r
    end
  end.

Definition strip (s : list N) : list N := rstrip (lstrip s).

(** [Dataset.parse_query]. *)
Definition parse_query (query : list N) : list N :=
  strip (collapse_spaces (replace_symbols query)).

(** The code points of an ASCII literal, for the examples. *)
Fixpoint codes (s : string) : list N :=
  match s with
  | EmptyString => []
  | String c rest => N_of_ascii c :: codes rest
  end.

(** A string without two spaces in a row, and one that neither starts nor
    ends with white space. *)
Fixpoint no_double_space (s : list N) : bool :=
  match s with
  | a :: rest =>
    match rest with
    | b :: _ => negb ((a =? 0x20)%N && (b =? 0x20)%N) && no_double_space rest
    | [] => true
    end
  | [] => true
  end.

Definition trimmed (s : list N) : Prop :=
  (forall c, head s = Some c -> isspace c = false) /\
  (forall c, last s = Some c -> isspace c = false).

(** A query [parse_query] has nothing to do on. *)
Definition clean (q : list N) : Prop :=
  Forall (fun symbol => occurs symbol q = false) REPLACE_SYMBOLS /\
  no_double_space q = true /\
  trimmed q.

(** ** [vespa/experimental/ranking.py]: batches of labelled data *)

(** Exceptions of this module; [Raised] is whatever a library call raises. *)
Inductive error : Type :=
| ValueError (msg : string)
| AssertionError (msg : string)
| IndexError (msg : string)
| KeyError (key : string)
| TypeError (msg : string)
| Raised (what : string).

(** [list(range(start, stop, step))]. *)
Definition py_range (start stop step : Z) : error + list Z :=
  if step =? 0 then inl (ValueError "range() arg 3 must not be zero")
  else
    let n := if 0 <? step
             then if start <? stop then (stop - start - 1) / step + 1 else 0
             else if stop <? start then (start - stop - 1) / (- step) + 1 else 0 in
    inr (map (fun k => start + Z.of_nat k * step) (seq 0 (Z.to_nat n))).

(** [l[i:j]]: negative indices count from the end, and both ends are
    clipped to the list. *)
Definition py_slice {A} (l : list A) (i j : Z) : list A :=
  let len := Z.of_nat (length l) in
  let clip k := if k <? 0 then Z.max 0 (k + len) else Z.min k len in
  let lo := clip i in
  let hi := clip j in
  if lo <? hi then take (Z.to_nat (hi - lo)) (drop (Z.to_nat lo) l) else [].

(** Lines 375-378 of [collect_vespa_features]:
    [[labeled_data[i : i + batch_size]
      for i in range(0, len(labeled_data), batch_size)]]. *)
Definition labeled_data_batches {A} (labeled_data : list A) (batch_size : Z)
  : error + list (list A) :=
  match py_range 0 (Z.of_nat (length labeled_data)) batch_size with
  | inl e => inl e
  | inr starts =>
    inr (map (fun i => py_slice labeled_data i (i + batch_size)) starts)
  end.

(** ** [vespa/experimental/ranking.py]: [BeirData.load_full_data] *)

Section BeirData.

Context {Corpus Queries Qrels : Type}.

(** [self.prepare_data(split_type)], which reads the dataset through
    [GenericDataLoader]: for each split type the corpus, the queries and the
    qrels, or the exception the loader raises. *)
Variable prepare_data : string -> error + (Corpus * Queries * Qrels).

(** [{"qrels": qrels, "queries": queries}]. *)
Record Split := { split_qrels : Qrels; split_queries : Queries }.

(** [{"corpus": corpus, "split": split}]. *)
Record FullData := { corpus : option Corpus; split : gmap string Split }.

(** [if not split_types: split_types = ["train", "dev"]]: [None] and the
    empty list are replaced. *)
Definition effective_split_types (split_types : option (list string)) : list string :=
  match split_types with
  | None | Some [] => ["train"; "dev"]
  | Some l => l
  end.

(** The [for] loop of lines 156-158. *)
Fixpoint load_splits (split_types : list string) (corpus : option Corpus)
    (split : gmap string Split) : error + FullData :=
  match split_types with
  | [] => inr {| corpus := corpus; split := split |}
  | split_type :: rest =>
    match prepare_data split_type with
    | inl e => inl e
    | inr (c, queries, qrels) =>
      load_splits rest (Some c)
        (<[split_type := {| split_qrels := qrels; split_queries := queries |}]> split)
    end
  end.

Definition load_full_data (split_types : option (list string)) : error + FullData :=
  let split_types := effective_split_types split_types in
  if negb (0 <? length split_types)%nat
  then inl (AssertionError "Specify at least one split_type.")
  else load_splits split_types None ∅.

End BeirData.

Arguments Split : clear implicits.
Arguments FullData : clear implicits.

(** A loader with a train and a dev split and nothing else. *)
Definition train_dev_loader (split_type : string) : error + (nat * nat * nat) :=
  if String.eqb split_type "train" then inr (1, 2, 3)%nat
  else if String.eqb split_type "dev" then inr (4, 5, 6)%nat
  else inl (Raised "ValueError: qrels file is missing").

(** What [load_full_data] makes of that loader for the default split
    types. *)
Definition train_dev_data : FullData nat nat nat :=
  {| corpus := Some 4%nat;
     split := <["dev" := {| split_qrels := 6%nat; split_queries := 5%nat |}]>
                (<["train" := {| split_qrels := 3%nat; split_queries := 2%nat |}]> ∅) |}.

(** ** [vespa/experimental/ranking.py]: the feature searches of
    [ListwiseRankingFramework]

    What is printed is left out.  Floats are values of the types [W]
    (weights) and [E] (evaluations), of which only the comparisons and the
    absolute value the code uses are needed. *)

Section ModelSearch.

Context {W E H : Type}.

Variable ltb : W -> W -> bool.
Variable fabs : W -> W.
Variable gtb : E -> E -> bool.
Variable zero : E.

(** What the tuner and Keras leave behind when [tune_lasso_linear_model]
    reaches line 774: [model.get_weights()] (entry 2 read through [int],
    entry 3 as rows), the history of ["val_ndcg_stateless"], and the best
    hyperparameters. *)
Record Fitted := {
  weights_0 : list W;
  weights_1 : list W;
  weights_2 : Z;
  weights_3 : list (list W);
  val_ndcg_stateless : list E;
  tuner_best_hyperparams : H
}.

(** The tuning and fitting of lines 725-773, for the [call]-th fit of a run
    and the given features: the fitted model, or the exception raised. *)
Variable fit : nat -> list string -> error + Fitted.

(** The dict [weights] that [tune_lasso_linear_model] returns, a field per
    key. *)
Record LassoWeights := {
  weights_feature_names : list string;
  weights_normalization_mean : list W;
  weights_normalization_sd : list W;
  weights_normalization_number_data : Z;
  weights_linear_model_weights : list W
}.

(** An entry of [results], a field per key; ["number_features"] is present
    in the entries of the forward selection only. *)
Record PartialResult := {
  result_number_features : option nat;
  result_evaluation : E;
  result_weights : LassoWeights;
  result_best_hyperparams : H
}.

(** [l[i]] for [0 <= i]. *)
Definition index {A} (l : list A) (i : nat) : error + A :=
  match l !! i with
  | Some x => inr x
  | None => inl (IndexError "list index out of range")
  end.

(** [[float(weights[3][idx][0]) for idx in range(len(feature_names))]]. *)
Fixpoint kernel_column (rows : list (list W)) (idxs : list nat) : error + list W :=
  match idxs with
  | [] => inr []
  | idx :: rest =>
    match index rows idx with
    | inl e => inl e
    | inr row =>
      match index row 0 with
      | inl e => inl e
      | inr w =>
        match kernel_column rows rest with
        | inl e => inl e
        | inr ws => inr (w :: ws)
        end
      end
    end
  end.

(** [tune_lasso_linear_model], lines 774-786 on top of [fit]. *)
Definition tune_lasso_linear_model (call : nat) (feature_names : list string)
  : error + (LassoWeights * E * H) :=
  match fit call feature_names with
  | inl e => inl e
  | inr model =>
    match kernel_column (weights_3 model) (seq 0 (length feature_names)) with
    | inl e => inl e
    | inr column =>
      match last (val_ndcg_stateless model) with
      | None => inl (IndexError "list index out of range")
      | Some eval_result_from_fit =>
        inr ({| weights_feature_names := feature_names;
                weights_normalization_mean := weights_0 model;
                weights_normalization_sd := weights_1 model;
                weights_normalization_number_data := weights_2 model;
                weights_linear_model_weights := column |},
             eval_result_from_fit, tuner_best_hyperparams model)
      end
    end
  end.

(** The files that hold results, and the number of fits made so far. *)
Record SearchState := {
  files : gmap string (list PartialResult);
  fits : nat
}.

Definition fitted (st : SearchState) : SearchState :=
  {| files := files st; fits := S (fits st) |}.

(** [json.dump(results, f)] into [output_file]. *)
Definition dump (output_file : string) (results : list PartialResult)
    (st : SearchState) : SearchState :=
  {| files := <[output_file := results]> (files st); fits := fits st |}.

(** [json.load] of [output_file], or [[]] when there is no such file. *)
Definition load (output_file : string) (st : SearchState) : list PartialResult :=
  match files st !! output_file with
  | Some results => results
  | None => []
  end.

(** [d[k] = v] on a dict kept in insertion order. *)
Fixpoint dict_set {V} (k : string) (v : V) (d : list (string * V)) : list (string * V) :=
  match d with
  | [] => [(k, v)]
  | (k', v') :: rest =>
    if String.eqb k k' then (k, v) :: rest else (k', v') :: dict_set k v rest
  end.

(** [{k: v for k, v in pairs}]. *)
Definition dict_of {V} (pairs : list (string * V)) : list (string * V) :=
  fold_left (fun d kv => dict_set kv.1 kv.2 d) pairs [].

(** [x in l] for a list of strings. *)
Definition mem (x : string) (l : list string) : bool := existsb (String.eqb x) l.

(** [min(d, key=d.get)] on a non-empty dict: the first key whose value no
    later value is less than. *)
Definition min_by_value (d : list (string * W)) : option string :=
  match d with
  | [] => None
  | first :: rest =>
    Some (fold_left (fun best item => if ltb item.2 best.2 then item else best)
                    rest first).1
  end.

(** Lines 825-840: the dict of the weights by feature, their absolute
    values, and of these the ones of features that are not protected. *)
Definition elimination_candidates (protected_features : list string)
    (weights : LassoWeights) : list (string * W) :=
  let weights :=
    dict_of (combine (weights_feature_names weights)
                     (weights_linear_model_weights weights)) in
  let abs_weights := map (fun kv => (kv.1, fabs kv.2)) weights in
  match protected_features with
  | [] => abs_weights
  | _ => filter (fun kv => negb (mem kv.1 protected_features)) abs_weights
  end.

(** The [while] loop of [lasso_model_search], lines 808-845. *)
Fixpoint lasso_loop (fuel : nat) (output_file : string)
    (protected_features feature_names : list string)
    (results : list PartialResult) (st : SearchState)
  : option ((error + list PartialResult) * SearchState) :=
  match fuel with
  | O => None
  | S fuel' =>
    if ((length protected_features <=? length feature_names)
        && (0 <? length feature_names))%nat
    then
      match tune_lasso_linear_model (fits st) feature_names with
      | inl e => Some (inl e, fitted st)
      | inr (weights, evaluation, best_hyperparams) =>
        let partial_result :=
          {| result_number_features := None; result_evaluation := evaluation;
             result_weights := weights;
             result_best_hyperparams := best_hyperparams |} in
        let results := (results ++ [partial_result])%list in
        let st := dump output_file results (fitted st) in
        match min_by_value (elimination_candidates protected_features weights) with
        | Some worst_feature =>
          lasso_loop fuel' output_file protected_features
            (filter (fun x => negb (String.eqb x worst_feature)) feature_names)
            results st
        | None => Some (inr results, st)
        end
      end
    else Some (inr results, st)
  end.

(** [lasso_model_search]; the loop gets one unit of fuel per feature and one
    more. *)
Definition lasso_model_search (folder_dir project_name : string)
    (feature_names : list string) (protected_features : option (list string))
    (output_file : string) (st : SearchState)
  : option ((error + list PartialResult) * SearchState) :=
  let output_file := path_join (path_join folder_dir project_name) output_file in
  let results := load output_file st in
  let protected_features :=
    match protected_features with
    | None | Some [] => []
    | Some l => l
    end in
  lasso_loop (S (length feature_names)) output_file protected_features
             feature_names results st.

(** [_forward_selection_iteration]. *)
Definition forward_selection_iteration (call : nat) (feature_names : list string)
  : error + PartialResult :=
  match tune_lasso_linear_model call feature_names with
  | inl e => inl e
  | inr (weights, evaluation, best_hyperparams) =>
    inr {| result_number_features := Some (length feature_names);
           result_evaluation := evaluation;
           result_weights := weights;
           result_best_hyperparams := best_hyperparams |}
  end.

(** The [for] loop of [forward_selection_model_search], lines 909-922, from
    the values of [best_eval] and [best_features] so far. *)
Fixpoint try_features (output_file : string) (protected_features : list string)
    (feature_names : list string) (best_eval : E)
    (best_features : option (list string))
    (results : list PartialResult) (st : SearchState)
  : (error + (option (list string) * list PartialResult)) * SearchState :=
  match feature_names with
  | [] => (inr (best_features, results), st)
  | new_feature :: rest =>
    let experimental_features := (protected_features ++ [new_feature])%list in
    match forward_selection_iteration (fits st) experimental_features with
    | inl e => (inl e, fitted st)
    | inr partial_result =>
      let evaluation := result_evaluation partial_result in
      let results := (results ++ [partial_result])%list in
      let best :=
        if gtb evaluation best_eval
        then (evaluation, Some experimental_features)
        else (best_eval, best_features) in
      try_features output_file protected_features rest best.1 best.2 results
                   (dump output_file results (fitted st))
    end
  end.

(** The [while] loop, lines 905-923; [protected_features] is [None] once a
    round has found no feature. *)
Fixpoint forward_loop (fuel : nat) (output_file : string)
    (maximum_number_of_features : Z)
    (protected_features : option (list string)) (feature_names : list string)
    (results : list PartialResult) (st : SearchState)
  : option ((error + list PartialResult) * SearchState) :=
  match fuel with
  | O => None
  | S fuel' =>
    match protected_features with
    | None => Some (inl (TypeError "object of type 'NoneType' has no len()"), st)
    | Some protected =>
      if Z.of_nat (length protected) <? maximum_number_of_features then
        let feature_names :=
          filter (fun x => negb (mem x protected)) feature_names in
        match try_features output_file protected feature_names zero None results st with
        | (inl e, st) => Some (inl e, st)
        | (inr (best_features, results), st) =>
          forward_loop fuel' output_file maximum_number_of_features
                       best_features feature_names results st
        end
      else Some (inr results, st)
    end
  end.

(** Lines 894-896: the value of [maximum_number_of_features] the loop runs
    with. *)
Definition features_limit (feature_names : list string)
    (maximum_number_of_features : option Z) : Z :=
  let maximum_number_of_features :=
    match maximum_number_of_features with
    | None | Some 0 => Z.of_nat (length feature_names)
    | Some m => m
    end in
  Z.min maximum_number_of_features (Z.of_nat (length feature_names)).

(** [forward_selection_model_search]; the loop gets two units of fuel more
    than the number of features. *)
Definition forward_selection_model_search (folder_dir project_name : string)
    (feature_names : list string) (maximum_number_of_features : option Z)
    (output_file : string) (protected_features : option (list string))
    (st : SearchState)
  : option ((error + list PartialResult) * SearchState) :=
  let output_file := path_join (path_join folder_dir project_name) output_file in
  let results := load output_file st in
  let maximum_number_of_features :=
    features_limit feature_names maximum_number_of_features in
  match protected_features with
  | None | Some [] =>
    forward_loop (S (S (length feature_names))) output_file
                 maximum_number_of_features (Some []) feature_names results st
  | Some protected =>
    match forward_selection_iteration (fits st) protected with
    | inl e => Some (inl e, fitted st)
    | inr partial_result =>
      forward_loop (S (S (length feature_names))) output_file
                   maximum_number_of_features (Some protected) feature_names
                   (results ++ [partial_result])%list (fitted st)
    end
  end.

End ModelSearch.

(** The feature lists of a run of [lasso_model_search] that starts from
    [feature_names]: each fit is made on what the fit before it was made on,
    less every occurrence of one feature that is not protected. *)
Fixpoint elimination_trail (protected_features feature_names : list string)
    (fitted_on : list (list string)) : Prop :=
  match fitted_on with
  | [] => True
  | first :: rest =>
    first = feature_names /\
    (rest = [] \/
     exists worst_feature,
       worst_feature ∈ feature_names /\
       mem worst_feature protected_features = false /\
       elimination_trail protected_features
         (filter (fun x => negb (String.eqb x worst_feature)) feature_names) rest)
  end.

(** A fit that reports, for every feature, the length of its name as its
    weight, and the number of the fit as the evaluation. *)
Definition name_length_fit (call : nat) (feature_names : list string)
  : error + @Fitted Z Z unit :=
  inr {| weights_0 := []; weights_1 := []; weights_2 := 0;
         weights_3 := map (fun f => [Z.of_nat (String.length f)]) feature_names;
         val_ndcg_stateless := [Z.of_nat call];
         tuner_best_hyperparams := tt |}.

Definition no_files : @SearchState Z Z unit := {| files := ∅; fits := 0 |}.

(** A lasso search over four features, one of them protected. *)
Definition example_lasso_search :=
  lasso_model_search Z.ltb Z.abs name_length_fit "/tmp" "proj"
    ["bm25"; "nativeRank"; "age"; "bm25"] (Some ["age"]) "out.json" no_files.

(** [name_length_fit] with every evaluation 0, and with the evaluations
    counted from 1. *)
Definition flat_fit (call : nat) : list string -> error + @Fitted Z Z unit :=
  name_length_fit 0.

Definition rising_fit (call : nat) : list string -> error + @Fitted Z Z unit :=
  name_length_fit (S call).

(** A forward selection over three features, one of them protected. *)
Definition example_forward_search :=
  forward_selection_model_search Z.gtb 0 name_length_fit "/tmp" "proj"
    ["bm25"; "nativeRank"; "age"] None "fw.json" (Some ["age"]) no_files.

Definition returned {A S} (r : option ((error + list A) * S)) : list A :=
  match r with
  | Some (inr results, _) => results
  | _ => []
  end.

Definition left_in {A S} (r : option ((error + list A) * S)) (s0 : S) : S :=
  match r with
  | Some (_, st) => st
  | None => s0
  end.

End Ranking.

(** * Properties *)

(** ** One iteration of the polling loop *)

Section Loop.

Variable cloud : Cloud.
Variables max_wait poll start : Z.

Local Abbreviation status_at k := (on_check_production_build_status cloud k).
Local Abbreviation loop fuel := (poll_loop cloud fuel max_wait poll start).

Lemma poll_loop_expired fuel s :
  max_wait <= now (world s) - start ->
  loop (S fuel) s = Some (inr false, s).
Proof.
  intros H. cbn. unfold bind, time_time, get_world, ret. cbn.
  destruct (Z.ltb_spec (now (world s) - start) max_wait); [lia | done].
Qed.

Lemma poll_loop_raised fuel s b e :
  now (world s) - start < max_wait ->
  build_no (self s) = Some b ->
  outcome (status_at (queries s)) = inl e ->
  loop (S fuel) s = Some (inl e, after_query cloud b s).
Proof.
  intros H Hb He. cbn. unfold bind, time_time, get_world, get_self, ret. cbn.
  destruct (Z.ltb_spec (now (world s) - start) max_wait); [| lia].
  rewrite Hb. cbn. unfold check_production_build_status, bind, get_world, remote. cbn.
  fold (queries s). rewrite He. unfold after_query. by rewrite He.
Qed.

Lemma poll_loop_no_status fuel s b d :
  now (world s) - start < max_wait ->
  build_no (self s) = Some b ->
  outcome (status_at (queries s)) = inr d ->
  d !! "status" = None ->
  loop (S fuel) s = Some (inl (KeyError "status"), after_query cloud b s).
Proof.
  intros H Hb Hd Hk. cbn. unfold bind, time_time, get_world, get_self, ret. cbn.
  destruct (Z.ltb_spec (now (world s) - start) max_wait); [| lia].
  rewrite Hb. cbn. unfold check_production_build_status, bind, get_world, remote. cbn.
  fold (queries s). rewrite Hd. unfold getitem. rewrite Hk. cbn.
  unfold after_query. by rewrite Hd.
Qed.

Lemma poll_loop_done fuel s b :
  now (world s) - start < max_wait ->
  build_no (self s) = Some b ->
  is_done (status_at (queries s)) = true ->
  loop (S fuel) s = Some (inr true, after_query cloud b s).
Proof.
  intros H Hb Hd. unfold is_done, reply_status in Hd.
  destruct (outcome (status_at (queries s))) as [e|d] eqn:Ho; [done |].
  destruct (d !! "status") as [v|] eqn:Hk; [| done].
  cbn. unfold bind, time_time, get_world, get_self, ret. cbn.
  destruct (Z.ltb_spec (now (world s) - start) max_wait); [| lia].
  rewrite Hb. cbn. unfold check_production_build_status, bind, get_world, remote. cbn.
  fold (queries s). rewrite Ho. unfold getitem. rewrite Hk. cbn. rewrite Hd.
  unfold after_query. by rewrite Ho.
Qed.

Lemma poll_loop_pending fuel s b :
  now (world s) - start < max_wait ->
  build_no (self s) = Some b ->
  is_Some (reply_status (status_at (queries s))) ->
  is_done (status_at (queries s)) = false ->
  0 <= poll ->
  loop (S fuel) s = loop fuel (after_sleep poll (after_query cloud b s)).
Proof.
  intros H Hb [v Hv] Hd Hp. unfold is_done in Hd. rewrite Hv in Hd.
  unfold reply_status in Hv.
  destruct (outcome (status_at (queries s))) as [e|d] eqn:Ho; [done |].
  cbn. unfold bind, time_time, get_world, get_self, ret. cbn.
  destruct (Z.ltb_spec (now (world s) - start) max_wait); [| lia].
  rewrite Hb. cbn. unfold check_production_build_status, bind, get_world, remote. cbn.
  fold (queries s). rewrite Ho. unfold getitem. rewrite Hv. cbn. rewrite Hd.
  unfold time_sleep. destruct (Z.ltb_spec poll 0); [lia |].
  unfold bind, get_world, set_world. cbn.
  unfold after_sleep, after_query. cbn. by rewrite Ho.
Qed.

End Loop.

(** ** The loop as a whole *)

Section LoopFacts.

Variable cloud : Cloud.
Variables max_wait poll start : Z.

Local Abbreviation status_at k := (on_check_production_build_status cloud k).
Local Abbreviation loop fuel := (poll_loop cloud fuel max_wait poll start).

(** The body of the loop, case by case. *)
Lemma poll_loop_step fuel s :
  loop (S fuel) s =
  if now (world s) - start <? max_wait then
    match build_no (self s) with
    | None => Some (inl (no_attribute prod_test "build_no"), s)
    | Some b =>
      match outcome (status_at (queries s)) with
      | inl e => Some (inl e, after_query cloud b s)
      | inr d =>
        match d !! "status" with
        | None => Some (inl (KeyError "status"), after_query cloud b s)
        | Some v =>
          if eq_str v "done" then Some (inr true, after_query cloud b s)
          else if poll <? 0
               then Some (inl (ValueError "sleep length must be non-negative"),
                          after_query cloud b s)
               else loop fuel (after_sleep poll (after_query cloud b s))
        end
      end
    end
  else Some (inr false, s).
Proof.
  destruct (Z.ltb_spec (now (world s) - start) max_wait) as [Hlt|Hge];
    [| by apply poll_loop_expired].
  destruct (build_no (self s)) as [b|] eqn:Hb.
  - destruct (outcome (status_at (queries s))) as [e|d] eqn:Ho;
      [by apply poll_loop_raised |].
    destruct (d !! "status") as [v|] eqn:Hk;
      [| by eapply poll_loop_no_status].
    destruct (eq_str v "done") eqn:Hd.
    + apply poll_loop_done; [done | done |].
      unfold is_done, reply_status. by rewrite Ho, Hk.
    + destruct (Z.ltb_spec poll 0) as [Hneg|Hpos].
      * cbn. unfold bind, time_time, get_world, get_self, ret. cbn.
        destruct (Z.ltb_spec (now (world s) - start) max_wait); [| lia].
        rewrite Hb. cbn.
        unfold check_production_build_status, bind, get_world, remote. cbn.
        fold (queries s). rewrite Ho. unfold getitem. rewrite Hk. cbn. rewrite Hd.
        unfold time_sleep. destruct (Z.ltb_spec poll 0); [| lia].
        unfold raise, after_query. by rewrite Ho.
      * apply poll_loop_pending; [done | done | | | done].
        -- unfold reply_status. rewrite Ho. by exists v.
        -- unfold is_done, reply_status. by rewrite Ho, Hk.
  - cbn. unfold bind, time_time, get_world, get_self, ret. cbn.
    destruct (Z.ltb_spec (now (world s) - start) max_wait); [| lia].
    by rewrite Hb.
Qed.

(** More fuel does not change a result. *)
Lemma poll_loop_more_fuel fuel : forall s r,
  loop fuel s = Some r -> loop (S fuel) s = Some r.
Proof.
  induction fuel as [|fuel IH]; intros s r H; [done |].
  rewrite poll_loop_step in H. rewrite poll_loop_step.
  repeat case_match; try done. by apply IH.
Qed.

Lemma poll_loop_fuel_le fuel fuel' s r :
  (fuel <= fuel')%nat -> loop fuel s = Some r -> loop fuel' s = Some r.
Proof.
  induction 1 as [|m Hle IH]; [done |].
  intros H. by apply poll_loop_more_fuel, IH.
Qed.

(** With a positive poll interval the loop ends: a fuel of one more than the
    number of intervals that still fit before the ceiling is enough. *)
Lemma poll_loop_total fuel : forall s,
  0 < poll ->
  max_wait - (now (world s) - start) <= Z.of_nat fuel * poll ->
  is_Some (loop (S fuel) s).
Proof.
  induction fuel as [|fuel IH]; intros s Hp Hm; rewrite poll_loop_step.
  - destruct (Z.ltb_spec (now (world s) - start) max_wait); [lia | done].
  - repeat case_match; try done.
    apply IH; [done |]. cbn. lia.
Qed.

End LoopFacts.

Section LoopInvariants.

Variable cloud : Cloud.
Variables max_wait poll start : Z.

Local Abbreviation status_at k := (on_check_production_build_status cloud k).
Local Abbreviation loop fuel := (poll_loop cloud fuel max_wait poll start).

(** What a finished loop has done when every reply was a dict with a status:
    it polled through [n] replies that were not ["done"], sleeping after each,
    and then either saw ["done"] or found the ceiling reached. *)
Lemma poll_loop_spec fuel : forall s r s',
  well_formed cloud -> 0 <= poll -> is_Some (build_no (self s)) ->
  loop fuel s = Some (r, s') ->
  self s' = self s /\
  exists (n : nat) (success : bool),
    r = inr success /\
    sleeps s' = (sleeps s + n)%nat /\
    (forall k, (k < n)%nat -> is_done (status_at (queries s + k)) = false) /\
    if success
    then queries s' = S (queries s + n) /\
         is_done (status_at (queries s + n)) = true
    else queries s' = (queries s + n)%nat /\
         max_wait <= now (world s') - start.
Proof.
  induction fuel as [|fuel IH]; intros s r s' Hwf Hp [b Hb] H; [done |].
  rewrite poll_loop_step, Hb in H.
  destruct (Z.ltb_spec (now (world s) - start) max_wait) as [Hlt|Hge].
  - pose proof (Hwf (queries s)) as [v Hv]. unfold reply_status in Hv.
    destruct (outcome (status_at (queries s))) as [e|d] eqn:Ho; [done |].
    rewrite Hv in H.
    destruct (eq_str v "done") eqn:Hd.
    + inversion H; subst. split; [done |]. exists O, true.
      rewrite !Nat.add_0_r. repeat split; try done; [lia |].
      unfold is_done, reply_status. by rewrite Ho, Hv.
    + destruct (Z.ltb_spec poll 0); [lia |].
      apply IH in H as (Hself & n & success & -> & Hs & Hnd & Hfin);
        [| done | done | by exists b].
      split; [done |]. exists (S n), success.
      change (queries (after_sleep poll (after_query cloud b s))) with (S (queries s)) in *.
      change (sleeps (after_sleep poll (after_query cloud b s))) with (S (sleeps s)) in *.
      repeat split.
      * lia.
      * intros [|k] Hk.
        -- rewrite Nat.add_0_r. unfold is_done, reply_status. by rewrite Ho, Hv.
        -- rewrite Nat.add_succ_r. apply Hnd. lia.
      * destruct success; rewrite Nat.add_succ_r; exact Hfin.
  - inversion H; subst. split; [done |]. exists O, false.
    rewrite !Nat.add_0_r. repeat split; try done. lia.
Qed.

(** When a finished loop returns.  If no status query takes longer than
    [bound], the loop returns at once or less than [bound + poll] after the
    ceiling, and it starts no status query once the ceiling is reached. *)
Lemma poll_loop_timing (bound : Z) fuel : forall s r s',
  (forall k, Z.of_N (latency (status_at k)) <= bound) ->
  0 <= poll ->
  loop fuel s = Some (r, s') ->
  now (world s) <= now (world s') /\
  (now (world s') = now (world s) \/ now (world s') - start < max_wait + bound + poll) /\
  exists new, log (world s') = (new ++ log (world s))%list /\
    Forall (fun e => is_status_query e = true -> ev_time e - start < max_wait) new.
Proof.
  induction fuel as [|fuel IH]; intros s r s' HL Hp H; [done |].
  rewrite poll_loop_step in H.
  assert (Hhere : now (world s) <= now (world s) /\
    (now (world s) = now (world s) \/ now (world s) - start < max_wait + bound + poll) /\
    exists new, log (world s) = (new ++ log (world s))%list /\
      Forall (fun e => is_status_query e = true -> ev_time e - start < max_wait) new).
  { split; [lia |]. split; [by left |]. by exists []. }
  destruct (Z.ltb_spec (now (world s) - start) max_wait) as [Hlt|Hge];
    [| by inversion H; subst].
  destruct (build_no (self s)) as [b|]; [| by inversion H; subst].
  pose proof (HL (queries s)) as Hlat.
  pose proof (N2Z.is_nonneg (latency (status_at (queries s)))) as Hnn.
  assert (Hquery : forall r0, Some (r0, after_query cloud b s) = Some (r, s') ->
    now (world s) <= now (world s') /\
    (now (world s') = now (world s) \/ now (world s') - start < max_wait + bound + poll) /\
    exists new, log (world s') = (new ++ log (world s))%list /\
      Forall (fun e => is_status_query e = true -> ev_time e - start < max_wait) new).
  { intros r0 Hr. inversion Hr; subst. cbn. split; [lia |]. split; [right; lia |].
    eexists [_]. split; [reflexivity |]. constructor; [| constructor]. by cbn. }
  destruct (outcome (status_at (queries s))) as [e|d]; [by eapply Hquery |].
  destruct (d !! "status") as [v|]; [| by eapply Hquery].
  destruct (eq_str v "done"); [by eapply Hquery |].
  destruct (Z.ltb_spec poll 0); [by eapply Hquery |].
  apply IH in H as (Hmono & Hup & new & Hlog & Hall); [| done | done].
  cbn in Hmono, Hup, Hlog. split; [lia |]. split; [right; lia |].
  eexists (new ++ [_; _])%list. split.
  - rewrite Hlog, <- app_assoc. reflexivity.
  - apply Forall_app. split; [done |].
    constructor; [by cbn |]. constructor; [by cbn | constructor].
Qed.

End LoopInvariants.

(** The wait in terms of its loop. *)
Lemma await_build_unfold cloud fuel max_wait poll s :
  await_build cloud fuel max_wait poll s =
  match poll_loop cloud fuel max_wait poll (now (world s)) s with
  | None => None
  | Some (inl e, s') => Some (inl e, s')
  | Some (inr true, s') => Some (inr tt, s')
  | Some (inr false, s') => Some (inl (ValueError "Deployment failed"), s')
  end.
Proof.
  unfold await_build, bind, time_time, get_world, ret. cbn.
  destruct (poll_loop cloud fuel max_wait poll (now (world s)) s) as [[[e|[|]] s']|]; done.
Qed.

(** The fuel the wait is given is enough. *)
Lemma enough_fuel_enough max_wait poll :
  0 < poll -> max_wait <= Z.of_nat (S (Z.to_nat (max_wait / poll))) * poll.
Proof.
  intros Hp. pose proof (Z.mod_pos_bound max_wait poll Hp).
  pose proof (Z.div_mod max_wait poll ltac:(lia)).
  destruct (Z.le_gt_cases 0 (max_wait / poll)); [| nia].
  rewrite Nat2Z.inj_succ, Z2Nat.id by done. nia.
Qed.

Lemma await_build_total cloud max_wait poll s :
  0 < poll -> is_Some (await_build cloud (enough_fuel max_wait poll) max_wait poll s).
Proof.
  intros Hp. rewrite await_build_unfold.
  destruct (poll_loop_total cloud max_wait poll (now (world s))
              (S (Z.to_nat (max_wait / poll))) s Hp) as [[[e|[|]] s'] H].
  - pose proof (enough_fuel_enough max_wait poll Hp). lia.
  - unfold enough_fuel. by rewrite H.
  - unfold enough_fuel. by rewrite H.
  - unfold enough_fuel. by rewrite H.
Qed.

(** ** The wait never sees ["done"] *)

Lemma stuck_well_formed status lat : well_formed (stuck status lat).
Proof. intros k. by exists (VStr status). Qed.

Lemma stuck_never_done status lat :
  status <> "done" -> never_done (stuck status lat).
Proof.
  intros H k. unfold is_done.
  change (reply_status (on_check_production_build_status (stuck status lat) k))
    with (Some (VStr status)).
  cbn. by apply String.eqb_neq.
Qed.

(** C1, as stated, fails: with the constants of [setUp] and a control plane
    that needs 6 seconds to answer "running", the wait gives up 1210 seconds
    after it started, outside the window from 1200 to 1205. *)
Lemma await_build_late :
  never_done (stuck "running" 6) /\
  result (stuck_run "running" 6) = Some (inl (ValueError "Deployment failed")) /\
  ~ (1200 <= now (world (final (stuck_run "running" 6) (submitted 0)))
             - now (world (submitted 0)) < 1200 + 5).
Proof.
  split; [by apply stuck_never_done |]. split; [vm_compute; reflexivity |].
  replace (now (world (final (stuck_run "running" 6) (submitted 0)))) with 1210
    by (vm_compute; reflexivity).
  cbn. lia.
Qed.

(** C1, amended: for every ceiling [T > 0], poll interval [poll > 0] and
    control plane that never answers "done", the wait ends by raising
    [ValueError("Deployment failed")] at an elapsed time of at least [T] and
    less than [T + bound + poll], where [bound] is the longest a status query
    takes; no status query is started once [T] seconds have elapsed.  With
    immediate answers ([bound = 0]) the window is from [T] to [T + poll]. *)
Theorem await_build_timeout_window cloud T poll bound s :
  0 < T -> 0 < poll ->
  is_Some (build_no (self s)) ->
  well_formed cloud -> never_done cloud ->
  (forall k, Z.of_N (latency (on_check_production_build_status cloud k)) <= bound) ->
  exists s',
    await_build cloud (enough_fuel T poll) T poll s
      = Some (inl (ValueError "Deployment failed"), s') /\
    T <= now (world s') - now (world s) < T + bound + poll /\
    exists new, log (world s') = (new ++ log (world s))%list /\
      Forall (fun e => is_status_query e = true ->
                       ev_time e - now (world s) < T) new.
Proof.
  intros HT Hp Hb Hwf Hnd HL.
  destruct (await_build_total cloud T poll s Hp) as [[r s'] Hrun].
  rewrite await_build_unfold in Hrun. rewrite await_build_unfold.
  destruct (poll_loop cloud (enough_fuel T poll) T poll (now (world s)) s)
    as [[r0 s0]|] eqn:Hloop; [| done].
  assert (Hp0 : 0 <= poll) by lia.
  pose proof (poll_loop_spec _ _ _ _ _ _ _ _ Hwf Hp0 Hb Hloop)
    as (_ & n & success & -> & _ & _ & Hfin).
  pose proof (poll_loop_timing _ _ _ _ bound _ _ _ _ HL Hp0 Hloop)
    as (_ & Hup & Hnew).
  destruct success.
  - destruct Hfin as [_ Hdone]. by rewrite Hnd in Hdone.
  - destruct Hfin as [_ Hceil]. exists s0. split; [done |].
    split; [lia | done].
Qed.

Lemma await_build_timeout_window_witness :
  exists s',
    await_build (stuck "running" 6) (enough_fuel 1200 5) 1200 5 (submitted 0)
      = Some (inl (ValueError "Deployment failed"), s') /\
    1200 <= now (world s') - now (world (submitted 0)) < 1200 + 6 + 5 /\
    exists new, log (world s') = (new ++ log (world (submitted 0)))%list /\
      Forall (fun e => is_status_query e = true ->
                       ev_time e - now (world (submitted 0)) < 1200) new.
Proof.
  apply (await_build_timeout_window (stuck "running" 6) 1200 5 6 (submitted 0)).
  - lia.
  - lia.
  - by exists 42.
  - apply stuck_well_formed.
  - by apply stuck_never_done.
  - intros k. cbn. lia.
Defined.

(** ** A reported failure *)

(** C2, as stated, fails: when every status query answers "failed", the wait
    of [setUp] does not stop at the first poll; it polls 240 times and sleeps
    240 times before it raises. *)
Lemma await_build_polls_past_failed :
  reply_status (on_check_production_build_status (stuck "failed" 0) 0)
    = Some (VStr "failed") /\
  result (stuck_run "failed" 0) = Some (inl (ValueError "Deployment failed")) /\
  queries (final (stuck_run "failed" 0) (submitted 0)) = 240%nat /\
  sleeps (final (stuck_run "failed" 0) (submitted 0)) = 240%nat.
Proof.
  split; [vm_compute; reflexivity |]. split; [vm_compute; reflexivity |].
  split; vm_compute; reflexivity.
Qed.

(** C2, amended: a poll that observes "failed" (or any status other than
    "done") does not end the wait.  After the j-th poll gave such an answer
    the wait sleeps one poll interval, and it then polls again unless the
    ceiling has been reached; if the run ends by raising, the error is
    [ValueError("Deployment failed")] and it is raised only once [max_wait]
    seconds have elapsed. *)
Theorem await_build_failed_not_terminal cloud fuel T poll s r s' (j : nat) failed :
  failed <> "done" ->
  0 <= poll ->
  is_Some (build_no (self s)) ->
  well_formed cloud ->
  await_build cloud fuel T poll s = Some (r, s') ->
  (queries s + j < queries s')%nat ->
  reply_status (on_check_production_build_status cloud (queries s + j))
    = Some (VStr failed) ->
  (sleeps s + j < sleeps s')%nat /\
  ((queries s + S j < queries s')%nat \/ T <= now (world s') - now (world s)) /\
  (forall e, r = inl e ->
     e = ValueError "Deployment failed" /\ T <= now (world s') - now (world s)).
Proof.
  intros Hne Hp Hb Hwf Hrun Hj Hfailed.
  rewrite await_build_unfold in Hrun.
  destruct (poll_loop cloud fuel T poll (now (world s)) s) as [[r0 s0]|] eqn:Hloop;
    [| done].
  pose proof (poll_loop_spec _ _ _ _ _ _ _ _ Hwf Hp Hb Hloop)
    as (_ & n & success & -> & Hs & Hpend & Hfin).
  assert (Hnot : is_done (on_check_production_build_status cloud (queries s + j)) = false).
  { unfold is_done. rewrite Hfailed. cbn. by apply String.eqb_neq. }
  destruct success; inversion Hrun; subst; destruct Hfin as [Hq Hlast].
  - assert (j <> n) by (intros ->; congruence).
    split; [lia |]. split; [left; lia | done].
  - split; [lia |]. split; [by right |]. intros e He. by inversion He.
Qed.

Lemma await_build_failed_not_terminal_witness :
  (sleeps (submitted 0) + 0 < sleeps (final (stuck_run "failed" 0) (submitted 0)))%nat /\
  ((queries (submitted 0) + 1 < queries (final (stuck_run "failed" 0) (submitted 0)))%nat \/
   1200 <= now (world (final (stuck_run "failed" 0) (submitted 0)))
           - now (world (submitted 0))) /\
  (forall e, (inl (ValueError "Deployment failed") : exn + unit) = inl e ->
     e = ValueError "Deployment failed" /\
     1200 <= now (world (final (stuck_run "failed" 0) (submitted 0)))
             - now (world (submitted 0))).
Proof.
  apply (await_build_failed_not_terminal (stuck "failed" 0) (enough_fuel 1200 5)
           1200 5 (submitted 0) (inl (ValueError "Deployment failed"))
           (final (stuck_run "failed" 0) (submitted 0)) 0%nat "failed").
  - discriminate.
  - lia.
  - by exists 42.
  - apply stuck_well_formed.
  - vm_compute. reflexivity.
  - vm_compute. lia.
  - reflexivity.
Defined.

(** ** The error values of the wait *)

(** C3, as stated, fails: the run that times out while the build is still
    "running" and the run in which the control plane reports "failed" end
    with the same error value. *)
Lemma await_build_same_error :
  result (stuck_run "running" 0) = Some (inl (ValueError "Deployment failed")) /\
  result (stuck_run "failed" 0) = Some (inl (ValueError "Deployment failed")) /\
  result (stuck_run "running" 0) = result (stuck_run "failed" 0).
Proof.
  split; [vm_compute; reflexivity |]. split; vm_compute; reflexivity.
Qed.

(** C3, amended: the wait has one failure of its own.  Whenever it ends by
    raising, the status queries having returned dicts with a status, the
    error is [ValueError("Deployment failed")], so two such runs, whatever
    their control planes reported, end with equal error values. *)
Theorem await_build_single_failure
    cloud1 fuel1 T1 poll1 s1 e1 s1' cloud2 fuel2 T2 poll2 s2 e2 s2' :
  0 <= poll1 -> 0 <= poll2 ->
  is_Some (build_no (self s1)) -> is_Some (build_no (self s2)) ->
  well_formed cloud1 -> well_formed cloud2 ->
  await_build cloud1 fuel1 T1 poll1 s1 = Some (inl e1, s1') ->
  await_build cloud2 fuel2 T2 poll2 s2 = Some (inl e2, s2') ->
  e1 = ValueError "Deployment failed" /\ e1 = e2.
Proof.
  intros Hp1 Hp2 Hb1 Hb2 Hwf1 Hwf2 Hrun1 Hrun2.
  rewrite await_build_unfold in Hrun1, Hrun2.
  destruct (poll_loop cloud1 fuel1 T1 poll1 (now (world s1)) s1)
    as [[r1 t1]|] eqn:Hloop1; [| done].
  destruct (poll_loop cloud2 fuel2 T2 poll2 (now (world s2)) s2)
    as [[r2 t2]|] eqn:Hloop2; [| done].
  pose proof (poll_loop_spec _ _ _ _ _ _ _ _ Hwf1 Hp1 Hb1 Hloop1)
    as (_ & n1 & b1 & -> & _).
  pose proof (poll_loop_spec _ _ _ _ _ _ _ _ Hwf2 Hp2 Hb2 Hloop2)
    as (_ & n2 & b2 & -> & _).
  destruct b1, b2; inversion Hrun1; inversion Hrun2; by subst.
Qed.

Lemma await_build_single_failure_witness :
  ValueError "Deployment failed" = ValueError "Deployment failed" /\
  ValueError "Deployment failed" = ValueError "Deployment failed".
Proof.
  apply (await_build_single_failure
           (stuck "running" 0) (enough_fuel 1200 5) 1200 5 (submitted 0)
           (ValueError "Deployment failed") (final (stuck_run "running" 0) (submitted 0))
           (stuck "failed" 0) (enough_fuel 1200 5) 1200 5 (submitted 0)
           (ValueError "Deployment failed") (final (stuck_run "failed" 0) (submitted 0))).
  - lia.
  - lia.
  - by exists 42.
  - by exists 42.
  - apply stuck_well_formed.
  - apply stuck_well_formed.
  - vm_compute. reflexivity.
  - vm_compute. reflexivity.
Defined.

(** ** The first answer is ["done"] *)

(** C9: with a positive ceiling the wait queries the status before it ever
    sleeps; when that first answer is "done" the wait returns normally having
    logged exactly one effect, the status query made at the time the wait
    started: one query, no sleep. *)
Theorem await_build_first_poll_done cloud T poll s b :
  0 < T ->
  build_no (self s) = Some b ->
  is_done (on_check_production_build_status cloud (queries s)) = true ->
  exists s',
    await_build cloud (enough_fuel T poll) T poll s = Some (inr tt, s') /\
    log (world s') =
      {| ev_time := now (world s); ev_call := Echeck_production_build_status b;
         ev_ok := true |} :: log (world s) /\
    queries s' = S (queries s) /\
    sleeps s' = sleeps s.
Proof.
  intros HT Hb Hd. exists (after_query cloud b s).
  rewrite await_build_unfold. unfold enough_fuel.
  rewrite (poll_loop_done _ _ _ _ _ _ b); [| lia | done | done].
  split; [done |]. split; [| done].
  unfold is_done, reply_status in Hd. cbn.
  by destruct (outcome (on_check_production_build_status cloud (queries s))).
Qed.

Lemma await_build_first_poll_done_witness :
  exists s',
    await_build (stuck "done" 3) (enough_fuel 1200 5) 1200 5 (submitted 0)
      = Some (inr tt, s') /\
    log (world s') =
      {| ev_time := 0; ev_call := Echeck_production_build_status 42;
         ev_ok := true |} :: log (world (submitted 0)) /\
    queries s' = S (queries (submitted 0)) /\
    sleeps s' = sleeps (submitted 0).
Proof.
  apply (await_build_first_poll_done (stuck "done" 3) 1200 5 (submitted 0) 42).
  - lia.
  - reflexivity.
  - reflexivity.
Defined.

(** ** Polling through a script *)

Lemma script_time_lower poll script :
  0 <= poll -> Z.of_nat (length script) * poll <= script_time poll script.
Proof.
  intros Hp. induction script as [|[lat st] rest IH]; [done |].
  cbn [length script_time]. lia.
Qed.

Lemma fuel_for_script T poll script :
  0 < poll -> script_time poll script < T ->
  (length script < enough_fuel T poll)%nat.
Proof.
  intros Hp Ht. pose proof (script_time_lower poll script ltac:(lia)) as Hl.
  assert (Z.of_nat (length script) <= T / poll) by (apply Z.div_le_lower_bound; lia).
  unfold enough_fuel. lia.
Qed.

Lemma answers_tail cloud from lat st rest :
  answers cloud from ((lat, st) :: rest) -> answers cloud (S from) rest.
Proof.
  intros H k l s' Hk. specialize (H (S k) l s' Hk).
  by rewrite Nat.add_succ_r in H.
Qed.

(** Nothing but status queries and sleeps happens in the loop. *)
Lemma poll_loop_frame cloud T poll start fuel : forall s r s',
  poll_loop cloud fuel T poll start s = Some (r, s') ->
  self s' = self s /\
  disk (world s') = disk (world s) /\
  removal_acknowledged (log (world s')) = removal_acknowledged (log (world s)) /\
  calls is_get_application (log (world s')) = calls is_get_application (log (world s)) /\
  calls is_start_prod (log (world s')) = calls is_start_prod (log (world s)).
Proof.
  induction fuel as [|fuel IH]; intros s r s' H; [done |].
  rewrite poll_loop_step in H.
  repeat case_match; try (by inversion H; subst).
  by apply IH in H.
Qed.

Lemma now_after_query cloud b s :
  now (world (after_query cloud b s)) =
  now (world s) + Z.of_N (latency (on_check_production_build_status cloud (queries s))).
Proof. reflexivity. Qed.

Lemma now_after_sleep poll s :
  now (world (after_sleep poll s)) = now (world s) + poll.
Proof. reflexivity. Qed.

(** Polling through answers that are not "done" up to one that is. *)
Lemma poll_loop_script cloud T poll start b lat : forall pending fuel s,
  answers cloud (queries s) (pending ++ [(lat, "done")]) ->
  Forall (fun x => x.2 <> "done") pending ->
  now (world s) - start + script_time poll pending < T ->
  0 <= poll ->
  build_no (self s) = Some b ->
  (length pending < fuel)%nat ->
  exists s',
    poll_loop cloud fuel T poll start s = Some (inr true, s') /\
    queries s' = S (queries s + length pending) /\
    sleeps s' = (sleeps s + length pending)%nat /\
    now (world s') = now (world s) + script_time poll pending + Z.of_N lat.
Proof.
  induction pending as [|[l0 st0] rest IH]; intros fuel s Hans Hnd Ht Hp Hb Hf.
  - destruct fuel as [|fuel]; [cbn in Hf; lia |].
    destruct (Hans O lat "done" eq_refl) as [Hlat Hst]. rewrite Nat.add_0_r in Hlat, Hst.
    exists (after_query cloud b s). split.
    + apply poll_loop_done; [cbn in Ht; lia | done |].
      unfold is_done. by rewrite Hst.
    + rewrite now_after_query, Hlat.
      change (queries (after_query cloud b s)) with (S (queries s)).
      change (sleeps (after_query cloud b s)) with (sleeps s).
      cbn [length script_time]. split; [lia |]. split; lia.
  - destruct fuel as [|fuel]; [cbn in Hf; lia |].
    destruct (Hans O l0 st0 eq_refl) as [Hlat Hst]. rewrite Nat.add_0_r in Hlat, Hst.
    apply Forall_cons in Hnd as [Hst0 Hrest]. cbn in Hst0.
    pose proof (script_time_lower poll rest Hp) as Hlow.
    pose proof (N2Z.is_nonneg l0) as Hl0.
    cbn [script_time] in Ht.
    rewrite poll_loop_pending with (b := b); [| lia | done | by rewrite Hst | | done].
    2: { unfold is_done. rewrite Hst. cbn. by apply String.eqb_neq. }
    destruct (IH fuel (after_sleep poll (after_query cloud b s)))
      as (s' & Hrun & Hq & Hs & Hn); try done.
    + by apply answers_tail in Hans.
    + rewrite now_after_sleep, now_after_query, Hlat. lia.
    + cbn in Hf. lia.
    + exists s'. split; [done |].
      change (queries (after_sleep poll (after_query cloud b s))) with (S (queries s)) in Hq.
      change (sleeps (after_sleep poll (after_query cloud b s))) with (S (sleeps s)) in Hs.
      rewrite now_after_sleep, now_after_query, Hlat in Hn. cbn [length script_time].
      split; [lia |]. split; lia.
Qed.

(** ** [setUp] phase by phase *)

Lemma configure_spec pkg s key :
  environ (world s) !! "VESPA_TEAM_API_KEY" = Some key ->
  exists t,
    configure pkg s = Some (inr tt, {| self := t; world := world s |}) /\
    instance_name t = Some "token" /\
    disk_folder t = Some (path_join (cwd (world s)) "sample_application") /\
    app_package t =
      Some (set_auth_clients prod_auth_clients
             (set_deployment_config (DeploymentConfiguration "prod" [prod_region])
               (set_clusters prod_clusters pkg))) /\
    build_no t = build_no (self s) /\
    app t = app (self s).
Proof.
  intros Hkey. unfold configure, bind, assign, mutate_app_package, new_VespaCloud,
    os_getenv, os_getcwd, bind, get_self, set_self, get_world, attr, ret.
  cbn. rewrite Hkey. cbn. eexists. split; [reflexivity |]. by cbn.
Qed.

Lemma submit_build_ok cloud s instance folder b :
  instance_name (self s) = Some instance ->
  disk_folder (self s) = Some folder ->
  outcome (on_deploy_to_prod cloud (calls is_deploy_to_prod (log (world s)))) = inr b ->
  exists s',
    submit_build cloud s = Some (inr tt, s') /\
    build_no (self s') = Some b /\
    app (self s') = app (self s) /\
    app_package (self s') = app_package (self s) /\
    now (world s) <= now (world s') /\
    queries s' = queries s /\
    sleeps s' = sleeps s /\
    calls is_get_application (log (world s')) = calls is_get_application (log (world s)) /\
    removal_acknowledged (log (world s')) = false.
Proof.
  intros Hi Hf Hb. unfold submit_build, bind, get_self, deploy_to_prod, bind,
    get_world, remote, assign, bind, get_self, set_self, attr, ret.
  cbn. rewrite Hi, Hf. cbn. rewrite Hb. cbn. eexists. split; [reflexivity |].
  cbn -[Z.of_N]. repeat split; try done.
  pose proof (N2Z.is_nonneg
    (latency (on_deploy_to_prod cloud (calls is_deploy_to_prod (log (world s)))))).
  lia.
Qed.

Lemma connect_ok cloud s a :
  outcome (on_get_application cloud (calls is_get_application (log (world s)))) = inr a ->
  exists s',
    connect cloud s = Some (inr tt, s') /\
    app (self s') = Some a /\
    queries s' = queries s /\
    sleeps s' = sleeps s /\
    removal_acknowledged (log (world s')) = removal_acknowledged (log (world s)).
Proof.
  intros Ha. unfold connect, bind, get_application, bind, get_world, remote, assign,
    print, bind, get_self, set_self, get_world, set_world, ret.
  cbn -[Z.of_N range]. rewrite Ha. eexists. split; [reflexivity |]. by cbn -[Z.of_N].
Qed.

(** A whole [setUp] against a control plane that accepts the submission,
    answers the status queries by a script ending in "done" before the
    ceiling, and hands out the application [a]. *)
Lemma setUp_with_script cloud pkg T poll s key b pending lat a :
  0 < poll ->
  environ (world s) !! "VESPA_TEAM_API_KEY" = Some key ->
  outcome (on_deploy_to_prod cloud (calls is_deploy_to_prod (log (world s)))) = inr b ->
  answers cloud (queries s) (pending ++ [(lat, "done")]) ->
  Forall (fun x => x.2 <> "done") pending ->
  script_time poll pending < T ->
  outcome (on_get_application cloud (calls is_get_application (log (world s)))) = inr a ->
  exists s',
    setUp_with cloud pkg (enough_fuel T poll) T poll s = Some (inr tt, s') /\
    app (self s') = Some a /\
    lifecycle_phase s' = Running /\
    queries s' = S (queries s + length pending) /\
    sleeps s' = (sleeps s + length pending)%nat.
Proof.
  intros Hp Hkey Hb Hans Hnd Ht Ha.
  destruct (configure_spec pkg s key Hkey) as (t & Hc & Hi & Hf & _ & _ & _).
  destruct (submit_build_ok cloud {| self := t; world := world s |} "token"
              (path_join (cwd (world s)) "sample_application") b Hi Hf Hb)
    as (s1 & Hs & Hb1 & _ & _ & _ & Hq1 & Hsl1 & Hg1 & Hr1).
  destruct (poll_loop_script cloud T poll (now (world s1)) b lat pending
              (enough_fuel T poll) s1) as (s2 & Hloop & Hq2 & Hsl2 & _); try done.
  { by rewrite Hq1. }
  { lia. }
  { lia. }
  { by apply fuel_for_script. }
  destruct (poll_loop_frame _ _ _ _ _ _ _ _ Hloop) as (Hself2 & _ & Hr2 & Hg2 & _).
  destruct (connect_ok cloud s2 a) as (s3 & Hconn & Happ & Hq3 & Hsl3 & Hr3).
  { by rewrite Hg2, Hg1. }
  exists s3. split.
  - unfold setUp_with, bind. rewrite Hc, Hs.
    rewrite await_build_unfold, Hloop. exact Hconn.
  - split; [done |]. split.
    + unfold lifecycle_phase. by rewrite Hr3, Hr2, Hr1, Happ.
    + rewrite Hq3, Hq2, Hq1, Hsl3, Hsl2, Hsl1. done.
Qed.

(** ** Intermediate statuses do not matter *)

(** C6: a control plane that answers the status queries with Submitted,
    InProgress, InProgress, Done and one that answers Submitted, Done (any
    two statuses other than "done" for Submitted and InProgress, any
    latencies that keep both runs under the ceiling) take [setUp] to the same
    end: it returns normally, the deployment is [Running], and the test holds
    the application handle the control plane hands out, the same in both. *)
Theorem setUp_ignores_intermediate_statuses
    cloud1 cloud2 pkg T poll s1 s2 key1 key2 b1 b2
    (Submitted_ InProgress : string) (a0 a1 a2 a3 c0 c1 : N) (instance : Vespa) :
  0 < poll ->
  Submitted_ <> "done" -> InProgress <> "done" ->
  environ (world s1) !! "VESPA_TEAM_API_KEY" = Some key1 ->
  environ (world s2) !! "VESPA_TEAM_API_KEY" = Some key2 ->
  outcome (on_deploy_to_prod cloud1 (calls is_deploy_to_prod (log (world s1)))) = inr b1 ->
  outcome (on_deploy_to_prod cloud2 (calls is_deploy_to_prod (log (world s2)))) = inr b2 ->
  answers cloud1 (queries s1)
    [(a0, Submitted_); (a1, InProgress); (a2, InProgress); (a3, "done")] ->
  answers cloud2 (queries s2) [(c0, Submitted_); (c1, "done")] ->
  script_time poll [(a0, Submitted_); (a1, InProgress); (a2, InProgress)] < T ->
  script_time poll [(c0, Submitted_)] < T ->
  outcome (on_get_application cloud1 (calls is_get_application (log (world s1))))
    = inr instance ->
  outcome (on_get_application cloud2 (calls is_get_application (log (world s2))))
    = inr instance ->
  exists s1' s2',
    setUp_with cloud1 pkg (enough_fuel T poll) T poll s1 = Some (inr tt, s1') /\
    setUp_with cloud2 pkg (enough_fuel T poll) T poll s2 = Some (inr tt, s2') /\
    lifecycle_phase s1' = Running /\ lifecycle_phase s2' = Running /\
    app (self s1') = Some instance /\ app (self s2') = app (self s1').
Proof.
  intros Hp HS HP Hk1 Hk2 Hb1 Hb2 Hans1 Hans2 Ht1 Ht2 Ha1 Ha2.
  destruct (setUp_with_script cloud1 pkg T poll s1 key1 b1
              [(a0, Submitted_); (a1, InProgress); (a2, InProgress)] a3 instance)
    as (s1' & Hrun1 & Happ1 & Hph1 & _); try done.
  { by repeat constructor. }
  destruct (setUp_with_script cloud2 pkg T poll s2 key2 b2
              [(c0, Submitted_)] c1 instance)
    as (s2' & Hrun2 & Happ2 & Hph2 & _); try done.
  { by repeat constructor. }
  exists s1', s2'. repeat split; try done. by rewrite Happ1.
Qed.

(** ** [tearDown] case by case *)

(** For a test case that [setUp] has filled in, [tearDown] ends in one of
    three ways: delete-all raised, the submission raised, or both returned. *)
Lemma tearDown_run cloud s a p folder vc :
  app (self s) = Some a ->
  app_package (self s) = Some p ->
  disk_folder (self s) = Some folder ->
  vespa_cloud (self s) = Some vc ->
  tearDown cloud s =
  match outcome (delete_all_reply cloud s) with
  | inl e => Some (inl e, cleaned cloud s)
  | inr _ =>
    match outcome (submission_reply cloud s) with
    | inl e => Some (inl e, removal_submitted cloud p folder s)
    | inr _ => Some (inr tt, released folder (removal_submitted cloud p folder s))
    end
  end.
Proof.
  intros Ha Hp Hf Hv.
  unfold tearDown, bind, get_self, attr, delete_all_docs, bind, get_world, remote.
  rewrite Ha.
  cbn -[Z.of_N strftime_Ymd timedelta_days insert lookup delete mutate_app_package
        datetime_now to_files _start_prod_deployment rmtree].
  fold (delete_all_reply cloud s).
  destruct (outcome (delete_all_reply cloud s)) as [e|[]] eqn:Hdel.
  - unfold cleaned, after_remote. rewrite Hdel. reflexivity.
  - unfold mutate_app_package, bind, get_self, set_self, attr, ret, datetime_now,
      time_time, bind, get_world, ret.
    cbn -[Z.of_N strftime_Ymd timedelta_days insert lookup delete
          to_files _start_prod_deployment rmtree]. rewrite Hp.
    cbn -[Z.of_N strftime_Ymd timedelta_days insert lookup delete
          to_files _start_prod_deployment rmtree]. rewrite Hf, Hv.
    unfold to_files, _start_prod_deployment, rmtree, bind, get_world, set_world, remote.
    cbn -[Z.of_N strftime_Ymd timedelta_days insert lookup delete].
    rewrite lookup_insert_eq. fold (submission_reply cloud s).
    destruct (outcome (submission_reply cloud s)) as [e|b] eqn:Hsub.
    + unfold removal_submitted, after_remote, staged, cleaned, after_remote,
        write_folder, removal_package.
      cbn -[Z.of_N strftime_Ymd timedelta_days insert lookup delete].
      rewrite Hdel, Hsub. reflexivity.
    + unfold released, removal_submitted, after_remote, staged, cleaned, after_remote,
        write_folder, removal_package.
      cbn -[Z.of_N strftime_Ymd timedelta_days insert lookup delete].
      rewrite Hdel, Hsub. reflexivity.
Qed.

(** ** Delete-all raises *)

(** C4, as stated, fails: on a running deployment whose delete-all raises,
    [tearDown] raises that error; no removal is submitted (although the
    control plane would have accepted it) and the deployment is still
    [Running], not [Removed]. *)
Lemma tearDown_cleanup_failure_aborts :
  lifecycle_phase (deployed broken_cleanup 1000) = Running /\
  is_inr (outcome (submission_reply broken_cleanup (deployed broken_cleanup 1000))) = true /\
  result (tearDown broken_cleanup (deployed broken_cleanup 1000))
    = Some (inl (Upstream "HTTPError: 500")) /\
  submissions (final (tearDown broken_cleanup (deployed broken_cleanup 1000))
                 (deployed broken_cleanup 1000)) = O /\
  lifecycle_phase (final (tearDown broken_cleanup (deployed broken_cleanup 1000))
                     (deployed broken_cleanup 1000)) = Running.
Proof.
  split; [vm_compute; reflexivity |]. split; [vm_compute; reflexivity |].
  split; [vm_compute; reflexivity |]. split; vm_compute; reflexivity.
Qed.

(** C4, amended: an error raised by delete-all ends [tearDown] there.  The
    error reaches the caller; the application package, the staging folders
    and the test case are as they were; no removal is submitted and the
    lifecycle state does not change. *)
Theorem tearDown_aborts_when_cleanup_raises cloud s a e :
  app (self s) = Some a ->
  outcome (delete_all_reply cloud s) = inl e ->
  exists s',
    tearDown cloud s = Some (inl e, s') /\
    self s' = self s /\
    disk (world s') = disk (world s) /\
    submissions s' = submissions s /\
    lifecycle_phase s' = lifecycle_phase s.
Proof.
  intros Ha He. exists (cleaned cloud s). split.
  - unfold tearDown, bind, get_self, attr, delete_all_docs, bind, get_world, remote.
    rewrite Ha. cbn -[Z.of_N]. fold (delete_all_reply cloud s). rewrite He.
    unfold cleaned, after_remote. by rewrite He.
  - done.
Qed.

Lemma tearDown_aborts_when_cleanup_raises_witness :
  exists s',
    tearDown broken_cleanup (deployed broken_cleanup 1000)
      = Some (inl (Upstream "HTTPError: 500"), s') /\
    self s' = self (deployed broken_cleanup 1000) /\
    disk (world s') = disk (world (deployed broken_cleanup 1000)) /\
    submissions s' = submissions (deployed broken_cleanup 1000) /\
    lifecycle_phase s' = lifecycle_phase (deployed broken_cleanup 1000).
Proof.
  apply (tearDown_aborts_when_cleanup_raises broken_cleanup
           (deployed broken_cleanup 1000) endpoint (Upstream "HTTPError: 500")).
  - vm_compute. reflexivity.
  - vm_compute. reflexivity.
Defined.

(** ** The removal submission *)

Lemma tomorrow_is_later t :
  day_of (t + timedelta_days 1) = day_of t + 1 /\
  t < seconds_per_day * day_of (t + timedelta_days 1).
Proof.
  unfold day_of, timedelta_days, seconds_per_day.
  rewrite Z.div_add by lia.
  pose proof (Z.div_mod t 86400 ltac:(lia)).
  pose proof (Z.mod_pos_bound t 86400 ltac:(lia)). lia.
Qed.

(** C10: a [tearDown] that gets past delete-all logs, in this order, the
    writing of the package to the staging folder and then one removal
    submission that carries what was written: the package of the test case
    with its deployment configuration replaced by the empty one and its
    validations replaced by the single entry "deployment-removal".  The
    write starts when delete-all has been answered, and the submission when
    the write has ended.  The package object of the test case is that
    package, and nothing but the removal of the folder follows. *)
Theorem tearDown_removal_shape cloud s a p folder vc :
  app (self s) = Some a ->
  app_package (self s) = Some p ->
  disk_folder (self s) = Some folder ->
  vespa_cloud (self s) = Some vc ->
  is_inr (outcome (delete_all_reply cloud s)) = true ->
  exists r s' tw t pkg date ok tail,
    tearDown cloud s = Some (r, s') /\
    pkg = set_validations
            [ {| validation_id := {| validation_value := "deployment-removal" |};
                 until := date |} ]
            (set_deployment_config EmptyDeploymentConfiguration p) /\
    log (world s') =
      (tail ++
       [ {| ev_time := t; ev_call := Estart_prod_deployment folder (Some pkg);
            ev_ok := ok |};
         {| ev_time := tw; ev_call := Eto_files folder pkg; ev_ok := true |};
         {| ev_time := now (world s);
            ev_call := Edelete_all_docs "msmarco_content" "msmarco";
            ev_ok := true |} ] ++ log (world s))%list /\
    tw = now (world s) + Z.of_N (latency (delete_all_reply cloud s)) /\
    t = tw + write_time (world s) /\
    (tail = [] \/ tail = [ {| ev_time := now (world s'); ev_call := Ermtree folder;
                              ev_ok := true |} ]) /\
    app_package (self s') = Some pkg /\
    submissions s' = S (submissions s).
Proof.
  intros Ha Hp Hf Hv Hdel.
  rewrite (tearDown_run cloud s a p folder vc Ha Hp Hf Hv).
  destruct (outcome (delete_all_reply cloud s)) as [e|[]] eqn:Ho; [done |].
  destruct (outcome (submission_reply cloud s)) as [e|b] eqn:Hsub.
  - eexists _, _, _, _, _, _, _, []. split; [reflexivity |].
    split; [reflexivity |]. split.
    + unfold removal_submitted, after_remote, staged, cleaned, after_remote.
      cbn -[Z.of_N strftime_Ymd timedelta_days insert write_time local_time].
      rewrite Ho. reflexivity.
    + split; [reflexivity |]. split; [reflexivity |].
      split; [by left |]. split; [reflexivity |]. by cbn.
  - eexists _, _, _, _, _, _, _, [_]. split; [reflexivity |].
    split; [reflexivity |]. split.
    + unfold released, removal_submitted, after_remote, staged, cleaned, after_remote.
      cbn -[Z.of_N strftime_Ymd timedelta_days insert write_time local_time].
      rewrite Ho. reflexivity.
    + split; [reflexivity |]. split; [reflexivity |].
      split; [by right |]. split; [reflexivity |]. by cbn.
Qed.

Lemma tearDown_removal_shape_witness :
  exists r s' tw t pkg date ok tail,
    tearDown healthy (deployed healthy 1000) = Some (r, s') /\
    pkg = set_validations
            [ {| validation_id := {| validation_value := "deployment-removal" |};
                 until := date |} ]
            (set_deployment_config EmptyDeploymentConfiguration
               (set_auth_clients prod_auth_clients
                  (set_deployment_config (DeploymentConfiguration "prod" [prod_region])
                     (set_clusters prod_clusters msmarco)))) /\
    log (world s') =
      (tail ++
       [ {| ev_time := t;
            ev_call := Estart_prod_deployment "/home/ci/sample_application" (Some pkg);
            ev_ok := ok |};
         {| ev_time := tw; ev_call := Eto_files "/home/ci/sample_application" pkg;
            ev_ok := true |};
         {| ev_time := now (world (deployed healthy 1000));
            ev_call := Edelete_all_docs "msmarco_content" "msmarco";
            ev_ok := true |} ] ++ log (world (deployed healthy 1000)))%list /\
    tw = now (world (deployed healthy 1000))
         + Z.of_N (latency (delete_all_reply healthy (deployed healthy 1000))) /\
    t = tw + write_time (world (deployed healthy 1000)) /\
    (tail = [] \/ tail = [ {| ev_time := now (world s');
                              ev_call := Ermtree "/home/ci/sample_application";
                              ev_ok := true |} ]) /\
    app_package (self s') = Some pkg /\
    submissions s' = S (submissions (deployed healthy 1000)).
Proof.
  apply (tearDown_removal_shape healthy (deployed healthy 1000) endpoint _ _
           {| tenant := "vespa-team"; application := "pyvespa-integration";
              key_content := unescape_newlines "-----BEGIN KEY-----\nabc";
              auth_client_token_id := Some token_id |}).
  - vm_compute. reflexivity.
  - vm_compute. reflexivity.
  - vm_compute. reflexivity.
  - vm_compute. reflexivity.
  - vm_compute. reflexivity.
Defined.

(** ** The date of the validation override *)

Example datetime_range_dates :
  strftime_Ymd datetime_min = "1-01-01" /\
  strftime_Ymd (datetime_end - 1) = "9999-12-31" /\
  strftime_Ymd 0 = "1970-01-01".
Proof. vm_compute. done. Qed.

(** C5, as stated, fails.  [tearDown] reads the clock before it writes the
    package: on a host that takes a second to write it, a [tearDown] that
    reads the clock in the last second of 2025-11-04 submits the removal in
    the first second of 2025-11-05, with an override until 2025-11-05, the
    day of the submission. *)
Lemma tearDown_override_same_day :
  result (tearDown healthy (slow_disk 1 (deployed healthy 1762300790)))
    = Some (inr tt) /\
  match log (world (torn_down healthy (slow_disk 1 (deployed healthy 1762300790)))) with
  | _ :: {| ev_time := t; ev_call := Estart_prod_deployment _ (Some pkg) |} :: _ =>
    (t, strftime_Ymd t, map until (validations pkg),
     forallb (fun v => String.eqb (until v) (strftime_Ymd t)) (validations pkg))
  | _ => (0, "", [], false)
  end = (1762300800, "2025-11-05", ["2025-11-05"], true).
Proof. split; vm_compute; reflexivity. Qed.

(** The same on a host eight hours behind UTC, although the write takes no
    time: at 20:00 on 2025-11-04 there, the date of tomorrow is the date
    the control plane has already. *)
Example tearDown_override_west_of_utc :
  match log (world (torn_down healthy (in_zone (-28800) (deployed healthy 1762315191)))) with
  | _ :: {| ev_time := t; ev_call := Estart_prod_deployment _ (Some pkg) |} :: _ =>
    (strftime_Ymd (t - 28800), strftime_Ymd t, map until (validations pkg))
  | _ => ("", "", [])
  end = ("2025-11-04", "2025-11-05", ["2025-11-05"]).
Proof. vm_compute. reflexivity. Qed.

(** C5, amended: the override holds until the day after the local date that
    [datetime.now()] gives when [tearDown] reads the clock, which it does
    once delete-all has been answered and before it writes the package; the
    submission starts when the write has ended.  On whatever calendar the
    day of the submission is read ([zone] seconds ahead of UTC), the
    override is dated a later day than the submission when the submission
    starts on the local day of the clock reading or before it, and is not
    when it starts on a later day; so the removal is accepted by a control
    plane that rejects an override of the same day exactly in the first
    case. *)
Theorem tearDown_override_after_clock_read cloud s a p folder vc zone :
  app (self s) = Some a ->
  app_package (self s) = Some p ->
  disk_folder (self s) = Some folder ->
  vespa_cloud (self s) = Some vc ->
  is_inr (outcome (delete_all_reply cloud s)) = true ->
  representable (local_time (world (cleaned cloud s))) = true ->
  representable (local_time (world (cleaned cloud s)) + timedelta_days 1) = true ->
  exists r s' t ok pkg today,
    tearDown cloud s = Some (r, s') /\
    submissions s' = S (submissions s) /\
    In {| ev_time := t; ev_call := Estart_prod_deployment folder (Some pkg);
          ev_ok := ok |} (log (world s')) /\
    today = local_time (world (cleaned cloud s)) /\
    t = now (world (cleaned cloud s)) + write_time (world s) /\
    validations pkg =
      [ {| validation_id := {| validation_value := "deployment-removal" |};
           until := strftime_Ymd (today + timedelta_days 1) |} ] /\
    day_of (today + timedelta_days 1) = day_of today + 1 /\
    (day_of (t + zone) <= day_of today ->
     later_day (t + zone) (today + timedelta_days 1) = true) /\
    (day_of today < day_of (t + zone) ->
     later_day (t + zone) (today + timedelta_days 1) = false) /\
    (ok = later_day (t + zone) (today + timedelta_days 1) ->
     (is_inr r = true <-> day_of (t + zone) <= day_of today)).
Proof.
  intros Ha Hp Hf Hv Hdel _ _.
  rewrite (tearDown_run cloud s a p folder vc Ha Hp Hf Hv).
  destruct (outcome (delete_all_reply cloud s)) as [e|[]] eqn:Ho; [done |].
  set (today := local_time (world (cleaned cloud s))).
  set (t := now (world (cleaned cloud s)) + write_time (world s)).
  destruct (tomorrow_is_later today) as [Hday _].
  assert (Hin : In {| ev_time := t;
                      ev_call := Estart_prod_deployment folder
                                   (Some (removal_package today p));
                      ev_ok := is_inr (outcome (submission_reply cloud s)) |}
                   (log (world (removal_submitted cloud p folder s)))) by (by left).
  assert (Hlater : forall b, b = later_day (t + zone) (today + timedelta_days 1) ->
                     (b = true <-> day_of (t + zone) <= day_of today)).
  { intros b ->. unfold later_day. rewrite Hday, Z.ltb_lt. lia. }
  destruct (outcome (submission_reply cloud s)) as [e|b] eqn:Hsub.
  - exists (inl e), (removal_submitted cloud p folder s), t, false,
      (removal_package today p), today.
    split; [done |]. split; [by cbn |]. split; [done |]. split; [done |].
    split; [done |]. split; [done |]. split; [done |].
    split; [intros H; by apply Hlater |].
    split; [intros H; unfold later_day; rewrite Hday; apply Z.ltb_ge; lia |].
    intros Hok. by apply Hlater.
  - exists (inr tt), (released folder (removal_submitted cloud p folder s)), t, true,
      (removal_package today p), today.
    split; [done |]. split; [by cbn |]. split; [by right |]. split; [done |].
    split; [done |]. split; [done |]. split; [done |].
    split; [intros H; by apply Hlater |].
    split; [intros H; unfold later_day; rewrite Hday; apply Z.ltb_ge; lia |].
    intros Hok. by apply Hlater.
Qed.

Lemma tearDown_override_after_clock_read_witness :
  exists r s' t ok pkg today,
    tearDown healthy (slow_disk 1 (deployed healthy 1762300790)) = Some (r, s') /\
    submissions s' = S (submissions (slow_disk 1 (deployed healthy 1762300790))) /\
    In {| ev_time := t;
          ev_call := Estart_prod_deployment "/home/ci/sample_application" (Some pkg);
          ev_ok := ok |} (log (world s')) /\
    today = local_time
              (world (cleaned healthy (slow_disk 1 (deployed healthy 1762300790)))) /\
    t = now (world (cleaned healthy (slow_disk 1 (deployed healthy 1762300790))))
        + write_time (world (slow_disk 1 (deployed healthy 1762300790))) /\
    validations pkg =
      [ {| validation_id := {| validation_value := "deployment-removal" |};
           until := strftime_Ymd (today + timedelta_days 1) |} ] /\
    day_of (today + timedelta_days 1) = day_of today + 1 /\
    (day_of (t + 0) <= day_of today ->
     later_day (t + 0) (today + timedelta_days 1) = true) /\
    (day_of today < day_of (t + 0) ->
     later_day (t + 0) (today + timedelta_days 1) = false) /\
    (ok = later_day (t + 0) (today + timedelta_days 1) ->
     (is_inr r = true <-> day_of (t + 0) <= day_of today)).
Proof.
  apply (tearDown_override_after_clock_read healthy
           (slow_disk 1 (deployed healthy 1762300790))
           endpoint
           (set_auth_clients prod_auth_clients
              (set_deployment_config (DeploymentConfiguration "prod" [prod_region])
                 (set_clusters prod_clusters msmarco)))
           "/home/ci/sample_application"
           {| tenant := "vespa-team"; application := "pyvespa-integration";
              key_content := unescape_newlines "-----BEGIN KEY-----\nabc";
              auth_client_token_id := Some token_id |}
           0).
  - vm_compute. reflexivity.
  - vm_compute. reflexivity.
  - vm_compute. reflexivity.
  - vm_compute. reflexivity.
  - vm_compute. reflexivity.
  - vm_compute. reflexivity.
  - vm_compute. reflexivity.
Defined.

(** ** [tearDown] twice *)

Lemma acknowledged_cleaned cloud s :
  removal_acknowledged (log (world (cleaned cloud s)))
  = removal_acknowledged (log (world s)).
Proof. reflexivity. Qed.

Lemma acknowledged_removal_submitted cloud p folder s :
  removal_acknowledged (log (world (removal_submitted cloud p folder s)))
  = if is_inr (outcome (submission_reply cloud s)) then true
    else removal_acknowledged (log (world s)).
Proof.
  unfold removal_submitted, after_remote. cbn -[Z.of_N removal_package].
  by destruct (is_inr (outcome (submission_reply cloud s))).
Qed.

Lemma acknowledged_released folder s :
  removal_acknowledged (log (world (released folder s)))
  = removal_acknowledged (log (world s)).
Proof. reflexivity. Qed.

Lemma phase_same_self s s' :
  app (self s') = app (self s) ->
  build_no (self s') = build_no (self s) ->
  removal_acknowledged (log (world s')) = removal_acknowledged (log (world s)) ->
  lifecycle_phase s' = lifecycle_phase s.
Proof. intros Ha Hb Hr. unfold lifecycle_phase. by rewrite Ha, Hb, Hr. Qed.

Lemma phase_removed s :
  removal_acknowledged (log (world s)) = true -> lifecycle_phase s = Removed.
Proof. intros H. unfold lifecycle_phase. by rewrite H. Qed.

(** What [tearDown] leaves behind, whichever way it ends. *)
Lemma tearDown_outcome cloud s a p folder vc r s' :
  app (self s) = Some a ->
  app_package (self s) = Some p ->
  disk_folder (self s) = Some folder ->
  vespa_cloud (self s) = Some vc ->
  tearDown cloud s = Some (r, s') ->
  app (self s') = Some a /\
  build_no (self s') = build_no (self s) /\
  disk_folder (self s') = Some folder /\
  vespa_cloud (self s') = Some vc /\
  is_inr r = (is_inr (outcome (delete_all_reply cloud s))
              && is_inr (outcome (submission_reply cloud s)))%bool /\
  (if is_inr (outcome (delete_all_reply cloud s))
   then exists t, app_package (self s') = Some (removal_package t p)
   else app_package (self s') = Some p) /\
  removal_acknowledged (log (world s'))
  = if (is_inr (outcome (delete_all_reply cloud s))
        && is_inr (outcome (submission_reply cloud s)))%bool
    then true else removal_acknowledged (log (world s)).
Proof.
  intros Ha Hp Hf Hv Hrun.
  rewrite (tearDown_run cloud s a p folder vc Ha Hp Hf Hv) in Hrun.
  destruct (outcome (delete_all_reply cloud s)) as [e|[]] eqn:Hdel.
  - inversion Hrun; subst. by cbn.
  - destruct (outcome (submission_reply cloud s)) as [e|b] eqn:Hsub;
      inversion Hrun; subst.
    + rewrite acknowledged_removal_submitted, Hsub.
      repeat split; try done. by eexists.
    + rewrite acknowledged_released, acknowledged_removal_submitted, Hsub.
      repeat split; try done. by eexists.
Qed.

(** C8: a second [tearDown] right after the first leaves the deployment in
    the lifecycle state the first one left it in, with the same deployment
    configuration in the package.  This holds whatever the second call meets
    when the first one returned normally (the state is then [Removed]), and,
    when the first one raised, provided delete-all and the submission fare
    the second time as they did the first. *)
Theorem tearDown_twice cloud s a p folder vc r1 s1 r2 s2 :
  app (self s) = Some a ->
  app_package (self s) = Some p ->
  disk_folder (self s) = Some folder ->
  vespa_cloud (self s) = Some vc ->
  tearDown cloud s = Some (r1, s1) ->
  tearDown cloud s1 = Some (r2, s2) ->
  is_inr r1 = true \/
  (is_inr (outcome (delete_all_reply cloud s1))
     = is_inr (outcome (delete_all_reply cloud s)) /\
   is_inr (outcome (submission_reply cloud s1))
     = is_inr (outcome (submission_reply cloud s))) ->
  lifecycle_phase s2 = lifecycle_phase s1 /\
  (is_inr r1 = true -> lifecycle_phase s1 = Removed) /\
  deployment_config <$> app_package (self s2)
    = deployment_config <$> app_package (self s1).
Proof.
  intros Ha Hp Hf Hv Hrun1 Hrun2 Hsame.
  destruct (tearDown_outcome _ _ _ _ _ _ _ _ Ha Hp Hf Hv Hrun1)
    as (Ha1 & Hb1 & Hf1 & Hv1 & Hr1 & Hp1 & Hack1).
  assert (exists p1, app_package (self s1) = Some p1 /\
            (is_inr (outcome (delete_all_reply cloud s)) = true ->
             deployment_config p1 = Some EmptyDeploymentConfiguration))
    as (p1 & Hpkg1 & Hcfg1).
  { destruct (is_inr (outcome (delete_all_reply cloud s))).
    - destruct Hp1 as [t Ht]. by eexists.
    - by exists p. }
  destruct (tearDown_outcome _ _ _ _ _ _ _ _ Ha1 Hpkg1 Hf1 Hv1 Hrun2)
    as (Ha2 & Hb2 & _ & _ & Hr2 & Hp2 & Hack2).
  split; [| split].
  - apply phase_same_self; [congruence | congruence |].
    rewrite Hack2.
    destruct (is_inr (outcome (delete_all_reply cloud s1))
              && is_inr (outcome (submission_reply cloud s1)))%bool eqn:Hboth2;
      [| done].
    rewrite Hack1.
    destruct Hsame as [Hok | [Hd Hs]].
    + by rewrite <- Hr1, Hok.
    + by rewrite <- Hd, <- Hs, Hboth2.
  - intros Hok. apply phase_removed. by rewrite Hack1, <- Hr1, Hok.
  - rewrite Hpkg1.
    destruct (is_inr (outcome (delete_all_reply cloud s1))) eqn:Hd2.
    + destruct Hp2 as [t Ht]. rewrite Ht. cbn. f_equal. symmetry. apply Hcfg1.
      destruct Hsame as [Hok | [Hd Hs]]; [| congruence].
      rewrite Hok in Hr1. symmetry in Hr1. by apply andb_prop in Hr1 as [? ?].
    + by rewrite Hp2.
Qed.

Lemma tearDown_twice_witness :
  lifecycle_phase (torn_down healthy (torn_down healthy (deployed healthy 1000)))
    = lifecycle_phase (torn_down healthy (deployed healthy 1000)) /\
  (is_inr (inr tt : exn + unit) = true ->
   lifecycle_phase (torn_down healthy (deployed healthy 1000)) = Removed) /\
  deployment_config <$>
    app_package (self (torn_down healthy (torn_down healthy (deployed healthy 1000))))
    = deployment_config <$>
        app_package (self (torn_down healthy (deployed healthy 1000))).
Proof.
  apply (tearDown_twice healthy (deployed healthy 1000) endpoint
           (set_auth_clients prod_auth_clients
              (set_deployment_config (DeploymentConfiguration "prod" [prod_region])
                 (set_clusters prod_clusters msmarco)))
           "/home/ci/sample_application"
           {| tenant := "vespa-team"; application := "pyvespa-integration";
              key_content := unescape_newlines "-----BEGIN KEY-----\nabc";
              auth_client_token_id := Some token_id |}
           (inr tt) (torn_down healthy (deployed healthy 1000))
           (inr tt) (torn_down healthy (torn_down healthy (deployed healthy 1000)))).
  - vm_compute. reflexivity.
  - vm_compute. reflexivity.
  - vm_compute. reflexivity.
  - vm_compute. reflexivity.
  - vm_compute. reflexivity.
  - vm_compute. reflexivity.
  - left. reflexivity.
Defined.

Lemma setUp_ignores_intermediate_statuses_witness :
  exists s1' s2',
    setUp_with long_build msmarco (enough_fuel 1200 5) 1200 5 (fresh 1000)
      = Some (inr tt, s1') /\
    setUp_with short_build msmarco (enough_fuel 1200 5) 1200 5 (fresh 1000)
      = Some (inr tt, s2') /\
    lifecycle_phase s1' = Running /\ lifecycle_phase s2' = Running /\
    app (self s1') = Some endpoint /\ app (self s2') = app (self s1').
Proof.
  apply (setUp_ignores_intermediate_statuses long_build short_build msmarco 1200 5
           (fresh 1000) (fresh 1000)
           "-----BEGIN KEY-----\nabc" "-----BEGIN KEY-----\nabc" 42 42
           "submitted" "running" 1%N 1%N 1%N 1%N 1%N 1%N endpoint).
  - lia.
  - discriminate.
  - discriminate.
  - vm_compute. reflexivity.
  - vm_compute. reflexivity.
  - reflexivity.
  - reflexivity.
  - intros [|[|[|[|k]]]] lat st H; inversion H; split; reflexivity.
  - intros [|[|k]] lat st H; inversion H; split; reflexivity.
  - vm_compute. reflexivity.
  - vm_compute. reflexivity.
  - reflexivity.
  - reflexivity.
Defined.

(** ** The dev deployment *)

(** C7: [setUp] of the dev test always ends, and never queries the build
    status (nor sleeps): it calls [deploy] at most once, and when it returns
    normally the test holds the application that this one call returned and
    the deployment is [Running] unless a removal had been acknowledged
    before. *)
Theorem setUp_dev_never_polls cloud s :
  exists r s',
    setUp_dev cloud s = Some (r, s') /\
    queries s' = queries s /\
    sleeps s' = sleeps s /\
    (calls is_deploy (log (world s')) <= S (calls is_deploy (log (world s))))%nat /\
    (is_inr r = true ->
     calls is_deploy (log (world s')) = S (calls is_deploy (log (world s))) /\
     exists a,
       outcome (on_deploy cloud (calls is_deploy (log (world s)))) = inr a /\
       app (self s') = Some a /\
       (removal_acknowledged (log (world s)) = false -> lifecycle_phase s' = Running)).
Proof.
  unfold setUp_dev, bind, new_VespaCloud, os_getenv, bind, get_world, assign, bind,
    get_self, set_self, attr, deploy, bind, get_world, remote, raise, ret.
  cbn -[Z.of_N].
  destruct (environ (world s) !! "VESPA_CLOUD_USER_KEY") as [key|]; cbn -[Z.of_N].
  2: { eexists _, _. split; [reflexivity |]. cbn. repeat split; try done. lia. }
  destruct (environ (world s) !! "WORK_DIR") as [dir|]; cbn -[Z.of_N].
  2: { eexists _, _. split; [reflexivity |]. cbn. repeat split; try done. lia. }
  destruct (outcome (on_deploy cloud (calls is_deploy (log (world s))))) as [e|a] eqn:Hd.
  - eexists _, _. split; [reflexivity |]. cbn -[Z.of_N]. rewrite ?Hd. cbn.
    repeat split; try done; try lia.
  - eexists _, _. split; [reflexivity |]. cbn -[Z.of_N]. rewrite ?Hd. cbn -[Z.of_N].
    repeat split; try done; try lia.
    exists a. repeat split. intros Hack. unfold lifecycle_phase. cbn -[Z.of_N].
    by rewrite Hack.
Qed.

Lemma setUp_dev_never_polls_witness :
  exists r s',
    setUp_dev healthy (fresh 0) = Some (r, s') /\
    queries s' = queries (fresh 0) /\
    sleeps s' = sleeps (fresh 0) /\
    (calls is_deploy (log (world s')) <= S (calls is_deploy (log (world (fresh 0)))))%nat /\
    (is_inr r = true ->
     calls is_deploy (log (world s')) = S (calls is_deploy (log (world (fresh 0)))) /\
     exists a,
       outcome (on_deploy healthy (calls is_deploy (log (world (fresh 0))))) = inr a /\
       app (self s') = Some a /\
       (removal_acknowledged (log (world (fresh 0))) = false ->
        lifecycle_phase s' = Running)).
Proof. apply (setUp_dev_never_polls healthy (fresh 0)). Defined.

(** * Further properties of the deployment tests *)

(** ** How often the wait polls *)

(** Every status query but the first is preceded by a sleep, so the queries
    of a loop that started before the ceiling are fewer than the poll
    intervals that fit into what was left of it, plus one. *)
Lemma poll_loop_query_bound cloud T poll start fuel : forall s r s',
  0 <= poll ->
  poll_loop cloud fuel T poll start s = Some (r, s') ->
  queries s' = queries s \/
  (Z.of_nat (queries s' - queries s) - 1) * poll < T - (now (world s) - start).
Proof.
  induction fuel as [|fuel IH]; intros s r s' Hp H; [done |].
  rewrite poll_loop_step in H.
  destruct (Z.ltb_spec (now (world s) - start) T) as [Hlt|Hge];
    [| inversion H; subst; by left].
  destruct (build_no (self s)) as [b|]; [| inversion H; subst; by left].
  assert (Hone : forall r0, Some (r0, after_query cloud b s) = Some (r, s') ->
    queries s' = queries s \/
    (Z.of_nat (queries s' - queries s) - 1) * poll < T - (now (world s) - start)).
  { intros r0 Hr. inversion Hr; subst. right.
    change (queries (after_query cloud b s)) with (S (queries s)).
    replace (S (queries s) - queries s)%nat with 1%nat by lia. lia. }
  destruct (outcome (on_check_production_build_status cloud (queries s))) as [e|d];
    [by eapply Hone |].
  destruct (d !! "status") as [v|]; [| by eapply Hone].
  destruct (eq_str v "done"); [by eapply Hone |].
  destruct (Z.ltb_spec poll 0); [lia |].
  apply IH in H; [| done]. right.
  change (queries (after_sleep poll (after_query cloud b s))) with (S (queries s)) in H.
  rewrite now_after_sleep, now_after_query in H.
  pose proof (N2Z.is_nonneg
    (latency (on_check_production_build_status cloud (queries s)))) as Hnn.
  destruct H as [Heq | Hlt'].
  - rewrite Heq. replace (S (queries s) - queries s)%nat with 1%nat by lia. lia.
  - assert (queries s' = S (queries s) \/ (S (queries s) < queries s')%nat
            \/ (queries s' <= queries s)%nat) as [Hq | [Hq | Hq]] by lia.
    + rewrite Hq. replace (S (queries s) - queries s)%nat with 1%nat by lia. lia.
    + replace (Z.of_nat (queries s' - queries s))
        with (Z.of_nat (queries s' - S (queries s)) + 1) by lia. lia.
    + replace (queries s' - queries s)%nat with O by lia. cbn. lia.
Qed.

(** X1: with a positive poll interval the wait always ends, whatever the
    control plane answers or raises, and it issues no status query at all or
    fewer than [T / poll + 1]: [(n - 1) * poll < T] for its [n] queries. *)
Theorem await_build_bounded_polling cloud T poll s :
  0 < poll ->
  exists r s',
    await_build cloud (enough_fuel T poll) T poll s = Some (r, s') /\
    (queries s' = queries s \/
     (Z.of_nat (queries s' - queries s) - 1) * poll < T).
Proof.
  intros Hp. destruct (await_build_total cloud T poll s Hp) as [[r s'] Hrun].
  exists r, s'. split; [done |].
  rewrite await_build_unfold in Hrun.
  destruct (poll_loop cloud (enough_fuel T poll) T poll (now (world s)) s)
    as [[r0 s0]|] eqn:Hloop; [| done].
  assert (s0 = s') as <- by (destruct r0 as [e|[|]]; by inversion Hrun).
  assert (Hp0 : 0 <= poll) by lia.
  destruct (poll_loop_query_bound _ _ _ _ _ _ _ _ Hp0 Hloop) as [Hq | Hq].
  - by left.
  - right. lia.
Qed.

Lemma await_build_bounded_polling_witness :
  exists r s',
    await_build (stuck "failed" 6) (enough_fuel 1200 5) 1200 5 (submitted 0)
      = Some (r, s') /\
    (queries s' = queries (submitted 0) \/
     (Z.of_nat (queries s' - queries (submitted 0)) - 1) * 5 < 1200).
Proof.
  apply (await_build_bounded_polling (stuck "failed" 6) 1200 5 (submitted 0)). lia.
Defined.

(** ** Polling through a script, whatever comes next *)

Lemma answers_prefix cloud from script rest :
  answers cloud from (script ++ rest) -> answers cloud from script.
Proof.
  intros H k lat st Hk. apply H. by apply lookup_app_l_Some.
Qed.

(** The loop after it has polled through answers that are not "done". *)
Lemma poll_loop_through cloud T poll start b : forall pending fuel s,
  answers cloud (queries s) pending ->
  Forall (fun x => x.2 <> "done") pending ->
  now (world s) - start + script_time poll pending < T ->
  0 <= poll ->
  build_no (self s) = Some b ->
  exists s1,
    poll_loop cloud (length pending + fuel) T poll start s
      = poll_loop cloud fuel T poll start s1 /\
    self s1 = self s /\
    queries s1 = (queries s + length pending)%nat /\
    sleeps s1 = (sleeps s + length pending)%nat /\
    now (world s1) = now (world s) + script_time poll pending.
Proof.
  induction pending as [|[l0 st0] rest IH]; intros fuel s Hans Hnd Ht Hp Hb.
  - exists s. cbn. repeat split; try done; lia.
  - destruct (Hans O l0 st0 eq_refl) as [Hlat Hst]. rewrite Nat.add_0_r in Hlat, Hst.
    apply Forall_cons in Hnd as [Hst0 Hrest]. cbn in Hst0.
    pose proof (script_time_lower poll rest Hp) as Hlow.
    pose proof (N2Z.is_nonneg l0) as Hl0.
    cbn [script_time] in Ht. cbn [length Nat.add].
    rewrite poll_loop_pending with (b := b); [| lia | done | by rewrite Hst | | done].
    2: { unfold is_done. rewrite Hst. cbn. by apply String.eqb_neq. }
    destruct (IH fuel (after_sleep poll (after_query cloud b s)))
      as (s1 & Hrun & Hself & Hq & Hs & Hn); try done.
    + by apply answers_tail in Hans.
    + rewrite now_after_sleep, now_after_query, Hlat. lia.
    + exists s1. split; [done |]. split; [done |].
      change (queries (after_sleep poll (after_query cloud b s))) with (S (queries s)) in Hq.
      change (sleeps (after_sleep poll (after_query cloud b s))) with (S (sleeps s)) in Hs.
      rewrite now_after_sleep, now_after_query, Hlat in Hn. cbn [script_time].
      split; [lia |]. split; lia.
Qed.

Lemma enough_fuel_split T poll (pending : list (N * string)) :
  0 < poll -> script_time poll pending < T ->
  exists fuel, enough_fuel T poll = (length pending + S fuel)%nat.
Proof.
  intros Hp Ht. pose proof (fuel_for_script T poll pending Hp Ht).
  exists (enough_fuel T poll - length pending - 1)%nat. lia.
Qed.

(** X2: when the control plane answers the status queries with [pending]
    (none of them "done") and then "done", all before the ceiling, the wait
    returns normally after exactly one query per answer and one sleep per
    pending answer, at the time the last answer arrives. *)
Theorem await_build_follows_script cloud T poll s b pending lat :
  0 < poll ->
  build_no (self s) = Some b ->
  answers cloud (queries s) (pending ++ [(lat, "done")]) ->
  Forall (fun x => x.2 <> "done") pending ->
  script_time poll pending < T ->
  exists s',
    await_build cloud (enough_fuel T poll) T poll s = Some (inr tt, s') /\
    queries s' = S (queries s + length pending) /\
    sleeps s' = (sleeps s + length pending)%nat /\
    now (world s') = now (world s) + script_time poll pending + Z.of_N lat.
Proof.
  intros Hp Hb Hans Hnd Ht.
  destruct (poll_loop_script cloud T poll (now (world s)) b lat pending
              (enough_fuel T poll) s) as (s' & Hloop & Hrest); try done.
  - lia.
  - lia.
  - by apply fuel_for_script.
  - exists s'. by rewrite await_build_unfold, Hloop.
Qed.

Lemma await_build_follows_script_witness :
  exists s',
    await_build long_build (enough_fuel 1200 5) 1200 5 (submitted 0) = Some (inr tt, s') /\
    queries s' = S (queries (submitted 0)
                    + length [(1%N, "submitted"); (1%N, "running"); (1%N, "running")]) /\
    sleeps s' = (sleeps (submitted 0)
                 + length [(1%N, "submitted"); (1%N, "running"); (1%N, "running")])%nat /\
    now (world s') = now (world (submitted 0))
      + script_time 5 [(1%N, "submitted"); (1%N, "running"); (1%N, "running")]
      + Z.of_N 1.
Proof.
  apply (await_build_follows_script long_build 1200 5 (submitted 0) 42
           [(1%N, "submitted"); (1%N, "running"); (1%N, "running")] 1%N).
  - lia.
  - reflexivity.
  - intros [|[|[|[|k]]]] lat st H; inversion H; split; reflexivity.
  - repeat constructor; discriminate.
  - vm_compute. reflexivity.
Defined.

(** X3: an exception raised by a status query ends the wait at that poll.
    After answers that are not "done", if the next query raises [e] before
    the ceiling, the wait raises [e] itself, with no sleep after that query
    and no further query. *)
Theorem await_build_propagates_upstream cloud T poll s b pending e :
  0 < poll ->
  build_no (self s) = Some b ->
  answers cloud (queries s) pending ->
  Forall (fun x => x.2 <> "done") pending ->
  script_time poll pending < T ->
  outcome (on_check_production_build_status cloud (queries s + length pending)) = inl e ->
  exists s',
    await_build cloud (enough_fuel T poll) T poll s = Some (inl e, s') /\
    queries s' = S (queries s + length pending) /\
    sleeps s' = (sleeps s + length pending)%nat.
Proof.
  intros Hp Hb Hans Hnd Ht He.
  destruct (enough_fuel_split T poll pending Hp Ht) as [fuel Hfuel].
  destruct (poll_loop_through cloud T poll (now (world s)) b pending (S fuel) s)
    as (s1 & Hloop & Hself & Hq & Hs & Hn); try done; try lia.
  exists (after_query cloud b s1).
  rewrite await_build_unfold, Hfuel, Hloop.
  rewrite (poll_loop_raised _ _ _ _ _ _ b e); [| lia | congruence | by rewrite Hq].
  split; [done |]. split.
  - change (queries (after_query cloud b s1)) with (S (queries s1)). by rewrite Hq.
  - change (sleeps (after_query cloud b s1)) with (sleeps s1). done.
Qed.

(** X4: a status response without a "status" entry ends the wait with
    [KeyError("status")] at that poll, whatever else the response holds. *)
Theorem await_build_missing_status cloud T poll s b pending d :
  0 < poll ->
  build_no (self s) = Some b ->
  answers cloud (queries s) pending ->
  Forall (fun x => x.2 <> "done") pending ->
  script_time poll pending < T ->
  outcome (on_check_production_build_status cloud (queries s + length pending)) = inr d ->
  d !! "status" = None ->
  exists s',
    await_build cloud (enough_fuel T poll) T poll s
      = Some (inl (KeyError "status"), s') /\
    queries s' = S (queries s + length pending) /\
    sleeps s' = (sleeps s + length pending)%nat.
Proof.
  intros Hp Hb Hans Hnd Ht Hd Hk.
  destruct (enough_fuel_split T poll pending Hp Ht) as [fuel Hfuel].
  destruct (poll_loop_through cloud T poll (now (world s)) b pending (S fuel) s)
    as (s1 & Hloop & Hself & Hq & Hs & Hn); try done; try lia.
  exists (after_query cloud b s1).
  rewrite await_build_unfold, Hfuel, Hloop.
  rewrite (poll_loop_no_status _ _ _ _ _ _ b d); [| lia | congruence | by rewrite Hq | done].
  split; [done |]. split.
  - change (queries (after_query cloud b s1)) with (S (queries s1)). by rewrite Hq.
  - change (sleeps (after_query cloud b s1)) with (sleeps s1). done.
Qed.

Lemma await_build_propagates_upstream_witness :
  exists s',
    await_build flaky (enough_fuel 1200 5) 1200 5 (submitted 0)
      = Some (inl (Upstream "HTTPError: 503"), s') /\
    queries s' = S (queries (submitted 0) + length [(1%N, "running")]) /\
    sleeps s' = (sleeps (submitted 0) + length [(1%N, "running")])%nat.
Proof.
  apply (await_build_propagates_upstream flaky 1200 5 (submitted 0) 42
           [(1%N, "running")] (Upstream "HTTPError: 503")).
  - lia.
  - reflexivity.
  - intros [|k] lat st H; inversion H; split; reflexivity.
  - repeat constructor; discriminate.
  - vm_compute. reflexivity.
  - reflexivity.
Defined.

Lemma await_build_missing_status_witness :
  exists s',
    await_build malformed (enough_fuel 1200 5) 1200 5 (submitted 0)
      = Some (inl (KeyError "status"), s') /\
    queries s' = S (queries (submitted 0) + length [(1%N, "running")]) /\
    sleeps s' = (sleeps (submitted 0) + length [(1%N, "running")])%nat.
Proof.
  apply (await_build_missing_status malformed 1200 5 (submitted 0) 42
           [(1%N, "running")] {[ "deployed" := VBool false ]}).
  - lia.
  - reflexivity.
  - intros [|k] lat st H; inversion H; split; reflexivity.
  - repeat constructor; discriminate.
  - vm_compute. reflexivity.
  - reflexivity.
  - vm_compute. reflexivity.
Defined.

(** ** What [setUp] has done when it returns, and when it raises *)

Lemma bind_returns {A B} (c : M A) (k : A -> M B) s b s' :
  bind c k s = Some (inr b, s') ->
  exists a s1, c s = Some (inr a, s1) /\ k a s1 = Some (inr b, s').
Proof.
  unfold bind. destruct (c s) as [[[e|a] s1]|]; [done | | done].
  intros H. by exists a, s1.
Qed.

Lemma configure_world pkg s r s1 :
  configure pkg s = Some (r, s1) -> world s1 = world s.
Proof.
  unfold configure, bind, assign, mutate_app_package, new_VespaCloud,
    os_getenv, os_getcwd, bind, get_self, set_self, get_world, attr, ret, raise.
  cbn. destruct (environ (world s) !! "VESPA_TEAM_API_KEY");
    cbn; intros H; by inversion H.
Qed.

Lemma submit_build_returns cloud s s1 :
  submit_build cloud s = Some (inr tt, s1) ->
  is_Some (build_no (self s1)) /\
  queries s1 = queries s /\
  removal_acknowledged (log (world s1)) = false.
Proof.
  unfold submit_build, bind, get_self, deploy_to_prod, bind, get_world, remote,
    assign, bind, get_self, set_self, attr, ret, raise.
  cbn -[Z.of_N].
  destruct (instance_name (self s)); cbn -[Z.of_N]; [| done].
  destruct (disk_folder (self s)); cbn -[Z.of_N]; [| done].
  destruct (outcome (on_deploy_to_prod cloud (calls is_deploy_to_prod (log (world s)))))
    as [e|b] eqn:Hb; [done |].
  intros H. inversion H; subst. cbn -[Z.of_N]. by rewrite ?Hb.
Qed.

Lemma poll_loop_true cloud T poll start fuel : forall s s',
  poll_loop cloud fuel T poll start s = Some (inr true, s') ->
  exists k, queries s' = S k /\ (queries s <= k)%nat /\
    is_done (on_check_production_build_status cloud k) = true.
Proof.
  induction fuel as [|fuel IH]; intros s s' H; [done |].
  rewrite poll_loop_step in H.
  destruct (now (world s) - start <? T); [| done].
  destruct (build_no (self s)) as [b|]; [| done].
  destruct (outcome (on_check_production_build_status cloud (queries s)))
    as [e|d] eqn:Ho; [done |].
  destruct (d !! "status") as [v|] eqn:Hk; [| done].
  destruct (eq_str v "done") eqn:Hd.
  - inversion H; subst. exists (queries s). split; [done |]. split; [lia |].
    unfold is_done, reply_status. by rewrite Ho, Hk.
  - destruct (poll <? 0); [done |].
    apply IH in H as (k & Hq & Hle & Hdone). exists k.
    change (queries (after_sleep poll (after_query cloud b s))) with (S (queries s)) in Hle.
    split; [done |]. split; [lia | done].
Qed.

Lemma connect_returns cloud s s' :
  connect cloud s = Some (inr tt, s') ->
  is_Some (app (self s')) /\
  queries s' = queries s /\
  removal_acknowledged (log (world s')) = removal_acknowledged (log (world s)).
Proof.
  unfold connect, bind, get_application, bind, get_world, remote, assign,
    print, bind, get_self, set_self, get_world, set_world, ret.
  cbn -[Z.of_N range].
  destruct (outcome (on_get_application cloud (calls is_get_application (log (world s)))))
    as [e|a]; [done |].
  intros H. inversion H; subst. by cbn -[Z.of_N].
Qed.

(** X5: [setUp] hands out an application only after a "done".  Whenever it
    returns normally, whatever the fuel, ceiling, interval and control plane,
    its last status query was answered "done", the test holds an application
    handle and the deployment is [Running]. *)
Theorem setUp_returns_only_after_done cloud pkg fuel T poll s s' :
  setUp_with cloud pkg fuel T poll s = Some (inr tt, s') ->
  exists k,
    queries s' = S k /\ (queries s <= k)%nat /\
    is_done (on_check_production_build_status cloud k) = true /\
    is_Some (app (self s')) /\
    lifecycle_phase s' = Running.
Proof.
  unfold setUp_with. intros H.
  apply bind_returns in H as ([] & s0 & Hc & H).
  apply bind_returns in H as ([] & s1 & Hs & H).
  apply bind_returns in H as ([] & s2 & Ha & H).
  apply configure_world in Hc.
  apply submit_build_returns in Hs as (_ & Hq1 & Hr1).
  rewrite await_build_unfold in Ha.
  destruct (poll_loop cloud fuel T poll (now (world s1)) s1) as [[[e|[|]] s2']|] eqn:Hloop;
    try done.
  inversion Ha; subst s2'.
  destruct (poll_loop_frame _ _ _ _ _ _ _ _ Hloop) as (_ & _ & Hr2 & _).
  apply poll_loop_true in Hloop as (k & Hq2 & Hle & Hdone).
  apply connect_returns in H as ([a Happ] & Hq3 & Hr3).
  exists k. split; [congruence |]. split.
  - unfold queries in *. rewrite Hc in Hq1. lia.
  - split; [done |]. split; [by exists a |].
    unfold lifecycle_phase. by rewrite Hr3, Hr2, Hr1, Happ.
Qed.

Lemma setUp_returns_only_after_done_witness :
  exists k,
    queries (deployed healthy 1000) = S k /\ (queries (fresh 1000) <= k)%nat /\
    is_done (on_check_production_build_status healthy k) = true /\
    is_Some (app (self (deployed healthy 1000))) /\
    lifecycle_phase (deployed healthy 1000) = Running.
Proof.
  apply (setUp_returns_only_after_done healthy msmarco
           (enough_fuel max_wait poll_interval) max_wait poll_interval
           (fresh 1000) (deployed healthy 1000)).
  vm_compute. reflexivity.
Defined.

(** X6: when the prod submission raises, [setUp] raises the same error at
    once: no status query, no sleep, no call for the application; the test
    holds neither a build number nor an application handle it did not have
    before. *)
Theorem setUp_submission_raises cloud pkg fuel T poll s key e :
  environ (world s) !! "VESPA_TEAM_API_KEY" = Some key ->
  outcome (on_deploy_to_prod cloud (calls is_deploy_to_prod (log (world s)))) = inl e ->
  exists s',
    setUp_with cloud pkg fuel T poll s = Some (inl e, s') /\
    queries s' = queries s /\
    sleeps s' = sleeps s /\
    calls is_get_application (log (world s')) = calls is_get_application (log (world s)) /\
    build_no (self s') = build_no (self s) /\
    app (self s') = app (self s).
Proof.
  intros Hkey He.
  destruct (configure_spec pkg s key Hkey) as (t & Hc & Hi & Hf & _ & Hb & Ha).
  unfold setUp_with, bind at 1. rewrite Hc.
  unfold bind at 1.
  unfold submit_build, bind, get_self, deploy_to_prod, bind, get_world, remote,
    assign, bind, get_self, set_self, attr, ret.
  cbn -[Z.of_N]. rewrite Hi, Hf. cbn -[Z.of_N]. rewrite He.
  eexists. split; [reflexivity |]. by cbn -[Z.of_N].
Qed.

(** X7: without the API key in the environment [setUp] raises
    [AttributeError] before it calls anything: the clock, the disk and the
    log are untouched. *)
Theorem setUp_without_api_key cloud pkg fuel T poll s :
  environ (world s) !! "VESPA_TEAM_API_KEY" = None ->
  exists s',
    setUp_with cloud pkg fuel T poll s
      = Some (inl (AttributeError "'NoneType' object has no attribute 'replace'"), s') /\
    world s' = world s /\
    build_no (self s') = build_no (self s) /\
    app (self s') = app (self s).
Proof.
  intros Hkey. unfold setUp_with, bind at 1.
  unfold configure, bind, assign, mutate_app_package, new_VespaCloud,
    os_getenv, os_getcwd, bind, get_self, set_self, get_world, attr, ret, raise.
  cbn. rewrite Hkey. cbn. eexists. split; [reflexivity |]. by cbn.
Qed.

Lemma setUp_submission_raises_witness :
  exists s',
    setUp_with rejecting msmarco (enough_fuel 1200 5) 1200 5 (fresh 0)
      = Some (inl (Upstream "HTTPError: 403"), s') /\
    queries s' = queries (fresh 0) /\
    sleeps s' = sleeps (fresh 0) /\
    calls is_get_application (log (world s'))
      = calls is_get_application (log (world (fresh 0))) /\
    build_no (self s') = build_no (self (fresh 0)) /\
    app (self s') = app (self (fresh 0)).
Proof.
  apply (setUp_submission_raises rejecting msmarco (enough_fuel 1200 5) 1200 5
           (fresh 0) "-----BEGIN KEY-----\nabc" (Upstream "HTTPError: 403")).
  - vm_compute. reflexivity.
  - reflexivity.
Defined.

Lemma setUp_without_api_key_witness :
  exists s',
    setUp_with healthy msmarco (enough_fuel 1200 5) 1200 5 (keyless 0)
      = Some (inl (AttributeError "'NoneType' object has no attribute 'replace'"), s') /\
    world s' = world (keyless 0) /\
    build_no (self s') = build_no (self (keyless 0)) /\
    app (self s') = app (self (keyless 0)).
Proof.
  apply (setUp_without_api_key healthy msmarco (enough_fuel 1200 5) 1200 5 (keyless 0)).
  vm_compute. reflexivity.
Defined.

(** ** What [tearDown] leaves on disk *)

(** X8: when the removal submission raises, [tearDown] raises that error and
    never reaches [rmtree]: the staging folder is left on disk holding the
    removal package, the package of the test case stays changed, and the
    lifecycle state is the one before the call. *)
Theorem tearDown_failed_submission_keeps_folder cloud s a p folder vc e :
  app (self s) = Some a ->
  app_package (self s) = Some p ->
  disk_folder (self s) = Some folder ->
  vespa_cloud (self s) = Some vc ->
  is_inr (outcome (delete_all_reply cloud s)) = true ->
  outcome (submission_reply cloud s) = inl e ->
  exists s' today,
    tearDown cloud s = Some (inl e, s') /\
    disk (world s') !! folder = Some (removal_package today p) /\
    app_package (self s') = Some (removal_package today p) /\
    calls is_rmtree (log (world s')) = calls is_rmtree (log (world s)) /\
    lifecycle_phase s' = lifecycle_phase s.
Proof.
  intros Ha Hp Hf Hv Hdel Hsub.
  rewrite (tearDown_run cloud s a p folder vc Ha Hp Hf Hv).
  destruct (outcome (delete_all_reply cloud s)) as [e0|[]] eqn:Ho; [done |].
  rewrite Hsub.
  exists (removal_submitted cloud p folder s), (local_time (world (cleaned cloud s))).
  split; [done |]. split.
  - unfold removal_submitted, after_remote, staged, write_folder.
    cbn -[Z.of_N removal_package insert lookup]. apply lookup_insert_eq.
  - split; [done |]. split; [done |].
    apply phase_same_self; [done | done |].
    by rewrite acknowledged_removal_submitted, Hsub.
Qed.

(** X9: a [tearDown] that returns normally has removed the staging folder
    and left the deployment [Removed], but the test case still holds the
    application handle it had: the handle is not invalidated. *)
Theorem tearDown_completed cloud s a p folder vc s' :
  app (self s) = Some a ->
  app_package (self s) = Some p ->
  disk_folder (self s) = Some folder ->
  vespa_cloud (self s) = Some vc ->
  tearDown cloud s = Some (inr tt, s') ->
  disk (world s') !! folder = None /\
  lifecycle_phase s' = Removed /\
  app (self s') = Some a /\
  submissions s' = S (submissions s).
Proof.
  intros Ha Hp Hf Hv Hrun.
  rewrite (tearDown_run cloud s a p folder vc Ha Hp Hf Hv) in Hrun.
  destruct (outcome (delete_all_reply cloud s)) as [e0|[]] eqn:Ho; [done |].
  destruct (outcome (submission_reply cloud s)) as [e0|b] eqn:Hsub; [done |].
  inversion Hrun; subst. split.
  - unfold released. cbn -[Z.of_N removal_package delete lookup].
    apply lookup_delete_eq.
  - split; [| done]. apply phase_removed.
    by rewrite acknowledged_released, acknowledged_removal_submitted, Hsub.
Qed.

Lemma tearDown_failed_submission_keeps_folder_witness :
  exists s' today,
    tearDown unremovable (deployed unremovable 1000)
      = Some (inl (Upstream "HTTPError: 400"), s') /\
    disk (world s') !! "/home/ci/sample_application"
      = Some (removal_package today
                (set_auth_clients prod_auth_clients
                   (set_deployment_config (DeploymentConfiguration "prod" [prod_region])
                      (set_clusters prod_clusters msmarco)))) /\
    app_package (self s')
      = Some (removal_package today
                (set_auth_clients prod_auth_clients
                   (set_deployment_config (DeploymentConfiguration "prod" [prod_region])
                      (set_clusters prod_clusters msmarco)))) /\
    calls is_rmtree (log (world s'))
      = calls is_rmtree (log (world (deployed unremovable 1000))) /\
    lifecycle_phase s' = lifecycle_phase (deployed unremovable 1000).
Proof.
  apply (tearDown_failed_submission_keeps_folder unremovable
           (deployed unremovable 1000) endpoint _ _
           {| tenant := "vespa-team"; application := "pyvespa-integration";
              key_content := unescape_newlines "-----BEGIN KEY-----\nabc";
              auth_client_token_id := Some token_id |}).
  - vm_compute. reflexivity.
  - vm_compute. reflexivity.
  - vm_compute. reflexivity.
  - vm_compute. reflexivity.
  - vm_compute. reflexivity.
  - vm_compute. reflexivity.
Defined.

Lemma tearDown_completed_witness :
  disk (world (torn_down healthy (deployed healthy 1000))) !! "/home/ci/sample_application"
    = None /\
  lifecycle_phase (torn_down healthy (deployed healthy 1000)) = Removed /\
  app (self (torn_down healthy (deployed healthy 1000))) = Some endpoint /\
  submissions (torn_down healthy (deployed healthy 1000))
    = S (submissions (deployed healthy 1000)).
Proof.
  apply (tearDown_completed healthy (deployed healthy 1000) endpoint
           (set_auth_clients prod_auth_clients
              (set_deployment_config (DeploymentConfiguration "prod" [prod_region])
                 (set_clusters prod_clusters msmarco)))
           "/home/ci/sample_application"
           {| tenant := "vespa-team"; application := "pyvespa-integration";
              key_content := unescape_newlines "-----BEGIN KEY-----\nabc";
              auth_client_token_id := Some token_id |}
           (torn_down healthy (deployed healthy 1000))).
  - vm_compute. reflexivity.
  - vm_compute. reflexivity.
  - vm_compute. reflexivity.
  - vm_compute. reflexivity.
  - vm_compute. reflexivity.
Defined.

(** * [Dataset.replace_symbols] and [Dataset.parse_query] *)

Module RankingFacts.
Import Ranking.

Lemma remove_from_sublist old : forall s skip, remove_from old skip s `sublist_of` s.
Proof.
  induction s as [|c rest IH]; intros skip; [constructor |].
  cbn [remove_from]. destruct skip as [|k].
  - destruct (starts_with old (c :: rest)).
    + apply sublist_cons, IH.
    + apply sublist_skip, IH.
  - apply sublist_cons, IH.
Qed.

Lemma replace_by_empty_sublist old s : replace_by_empty old s `sublist_of` s.
Proof. destruct old; [done | apply remove_from_sublist]. Qed.

Lemma fold_replace_sublist symbols : forall x,
  fold_left (fun x symbol => replace_by_empty symbol x) symbols x `sublist_of` x.
Proof.
  induction symbols as [|sym rest IH]; intros x; [done |].
  cbn [fold_left]. etransitivity; [apply IH | apply replace_by_empty_sublist].
Qed.

Lemma remove_single_gone c : forall s, c ∉ remove_from [c] 0 s.
Proof.
  induction s as [|x rest IH]; [apply not_elem_of_nil |].
  cbn [remove_from starts_with length Nat.sub].
  destruct (N.eqb_spec c x) as [->|Hne]; cbn [andb].
  - destruct rest; exact IH.
  - apply not_elem_of_cons. split; [done | exact IH].
Qed.

Lemma fold_replace_gone symbols c : forall x,
  [c] ∈ symbols ->
  c ∉ fold_left (fun x symbol => replace_by_empty symbol x) symbols x.
Proof.
  induction symbols as [|sym rest IH]; intros x Hin; [by apply elem_of_nil in Hin |].
  cbn [fold_left]. apply elem_of_cons in Hin as [<- | Hin].
  - intros Hc. eapply elem_of_sublist in Hc; [| apply fold_replace_sublist].
    by apply (remove_single_gone c x).
  - by apply IH.
Qed.

Lemma collapse_from_sublist : forall s seen, collapse_from seen s `sublist_of` s.
Proof.
  induction s as [|c rest IH]; intros seen; [constructor |].
  cbn [collapse_from]. destruct (c =? 32)%N; [destruct seen |].
  - apply sublist_cons, IH.
  - apply sublist_skip, IH.
  - apply sublist_skip, IH.
Qed.

Lemma lstrip_sublist s : lstrip s `sublist_of` s.
Proof.
  induction s as [|c rest IH]; [constructor |].
  cbn [lstrip]. destruct (isspace c); [by apply sublist_cons | done].
Qed.

Lemma rstrip_sublist s : rstrip s `sublist_of` s.
Proof.
  induction s as [|c rest IH]; [constructor |].
  cbn [rstrip]. destruct (rstrip rest) as [|r0 r].
  - destruct (isspace c); [apply sublist_nil_l |].
    apply sublist_skip, sublist_nil_l.
  - by apply sublist_skip.
Qed.

(** X10: the result of [parse_query] is what is left of the query after
    characters have been deleted: nothing is added, replaced or reordered. *)
Theorem parse_query_sublist q : parse_query q `sublist_of` q.
Proof.
  unfold parse_query, strip, collapse_spaces, replace_symbols.
  etransitivity; [apply rstrip_sublist |].
  etransitivity; [apply lstrip_sublist |].
  etransitivity; [apply collapse_from_sublist |].
  apply fold_replace_sublist.
Qed.

(** X11: no symbol of [REPLACE_SYMBOLS] that is a single character (the two
    parentheses and every quotation mark) occurs in a parsed query. *)
Theorem parse_query_drops_symbols q c :
  [c] ∈ REPLACE_SYMBOLS -> c ∉ parse_query q.
Proof.
  intros Hin Hc. unfold parse_query, strip, collapse_spaces in Hc.
  eapply elem_of_sublist in Hc;
    [| etransitivity; [apply rstrip_sublist |];
       etransitivity; [apply lstrip_sublist | apply collapse_from_sublist]].
  by apply (fold_replace_gone REPLACE_SYMBOLS c q).
Qed.

Lemma parse_query_drops_symbols_witness :
  (0x201c)%N ∉ parse_query [0x201c; 0x61; 0x201d]%N.
Proof.
  apply (parse_query_drops_symbols [0x201c; 0x61; 0x201d]%N 0x201c%N).
  vm_compute. do 12 apply list_elem_of_further. apply list_elem_of_here.
Defined.

(** ** The shape of a parsed query *)

Lemma no_double_space_cons a b s :
  no_double_space (a :: b :: s)
  = negb ((a =? 32)%N && (b =? 32)%N) && no_double_space (b :: s).
Proof. reflexivity. Qed.

Lemma no_double_space_tail c s :
  no_double_space (c :: s) = true -> no_double_space s = true.
Proof.
  cbn [no_double_space]. destruct s; [done |]. by intros [_ ?]%andb_prop.
Qed.

Lemma collapse_from_shape : forall s seen,
  no_double_space (collapse_from seen s) = true /\
  (seen = true -> head (collapse_from seen s) <> Some 32%N).
Proof.
  induction s as [|c rest IH]; intros seen; [by destruct seen |].
  cbn [collapse_from]. destruct (N.eqb_spec c 32) as [->|Hne].
  - destruct (IH true) as [Hnds Hhead]. destruct seen.
    + split; [done | intros _; by apply Hhead].
    + split; [| done]. cbn [no_double_space].
      destruct (collapse_from true rest) as [|b r] eqn:Hr; [done |].
      rewrite Hnds, andb_true_r. cbn [head] in Hhead.
      destruct (N.eqb_spec b 32) as [->|]; [| done]. by destruct Hhead.
  - destruct (IH false) as [Hnds _]. split; [| intros _; cbn; congruence].
    cbn [no_double_space]. destruct (collapse_from false rest) as [|b r]; [done |].
    rewrite Hnds, andb_true_r. by destruct (N.eqb_spec c 32).
Qed.

Lemma no_double_space_lstrip s :
  no_double_space s = true -> no_double_space (lstrip s) = true.
Proof.
  induction s as [|c rest IH]; [done |]. intros H.
  cbn [lstrip]. destruct (isspace c); [| done].
  by apply IH, no_double_space_tail with c.
Qed.

Lemma rstrip_head s : rstrip s <> [] -> head (rstrip s) = head s.
Proof.
  destruct s as [|c rest]; [done |]. cbn [rstrip].
  destruct (rstrip rest); [| done]. by destruct (isspace c).
Qed.

Lemma no_double_space_rstrip s :
  no_double_space s = true -> no_double_space (rstrip s) = true.
Proof.
  induction s as [|c rest IH]; [done |]. intros H.
  pose proof (IH (no_double_space_tail _ _ H)) as Hr.
  pose proof (rstrip_head rest) as Hh.
  cbn [rstrip]. destruct (rstrip rest) as [|b r] eqn:Hrest.
  - by destruct (isspace c).
  - rewrite no_double_space_cons, Hr, andb_true_r.
    destruct rest as [|b' rest']; [done |].
    specialize (Hh ltac:(done)). cbn [head] in Hh. injection Hh as ->.
    rewrite no_double_space_cons in H. by apply andb_prop in H as [? _].
Qed.

Lemma lstrip_head s c : head (lstrip s) = Some c -> isspace c = false.
Proof.
  induction s as [|x rest IH]; [done |]. cbn [lstrip].
  destruct (isspace x) eqn:Hx; [done |]. cbn. by intros [= <-].
Qed.

Lemma rstrip_last s c : last (rstrip s) = Some c -> isspace c = false.
Proof.
  revert c. induction s as [|x rest IH]; intros c; [done |]. cbn [rstrip].
  destruct (rstrip rest) as [|b r] eqn:Hr.
  - destruct (isspace x) eqn:Hx; [done |]. cbn. by intros [= <-].
  - rewrite last_cons. destruct (last (b :: r)) as [l|] eqn:Hl.
    + intros [= <-]. by apply IH.
    + by apply last_None in Hl.
Qed.

Lemma strip_trimmed s : trimmed (strip s).
Proof.
  unfold trimmed, strip. split; intros c Hc.
  - destruct (rstrip (lstrip s)) eqn:Hr; [done |].
    rewrite <- Hr, rstrip_head in Hc by (by rewrite Hr).
    by apply lstrip_head in Hc.
  - by apply rstrip_last in Hc.
Qed.

(** X12: a parsed query never has two spaces in a row and neither starts
    nor ends with white space. *)
Theorem parse_query_normalised q :
  no_double_space (parse_query q) = true /\ trimmed (parse_query q).
Proof.
  unfold parse_query. split; [| apply strip_trimmed].
  unfold strip, collapse_spaces.
  apply no_double_space_rstrip, no_double_space_lstrip, collapse_from_shape.
Qed.

(** ** Queries that are left alone *)

Lemma sublist_same_length (l1 l2 : list N) :
  l1 `sublist_of` l2 -> (length l2 <= length l1)%nat -> l1 = l2.
Proof.
  induction 1 as [|x l1 l2 Hsub IH|x l1 l2 Hsub IH]; intros Hlen; [done | |].
  - f_equal. apply IH. cbn in Hlen. lia.
  - apply sublist_length in Hsub. cbn in Hlen. lia.
Qed.

Lemma remove_from_absent old : forall s,
  occurs old s = false -> remove_from old 0 s = s.
Proof.
  induction s as [|c rest IH]; [done |]. intros H.
  cbn [occurs] in H. apply orb_false_elim in H as [Hhere Hrest].
  cbn [remove_from]. rewrite Hhere. f_equal. by apply IH.
Qed.

Lemma remove_from_shrinks old : forall s,
  old <> [] -> occurs old s = true ->
  (length (remove_from old 0 s) < length s)%nat.
Proof.
  induction s as [|c rest IH]; intros Hold H.
  - by destruct old.
  - cbn [occurs] in H. cbn [remove_from].
    destruct (starts_with old (c :: rest)) eqn:Hhere.
    + pose proof (sublist_length _ _ (remove_from_sublist old rest (length old - 1))).
      cbn [length]. lia.
    + cbn [orb] in H. specialize (IH Hold H). cbn [length]. lia.
Qed.

Lemma replace_by_empty_fixed old s :
  old <> [] -> (replace_by_empty old s = s <-> occurs old s = false).
Proof.
  intros Hold. destruct old as [|a old']; [done |]. cbn [replace_by_empty]. split.
  - intros Heq. destruct (occurs (a :: old') s) eqn:Ho; [| done].
    apply remove_from_shrinks in Ho; [| done]. rewrite Heq in Ho. lia.
  - apply remove_from_absent.
Qed.

Lemma fold_replace_fixed symbols : forall x,
  Forall (fun symbol => symbol <> []) symbols ->
  fold_left (fun x symbol => replace_by_empty symbol x) symbols x = x <->
  Forall (fun symbol => occurs symbol x = false) symbols.
Proof.
  induction symbols as [|sym rest IH]; intros x Hne; [by split |].
  apply Forall_cons in Hne as [Hsym Hrest]. cbn [fold_left]. split.
  - intros Heq.
    assert (replace_by_empty sym x = x) as Hfirst.
    { apply sublist_same_length; [apply replace_by_empty_sublist |].
      rewrite <- Heq at 1. apply sublist_length, fold_replace_sublist. }
    rewrite Hfirst in Heq. constructor.
    + by apply replace_by_empty_fixed.
    + by apply IH.
  - intros [Ho Hrest']%Forall_cons.
    apply replace_by_empty_fixed in Ho; [| done]. rewrite Ho. by apply IH.
Qed.

Lemma REPLACE_SYMBOLS_nonempty : Forall (fun symbol => symbol <> []) REPLACE_SYMBOLS.
Proof. unfold REPLACE_SYMBOLS, QUOTES. cbn. repeat (constructor; [done |]). constructor. Qed.

(** X13: [replace_symbols] returns its argument unchanged exactly when none
    of the symbols occurs in it; otherwise the result is strictly shorter. *)
Theorem replace_symbols_fixed x :
  (replace_symbols x = x <->
   Forall (fun symbol => occurs symbol x = false) REPLACE_SYMBOLS) /\
  (replace_symbols x <> x -> (length (replace_symbols x) < length x)%nat).
Proof.
  split; [apply fold_replace_fixed, REPLACE_SYMBOLS_nonempty |].
  intros Hne. pose proof (fold_replace_sublist REPLACE_SYMBOLS x) as Hsub.
  fold (replace_symbols x) in Hsub.
  destruct (Nat.lt_ge_cases (length (replace_symbols x)) (length x)); [done |].
  by destruct Hne; apply sublist_same_length.
Qed.

Lemma collapse_from_fixed : forall s seen,
  no_double_space s = true ->
  (seen = true -> head s <> Some 32%N) ->
  collapse_from seen s = s.
Proof.
  induction s as [|c rest IH]; intros seen Hnds Hhead; [done |].
  cbn [collapse_from]. destruct (N.eqb_spec c 32) as [->|Hne].
  - destruct seen; [by destruct Hhead |]. f_equal.
    apply IH; [by apply no_double_space_tail with 32%N |].
    intros _. destruct rest as [|b r]; [done |].
    rewrite no_double_space_cons in Hnds. apply andb_prop in Hnds as [Hab _].
    cbn [head]. intros [= ->]. done.
  - f_equal. apply IH; [by apply no_double_space_tail with c | done].
Qed.

Lemma lstrip_fixed s :
  (forall c, head s = Some c -> isspace c = false) -> lstrip s = s.
Proof.
  destruct s as [|c rest]; [done |]. intros H. cbn [lstrip].
  by rewrite (H c eq_refl).
Qed.

Lemma rstrip_fixed s :
  (forall c, last s = Some c -> isspace c = false) -> rstrip s = s.
Proof.
  induction s as [|x rest IH]; [done |]. intros H. cbn [rstrip].
  destruct rest as [|y rest'].
  - cbn. by rewrite (H x eq_refl).
  - rewrite IH; [done |]. intros c Hc. apply H. by rewrite last_cons, Hc.
Qed.

Lemma parse_query_unchanged q : parse_query q = q <-> clean q.
Proof.
  unfold clean. split.
  - intros Heq.
    pose proof (fold_replace_sublist REPLACE_SYMBOLS q) as H1.
    fold (replace_symbols q) in H1.
    pose proof (collapse_from_sublist (replace_symbols q) false) as H2.
    fold (collapse_spaces (replace_symbols q)) in H2.
    pose proof (lstrip_sublist (collapse_spaces (replace_symbols q))) as H3.
    pose proof (rstrip_sublist (lstrip (collapse_spaces (replace_symbols q)))) as H4.
    fold (strip (collapse_spaces (replace_symbols q))) in H4.
    fold (parse_query q) in H4. rewrite Heq in H4.
    assert (Ha : replace_symbols q = q).
    { apply sublist_same_length; [done |].
      apply sublist_length in H2, H3, H4. lia. }
    rewrite Ha in *.
    assert (Hb : collapse_spaces q = q).
    { apply sublist_same_length; [done |].
      apply sublist_length in H3, H4. lia. }
    split; [by apply replace_symbols_fixed |].
    rewrite <- Heq. apply parse_query_normalised.
  - intros (Hsym & Hnds & Hhead & Hlast). unfold parse_query.
    apply replace_symbols_fixed in Hsym. rewrite Hsym.
    unfold collapse_spaces. rewrite collapse_from_fixed by done.
    unfold strip. by rewrite lstrip_fixed, rstrip_fixed.
Qed.

(** X14: [parse_query] returns the query unchanged exactly when the query
    is clean already: none of the symbols occurs in it, it has no two spaces
    in a row, and it neither starts nor ends with white space. *)
Theorem parse_query_fixed q : parse_query q = q <-> clean q.
Proof. apply parse_query_unchanged. Qed.

(** ** Parsing twice *)

Lemma occurs_single c : forall s, occurs [c] s = false <-> c ∉ s.
Proof.
  induction s as [|b rest IH]; [by split; [intros _; apply not_elem_of_nil |] |].
  cbn [occurs starts_with]. rewrite andb_true_r, orb_false_iff, IH, not_elem_of_cons.
  by rewrite N.eqb_neq.
Qed.

Lemma REPLACE_SYMBOLS_shape :
  Forall (fun symbol => symbol = [0x20; 0x2d]%N \/ symbol = [0x20; 0x2b]%N \/
                        exists c, symbol = [c]) REPLACE_SYMBOLS.
Proof.
  unfold REPLACE_SYMBOLS, QUOTES. cbn.
  repeat (constructor; [by (left + (right; left) + (right; right; eexists)) |]).
  constructor.
Qed.

Lemma parse_query_single_gone q c : [c] ∈ REPLACE_SYMBOLS -> c ∉ parse_query q.
Proof.
  intros Hin Hc. unfold parse_query, strip, collapse_spaces in Hc.
  eapply elem_of_sublist in Hc;
    [| etransitivity; [apply rstrip_sublist |];
       etransitivity; [apply lstrip_sublist | apply collapse_from_sublist]].
  by apply (fold_replace_gone REPLACE_SYMBOLS c q).
Qed.

Lemma parse_query_shape q :
  no_double_space (parse_query q) = true /\ trimmed (parse_query q).
Proof.
  unfold parse_query. split; [| apply strip_trimmed].
  unfold strip, collapse_spaces.
  apply no_double_space_rstrip, no_double_space_lstrip, collapse_from_shape.
Qed.

(** X15: [parse_query] is not idempotent.  [replace_symbols] goes through
    the symbols once, [" -"] before [" +"], so what it removes can bring the
    two halves of one of these together: parsing a parsed query changes it
    exactly when the parsed query still holds [" -"] or [" +"].  Parsing
    ["a  +-b"], with two spaces, gives ["a -b"], and parsing that gives
    ["ab"]. *)
Theorem parse_query_not_idempotent :
  (forall q,
     parse_query (parse_query q) = parse_query q <->
     occurs [0x20; 0x2d]%N (parse_query q) = false /\
     occurs [0x20; 0x2b]%N (parse_query q) = false) /\
  parse_query (codes "a  +-b") = codes "a -b" /\
  parse_query (codes "a -b") = codes "ab".
Proof.
  split; [| by vm_compute]. intros q. rewrite parse_query_unchanged. unfold clean.
  split.
  - intros [Hsym _]. rewrite Forall_forall in Hsym.
    split; apply Hsym; unfold REPLACE_SYMBOLS; cbn.
    + do 2 apply list_elem_of_further. apply list_elem_of_here.
    + do 3 apply list_elem_of_further. apply list_elem_of_here.
  - intros [Hminus Hplus]. split; [| apply parse_query_shape].
    apply Forall_forall. intros symbol Hin.
    pose proof REPLACE_SYMBOLS_shape as Hshape. rewrite Forall_forall in Hshape.
    destruct (Hshape symbol Hin) as [-> | [-> | [c ->]]]; [done | done |].
    by apply occurs_single, parse_query_single_gone.
Qed.

(** ** Batches of labelled data *)

Lemma py_slice_chunk {A} (l : list A) i b :
  0 <= i -> 0 < b ->
  py_slice l i (i + b) = take (Z.to_nat b) (drop (Z.to_nat i) l).
Proof.
  intros Hi Hb. unfold py_slice.
  destruct (Z.ltb_spec i 0); [lia |]. destruct (Z.ltb_spec (i + b) 0); [lia |].
  destruct (Z.le_gt_cases (Z.of_nat (length l)) i) as [Hge | Hlt].
  - rewrite (Z.min_r i), (Z.min_r (i + b)) by lia.
    destruct (Z.ltb_spec (Z.of_nat (length l)) (Z.of_nat (length l))); [lia |].
    rewrite drop_ge by lia. by rewrite take_nil.
  - rewrite (Z.min_l i) by lia.
    destruct (Z.ltb_spec i (Z.min (i + b) (Z.of_nat (length l)))); [| lia].
    destruct (Z.le_gt_cases (i + b) (Z.of_nat (length l))) as [Hin | Hout].
    + rewrite Z.min_l by lia. f_equal. lia.
    + rewrite Z.min_r by lia.
      rewrite !take_ge; [done | |]; rewrite length_drop; lia.
Qed.

Lemma batch_count n b :
  0 <= n -> 0 < b ->
  (if 0 <? b then if 0 <? n then (n - 0 - 1) / b + 1 else 0
   else if n <? 0 then (0 - n - 1) / (- b) + 1 else 0) = (n + b - 1) / b.
Proof.
  intros Hn Hb. destruct (Z.ltb_spec 0 b); [| lia].
  destruct (Z.ltb_spec 0 n).
  - replace (n + b - 1) with (n - 0 - 1 + 1 * b) by lia.
    by rewrite Z.div_add by lia.
  - replace n with 0 by lia. rewrite Z.div_small; lia.
Qed.

Lemma labeled_data_batches_pos {A} (l : list A) b :
  0 < b ->
  labeled_data_batches l b =
  inr (map (fun k => take (Z.to_nat b) (drop (k * Z.to_nat b) l))
           (seq 0 (Z.to_nat ((Z.of_nat (length l) + b - 1) / b)))).
Proof.
  intros Hb. unfold labeled_data_batches, py_range.
  destruct (Z.eqb_spec b 0); [lia |].
  rewrite batch_count by lia. f_equal. rewrite map_map.
  apply map_ext. intros k. rewrite py_slice_chunk by lia.
  do 2 f_equal. lia.
Qed.

Lemma chunks_concat {A} (b : nat) : forall m (l : list A),
  (length l <= m * b)%nat ->
  concat (map (fun k => take b (drop (k * b) l)) (seq 0 m)) = l.
Proof.
  induction m as [|m IH]; intros l Hlen.
  - cbn in *. destruct l; [done | cbn in Hlen; lia].
  - cbn [seq map concat]. rewrite <- seq_shift, map_map.
    change (0 * b)%nat with 0%nat. rewrite drop_0.
    rewrite (map_ext _ (fun k => take b (drop (k * b) (drop b l)))).
    + rewrite IH; [apply take_drop | rewrite length_drop; lia].
    + intros k. by rewrite drop_drop.
Qed.

(** X17: for a positive batch size the batches are a partition of the
    labelled data in order: concatenated they give the data back, none is
    empty or longer than the batch size, every batch but the last has
    exactly the batch size, and there are [ceil(len / batch_size)] of
    them. *)
Theorem labeled_data_batches_partition {A} (labeled_data : list A) batch_size :
  0 < batch_size ->
  exists batches,
    labeled_data_batches labeled_data batch_size = inr batches /\
    concat batches = labeled_data /\
    Forall (fun batch => 0 < Z.of_nat (length batch) <= batch_size) batches /\
    (forall k batch, batches !! k = Some batch -> (S k < length batches)%nat ->
                     Z.of_nat (length batch) = batch_size) /\
    Z.of_nat (length batches)
      = (Z.of_nat (length labeled_data) + batch_size - 1) / batch_size.
Proof.
  intros Hb. rewrite labeled_data_batches_pos by done.
  set (n := Z.of_nat (length labeled_data)).
  set (m := Z.to_nat ((n + batch_size - 1) / batch_size)).
  set (b := Z.to_nat batch_size).
  assert (Hn : 0 <= n) by lia.
  pose proof (Z.div_mod (n + batch_size - 1) batch_size ltac:(lia)) as Hdm.
  pose proof (Z.mod_pos_bound (n + batch_size - 1) batch_size Hb) as Hmod.
  assert (Hq : 0 <= (n + batch_size - 1) / batch_size) by (apply Z.div_pos; lia).
  assert (Hm : Z.of_nat m = (n + batch_size - 1) / batch_size) by lia.
  assert (Hbz : Z.of_nat b = batch_size) by lia.
  eexists. split; [reflexivity |]. split; [| split; [| split]].
  - apply chunks_concat. nia.
  - apply Forall_forall. intros batch [k [<- Hk]]%list_elem_of_In%in_map_iff.
    apply in_seq in Hk. rewrite length_take, length_drop. nia.
  - intros k batch Hk Hlast. rewrite length_map, length_seq in Hlast.
    rewrite list_lookup_fmap in Hk.
    rewrite lookup_seq_lt in Hk by lia. cbn in Hk. injection Hk as <-.
    rewrite length_take, length_drop. nia.
  - by rewrite length_map, length_seq.
Qed.

Lemma labeled_data_batches_partition_witness :
  exists batches,
    labeled_data_batches [1; 2; 3; 4; 5; 6; 7] 3 = inr batches /\
    concat batches = [1; 2; 3; 4; 5; 6; 7] /\
    Forall (fun batch => 0 < Z.of_nat (length batch) <= 3) batches /\
    (forall k batch, batches !! k = Some batch -> (S k < length batches)%nat ->
                     Z.of_nat (length batch) = 3) /\
    Z.of_nat (length batches)
      = (Z.of_nat (length [1; 2; 3; 4; 5; 6; 7]) + 3 - 1) / 3.
Proof. apply (labeled_data_batches_partition [1; 2; 3; 4; 5; 6; 7] 3). lia. Defined.

(** X18: a batch size of zero raises [ValueError], and a negative batch
    size gives no batch at all, so that every labelled data point is
    dropped without an error. *)
Theorem labeled_data_batches_degenerate {A} (labeled_data : list A) batch_size :
  batch_size <= 0 ->
  labeled_data_batches labeled_data batch_size =
  if batch_size =? 0 then inl (ValueError "range() arg 3 must not be zero")
  else inr [].
Proof.
  intros Hb. unfold labeled_data_batches, py_range.
  destruct (Z.eqb_spec batch_size 0); [done |].
  destruct (Z.ltb_spec 0 batch_size); [lia |].
  destruct (Z.ltb_spec (Z.of_nat (length labeled_data)) 0); [lia | done].
Qed.

Lemma labeled_data_batches_degenerate_witness :
  labeled_data_batches [1; 2; 3] (-2) =
  if -2 =? 0 then inl (ValueError "range() arg 3 must not be zero") else inr [].
Proof. apply (labeled_data_batches_degenerate [1; 2; 3] (-2)). lia. Defined.

(** ** [load_full_data] *)

Section LoadFullData.

Context {Corpus Queries Qrels : Type}.
Variable prepare_data : string -> error + (Corpus * Queries * Qrels).

Lemma effective_split_types_nonempty split_types :
  effective_split_types split_types <> [].
Proof. by destruct split_types as [[|]|]. Qed.

Lemma load_splits_raises : forall split_types corpus split e,
  load_splits prepare_data split_types corpus split = inl e ->
  exists split_type, split_type ∈ split_types /\ prepare_data split_type = inl e.
Proof.
  induction split_types as [|st rest IH]; intros corpus split e H; [done |].
  cbn [load_splits] in H.
  destruct (prepare_data st) as [e'|[[c q] r]] eqn:Hp.
  - injection H as ->. exists st. split; [apply list_elem_of_here | done].
  - apply IH in H as (st' & Hin & Hst'). exists st'.
    split; [by apply list_elem_of_further | done].
Qed.

Lemma load_splits_returns : forall split_types corpus split d,
  load_splits prepare_data split_types corpus split = inr d ->
  (forall st, st ∈ split_types ->
     exists c q r, prepare_data st = inr (c, q, r) /\
       Ranking.split d !! st = Some {| split_qrels := r; split_queries := q |}) /\
  (forall st, st ∉ split_types -> Ranking.split d !! st = split !! st) /\
  Ranking.corpus d =
    match last split_types with
    | Some st => match prepare_data st with
                 | inr (c, _, _) => Some c
                 | inl _ => None
                 end
    | None => corpus
    end.
Proof.
  induction split_types as [|st rest IH]; intros corpus split d H.
  - injection H as <-. split; [intros st Hst; by apply elem_of_nil in Hst |]. by split.
  - cbn [load_splits] in H.
    destruct (prepare_data st) as [e'|[[c q] r]] eqn:Hp; [done |].
    apply IH in H as (Hin & Hout & Hcorpus). split; [| split].
    + intros st' Hst'. destruct (decide (st' ∈ rest)) as [Hr | Hr]; [by apply Hin |].
      apply elem_of_cons in Hst' as [-> | ?]; [| done].
      exists c, q, r. split; [done |]. rewrite Hout by done. apply lookup_insert_eq.
    + intros st' Hst'. apply not_elem_of_cons in Hst' as [Hne Hr].
      rewrite Hout by done. by apply lookup_insert_ne.
    + rewrite Hcorpus, last_cons. destruct (last rest); [done |]. by rewrite Hp.
Qed.

(** X19: the assertion of line 152 can never fail, because an empty list
    of split types has been replaced by the default before it: when
    [load_full_data] raises, the error was raised by [prepare_data] for one
    of the split types. *)
Theorem load_full_data_raises split_types e :
  load_full_data prepare_data split_types = inl e ->
  exists split_type,
    split_type ∈ effective_split_types split_types /\
    prepare_data split_type = inl e.
Proof.
  unfold load_full_data.
  pose proof (effective_split_types_nonempty split_types) as Hne.
  destruct (effective_split_types split_types) as [|st rest] eqn:Heff; [done |].
  cbn [length Nat.ltb Nat.leb negb]. apply load_splits_raises.
Qed.

(** X20: when [load_full_data] returns, the split types it used are the
    given ones, or "train" and "dev" when none or an empty list was given;
    the result has exactly one entry per split type, holding what
    [prepare_data] loaded for it, and its corpus is the corpus loaded for
    the last split type. *)
Theorem load_full_data_returns split_types d :
  load_full_data prepare_data split_types = inr d ->
  dom (Ranking.split d) = list_to_set (effective_split_types split_types) /\
  (forall st, st ∈ effective_split_types split_types ->
     exists c q r, prepare_data st = inr (c, q, r) /\
       Ranking.split d !! st = Some {| split_qrels := r; split_queries := q |}) /\
  exists st c q r,
    last (effective_split_types split_types) = Some st /\
    prepare_data st = inr (c, q, r) /\
    Ranking.corpus d = Some c.
Proof.
  unfold load_full_data.
  pose proof (effective_split_types_nonempty split_types) as Hne.
  destruct (effective_split_types split_types) as [|st0 rest] eqn:Heff; [done |].
  cbn [length Nat.ltb Nat.leb negb]. intros H.
  apply load_splits_returns in H as (Hin & Hout & Hcorpus).
  split; [| split; [done |]].
  - apply set_eq. intros st. rewrite elem_of_dom, elem_of_list_to_set. split.
    + intros [x Hx]. destruct (decide (st ∈ st0 :: rest)) as [|Hno]; [done |].
      rewrite Hout in Hx by done. by rewrite lookup_empty in Hx.
    + intros Hst. destruct (Hin st Hst) as (c & q & r & _ & Hl). by eexists.
  - destruct (last (st0 :: rest)) as [st|] eqn:Hlast; [| by apply last_None in Hlast].
    assert (Hst : st ∈ st0 :: rest).
    { apply last_Some in Hlast as [l' ->]. apply elem_of_app. right.
      apply list_elem_of_here. }
    destruct (Hin st Hst) as (c & q & r & Hp & _). rewrite Hp in Hcorpus.
    by exists st, c, q, r.
Qed.

End LoadFullData.

(** ** [lasso_model_search] *)

Section LassoSearch.

Context {W E Hp : Type}.
Variable ltb : W -> W -> bool.
Variable fabs : W -> W.
Variable fit : nat -> list string -> error + @Fitted W E Hp.

Local Abbreviation tune := (tune_lasso_linear_model fit).
Local Abbreviation fitted_on results :=
  (map (fun r => weights_feature_names (result_weights r)) results).

Lemma kernel_column_length (rows : list (list W)) :
  forall (idxs : list nat) (column : list W),
  kernel_column rows idxs = inr column -> length column = length idxs.
Proof.
  induction idxs as [|idx rest IH]; intros column H.
  - by injection H as <-.
  - cbn [kernel_column] in H.
    destruct (index rows idx) as [|row]; [done |].
    destruct (index row 0) as [|w]; [done |].
    destruct (kernel_column rows rest) as [|ws] eqn:Hrest; [done |].
    injection H as <-. cbn. f_equal. by apply IH.
Qed.

(** What a successful tuning returns: the features it was given, and one
    weight per feature. *)
Lemma tune_returns call feature_names weights evaluation best_hyperparams :
  tune call feature_names = inr (weights, evaluation, best_hyperparams) ->
  weights_feature_names weights = feature_names /\
  length (weights_linear_model_weights weights) = length feature_names.
Proof.
  unfold tune_lasso_linear_model. destruct (fit call feature_names) as [|model]; [done |].
  destruct (kernel_column _ _) as [|column] eqn:Hc; [done |].
  destruct (last _); [| done]. intros [= <- _ _]. cbn. split; [done |].
  apply kernel_column_length in Hc. by rewrite length_seq in Hc.
Qed.

Lemma dict_set_keys {V} k (v : V) : forall d k',
  k' ∈ map fst (dict_set k v d) <-> k' = k \/ k' ∈ map fst d.
Proof.
  induction d as [|[k0 v0] rest IH]; intros k'; cbn [dict_set map fst].
  - rewrite list_elem_of_singleton, elem_of_nil. tauto.
  - destruct (String.eqb_spec k k0) as [->|Hne]; cbn [map fst].
    + rewrite !elem_of_cons. tauto.
    + rewrite !elem_of_cons, IH. tauto.
Qed.

Lemma dict_of_keys {V} (pairs : list (string * V)) k :
  k ∈ map fst (dict_of pairs) <-> k ∈ map fst pairs.
Proof.
  unfold dict_of.
  assert (Hgen : forall d, k ∈ map fst (fold_left (fun d kv => dict_set kv.1 kv.2 d) pairs d)
                           <-> k ∈ map fst pairs \/ k ∈ map fst d).
  { induction pairs as [|[k0 v0] rest IH]; intros d; cbn [fold_left map fst].
    - rewrite elem_of_nil. tauto.
    - rewrite IH, dict_set_keys, elem_of_cons. cbn. tauto. }
  rewrite Hgen. cbn. rewrite elem_of_nil. tauto.
Qed.

Lemma combine_keys {V} (names : list string) (values : list V) :
  length values = length names -> map fst (combine names values) = names.
Proof.
  revert values. induction names as [|n names IH]; intros [|v values] Hlen;
    try done. cbn. f_equal. apply IH. by injection Hlen.
Qed.

Lemma min_by_value_key (d : list (string * W)) k :
  min_by_value ltb d = Some k -> k ∈ map fst d.
Proof.
  destruct d as [|first rest]; [done |]. cbn [min_by_value]. intros [= <-].
  assert (Hgen : forall best,
    (fold_left (fun best item => if ltb item.2 best.2 then item else best) rest best)
      ∈ best :: rest).
  { induction rest as [|item rest IH]; intros best; [apply list_elem_of_here |].
    cbn [fold_left]. destruct (ltb item.2 best.2).
    - apply list_elem_of_further, IH.
    - specialize (IH best). apply elem_of_cons in IH as [-> | IH].
      + apply list_elem_of_here.
      + by do 2 apply list_elem_of_further. }
  apply list_elem_of_In, (in_map fst), list_elem_of_In, Hgen.
Qed.

Lemma min_by_value_nonempty (d : list (string * W)) :
  d <> [] -> is_Some (min_by_value ltb d).
Proof. destruct d; [done | by eexists]. Qed.

Lemma mem_true x l : mem x l = true <-> x ∈ l.
Proof.
  unfold mem. rewrite existsb_exists. split.
  - intros (y & Hy%list_elem_of_In & ->%String.eqb_eq). done.
  - intros Hx. exists x. split; [by apply list_elem_of_In | apply String.eqb_refl].
Qed.

Lemma candidates_key (protected_features : list string) (weights : @LassoWeights W)
    feature_names k :
  weights_feature_names weights = feature_names ->
  length (weights_linear_model_weights weights) = length feature_names ->
  k ∈ map fst (elimination_candidates fabs protected_features weights) ->
  k ∈ feature_names /\ mem k protected_features = false.
Proof.
  intros Hn Hl Hk. unfold elimination_candidates in Hk. rewrite Hn in Hk.
  assert (Hall : forall k', k' ∈ map fst (map (fun kv : string * W => (kv.1, fabs kv.2))
                      (dict_of (combine feature_names (weights_linear_model_weights weights))))
                    -> k' ∈ feature_names).
  { intros k'. rewrite map_map. cbn.
    change (map (fun x : string * W => x.1)) with (map (@fst string W)).
    rewrite dict_of_keys, combine_keys by done. done. }
  destruct protected_features as [|p ps]; [split; [by apply Hall | done] |].
  apply list_elem_of_fmap in Hk as ([k0 v0] & -> & Hin).
  apply list_elem_of_filter in Hin as [Hmem Hin]. split.
  - apply Hall. apply list_elem_of_In. apply list_elem_of_In in Hin.
    apply (in_map fst) in Hin. exact Hin.
  - change ((k0, v0).1) with k0 in *. by destruct (mem k0 (p :: ps)).
Qed.

Lemma filter_out_shorter (worst : string) (feature_names : list string) :
  worst ∈ feature_names ->
  (length (filter (fun x => negb (String.eqb x worst)) feature_names)
   < length feature_names)%nat.
Proof.
  induction feature_names as [|f rest IH]; intros Hin; [by apply elem_of_nil in Hin |].
  pose proof (length_filter (fun x => negb (String.eqb x worst)) rest) as Hle.
  rewrite filter_cons. destruct (decide (negb (String.eqb f worst))) as [Hkeep|Hdrop].
  - apply elem_of_cons in Hin as [-> | Hin].
    + rewrite String.eqb_refl in Hkeep. done.
    + specialize (IH Hin). cbn [length]. lia.
  - cbn [length]. lia.
Qed.

End LassoSearch.

Section LassoLoop.

Context {W E Hp : Type}.
Variable ltb : W -> W -> bool.
Variable fabs : W -> W.
Variable fit : nat -> list string -> error + @Fitted W E Hp.

Local Abbreviation fitted_on results :=
  (map (fun r : @PartialResult W E Hp => weights_feature_names (result_weights r)) results).

(** The loop, run with more fuel than there are features. *)
Lemma lasso_loop_spec fuel output_file protected_features :
  forall feature_names results st,
  (length feature_names < fuel)%nat ->
  exists new r st',
    lasso_loop ltb fabs fit fuel output_file protected_features feature_names results st
      = Some (r, st') /\
    (r = inr (results ++ new)%list /\ fits st' = (fits st + length new)%nat \/
     exists e, r = inl e /\ fits st' = S (fits st + length new)) /\
    (fits st' <= fits st + length feature_names)%nat /\
    files st' = match new with
                | [] => files st
                | _ => <[output_file := (results ++ new)%list]> (files st)
                end /\
    elimination_trail protected_features feature_names (fitted_on new).
Proof.
  induction fuel as [|fuel IH]; intros feature_names results st Hfuel; [lia |].
  cbn [lasso_loop].
  destruct ((length protected_features <=? length feature_names)
            && (0 <? length feature_names))%nat eqn:Hcond.
  2: { exists [], (inr results), st. rewrite app_nil_r, Nat.add_0_r.
       split; [done |]. split; [by left |]. split; [lia | done]. }
  apply andb_prop in Hcond as [_ Hpos%Nat.ltb_lt].
  destruct (tune_lasso_linear_model fit (fits st) feature_names)
    as [e|[[weights evaluation] best_hyperparams]] eqn:Htune.
  { exists [], (inl e), (fitted st). split; [done |]. split.
    - right. exists e. by rewrite Nat.add_0_r.
    - split; [cbn; lia | done]. }
  apply tune_returns in Htune as [Hnames Hlen].
  set (partial_result := {| result_number_features := None;
                            result_evaluation := evaluation;
                            result_weights := weights;
                            result_best_hyperparams := best_hyperparams |}).
  destruct (min_by_value ltb (elimination_candidates fabs protected_features weights))
    as [worst_feature|] eqn:Hmin.
  - apply min_by_value_key in Hmin.
    apply (candidates_key fabs _ _ feature_names) in Hmin as [Hin Hfree]; [| done | done].
    pose proof (filter_out_shorter worst_feature feature_names Hin) as Hshort.
    destruct (IH (filter (fun x => negb (String.eqb x worst_feature)) feature_names)
                 (results ++ [partial_result])%list
                 (dump output_file (results ++ [partial_result])%list (fitted st)))
      as (new & r & st' & Hrun & Hres & Hfits & Hfiles & Htrail); [lia |].
    exists (partial_result :: new), r, st'. split; [done |].
    cbn [fits dump fitted] in Hres, Hfits. split; [| split; [lia | split]].
    + destruct Hres as [[-> Hf] | (e & -> & Hf)].
      * left. rewrite <- app_assoc. cbn [length]. split; [done | lia].
      * right. exists e. cbn [length]. split; [done | lia].
    + rewrite Hfiles. cbn [files dump fitted]. destruct new as [|r0 new'].
      * done.
      * by rewrite insert_insert_eq, <- app_assoc.
    + cbn [map elimination_trail]. split; [done |]. right. by exists worst_feature.
  - exists [partial_result], (inr (results ++ [partial_result])%list),
      (dump output_file (results ++ [partial_result])%list (fitted st)).
    split; [done |]. split; [left; cbn; split; [done | lia] |].
    split; [cbn; lia |]. split; [done |]. cbn. split; [done | by left].
Qed.

(** X21: [lasso_model_search] always ends, whatever the tuner does, and it
    makes at most one fit per feature it was given. *)
Theorem lasso_model_search_ends folder_dir project_name feature_names
    protected_features output_file st :
  exists r st',
    lasso_model_search ltb fabs fit folder_dir project_name feature_names
      protected_features output_file st = Some (r, st') /\
    (fits st' <= fits st + length feature_names)%nat.
Proof.
  unfold lasso_model_search.
  edestruct lasso_loop_spec as (new & r & st' & Hrun & _ & Hfits & _); [| by eauto].
  lia.
Qed.

(** X22: the results [lasso_model_search] returns are the results found in
    the output file followed by one entry per fit, and after a run that made
    a fit the output file holds exactly what is returned. *)
Theorem lasso_model_search_results folder_dir project_name feature_names
    protected_features output_file st results st' :
  lasso_model_search ltb fabs fit folder_dir project_name feature_names
    protected_features output_file st = Some (inr results, st') ->
  exists new,
    results =
      (load (path_join (path_join folder_dir project_name) output_file) st ++ new)%list /\
    fits st' = (fits st + length new)%nat /\
    (new <> [] ->
     files st' !! path_join (path_join folder_dir project_name) output_file
       = Some results) /\
    (new = [] -> files st' = files st).
Proof.
  unfold lasso_model_search. intros Hrun.
  edestruct lasso_loop_spec as (new & r & st1 & Hrun1 & Hres & _ & Hfiles & _);
    [| rewrite Hrun1 in Hrun]; [lia |].
  injection Hrun as -> ->. destruct Hres as [[[= ->] Hf] | (e & [=] & _)].
  exists new. split; [done |]. split; [done |]. rewrite Hfiles.
  destruct new; [by split |]. split; [| done]. intros _. apply lookup_insert_eq.
Qed.

End LassoLoop.

Section LassoTrail.

Context {W E Hp : Type}.
Variable ltb : W -> W -> bool.
Variable fabs : W -> W.
Variable fit : nat -> list string -> error + @Fitted W E Hp.

Local Abbreviation fitted_on results :=
  (map (fun r : @PartialResult W E Hp => weights_feature_names (result_weights r)) results).

Lemma elimination_trail_facts protected_features : forall tuned feature_names,
  elimination_trail protected_features feature_names tuned ->
  (forall first, head tuned = Some first -> first = feature_names) /\
  Forall (fun fs => fs `sublist_of` feature_names /\
                    forall f, f ∈ feature_names -> f ∈ protected_features -> f ∈ fs)
         tuned /\
  (forall i a b, tuned !! i = Some a -> tuned !! S i = Some b ->
                 (length b < length a)%nat).
Proof.
  induction tuned as [|first rest IH]; intros feature_names Htrail.
  - split; [done |]. split; [constructor |]. intros i a b Ha. by destruct i.
  - cbn [elimination_trail] in Htrail. destruct Htrail as [-> Hrest].
    split; [by intros ? [= <-] |].
    destruct Hrest as [-> | (worst & Hin & Hfree & Htrail)].
    + split.
      * constructor; [| constructor]. split; [done |]. by intros f Hf _.
      * by intros [|i] a b Ha Hb.
    + apply IH in Htrail as (Hhead & Hall & Hshrink). split.
      * constructor; [split; [done | by intros f Hf _] |].
        eapply Forall_impl; [exact Hall |].
        intros fs [Hsub Hkeep]. split.
        -- etransitivity; [exact Hsub | apply sublist_filter].
        -- intros f Hf Hprot. apply Hkeep; [| done].
           apply list_elem_of_filter. split; [| done].
           destruct (String.eqb_spec f worst) as [->|]; [| done].
           apply mem_true in Hprot. congruence.
      * intros [|i] a b Ha Hb.
        -- injection Ha as <-. destruct rest as [|second rest']; [done |].
           injection Hb as <-. rewrite (Hhead second eq_refl).
           by apply filter_out_shorter.
        -- by apply (Hshrink i).
Qed.

(** X23: in a run of [lasso_model_search] that returns, the first fit is
    made on the features given, every later fit on strictly fewer features
    than the one before, always on a sublist of the features given, and no
    protected feature is ever eliminated. *)
Theorem lasso_model_search_keeps_protected folder_dir project_name feature_names
    protected_features output_file st results st' :
  lasso_model_search ltb fabs fit folder_dir project_name feature_names
    protected_features output_file st = Some (inr results, st') ->
  exists new,
    results =
      (load (path_join (path_join folder_dir project_name) output_file) st ++ new)%list /\
    (forall first, head (fitted_on new) = Some first -> first = feature_names) /\
    Forall (fun fs =>
              fs `sublist_of` feature_names /\
              forall p f, protected_features = Some p ->
                          f ∈ p -> f ∈ feature_names -> f ∈ fs)
           (fitted_on new) /\
    (forall i a b, fitted_on new !! i = Some a -> fitted_on new !! S i = Some b ->
                   (length b < length a)%nat).
Proof.
  unfold lasso_model_search. intros Hrun.
  edestruct (lasso_loop_spec ltb fabs fit) as (new & r & st1 & Hrun1 & Hres & _ & _ & Htrail);
    [| rewrite Hrun1 in Hrun]; [lia |].
  injection Hrun as -> ->. destruct Hres as [[[= ->] Hf] | (e & [=] & _)].
  apply elimination_trail_facts in Htrail as (Hhead & Hall & Hshrink).
  exists new. split; [done |]. split; [done |]. split; [| done].
  eapply Forall_impl; [exact Hall |]. intros fs [Hsub Hkeep]. split; [done |].
  intros p f -> Hprot Hin. apply Hkeep; [done |]. by destruct p.
Qed.

End LassoTrail.

(** ** [forward_selection_model_search] *)

Section ForwardSelection.

Context {W E Hp : Type}.
Variable gtb : E -> E -> bool.
Variable zero : E.
Variable fit : nat -> list string -> error + @Fitted W E Hp.

Local Abbreviation names r :=
  (weights_feature_names (result_weights (r : @PartialResult W E Hp))).

Lemma forward_selection_iteration_returns call feature_names r :
  forward_selection_iteration fit call feature_names = inr r ->
  names r = feature_names /\
  result_number_features r = Some (length feature_names) /\
  exists w h,
    tune_lasso_linear_model fit call feature_names = inr (w, result_evaluation r, h).
Proof.
  unfold forward_selection_iteration.
  destruct (tune_lasso_linear_model fit call feature_names)
    as [e|[[w ev] h]] eqn:Htune; [done |].
  intros [= <-]. cbn. apply tune_returns in Htune as Hn. destruct Hn as [Hn _].
  split; [done |]. split; [done |]. by exists w, h.
Qed.

Lemma forward_selection_iteration_raises call feature_names e :
  forward_selection_iteration fit call feature_names = inl e ->
  tune_lasso_linear_model fit call feature_names = inl e.
Proof.
  unfold forward_selection_iteration.
  by destruct (tune_lasso_linear_model fit call feature_names) as [e'|[[w ev] h]];
    intros [= <-].
Qed.

(** The [for] loop: one fit per candidate, in order, each on the protected
    features and the candidate. *)
Lemma try_features_spec output_file protected :
  forall feature_names best_eval best_features results st r st',
  try_features gtb fit output_file protected feature_names best_eval best_features
               results st = (r, st') ->
  (fits st' <= fits st + length feature_names)%nat /\
  match r with
  | inl e => exists call fs, tune_lasso_linear_model fit call fs = inl e
  | inr (best', results') =>
    exists new,
      results' = (results ++ new)%list /\
      fits st' = (fits st + length feature_names)%nat /\
      Forall2 (fun f r => names r = (protected ++ [f])%list /\
                          result_number_features r = Some (S (length protected)))
              feature_names new /\
      files st' = match new with
                  | [] => files st
                  | _ => <[output_file := (results ++ new)%list]> (files st)
                  end /\
      (best' = best_features \/
       exists f, f ∈ feature_names /\ best' = Some (protected ++ [f])%list)
  end.
Proof.
  induction feature_names as [|f rest IH];
    intros best_eval best_features results st r st' Hrun.
  - injection Hrun as <- <-. split; [lia |]. exists []. rewrite app_nil_r.
    split; [done |]. split; [cbn; lia |]. split; [constructor |]. split; [done |].
    by left.
  - cbn [try_features] in Hrun.
    destruct (forward_selection_iteration fit (fits st) (protected ++ [f]))
      as [e|partial_result] eqn:Hit.
    { injection Hrun as <- <-. split; [cbn; lia |].
      apply forward_selection_iteration_raises in Hit. by eexists _, _. }
    apply forward_selection_iteration_returns in Hit as (Hn & Hnum & _).
    apply IH in Hrun as [Hfits Hr]. cbn [fits dump fitted length] in Hfits |- *.
    split; [lia |]. destruct r as [e|[best' results']]; [done |].
    destruct Hr as (new & -> & Hf & Hall & Hfiles & Hbest).
    cbn [fits dump fitted] in Hf. exists (partial_result :: new).
    split; [by rewrite <- app_assoc |]. split; [lia |]. split; [| split].
    + constructor; [| done]. split; [done |].
      rewrite Hnum, length_app. cbn. f_equal. lia.
    + rewrite Hfiles. cbn [files dump fitted]. destruct new.
      * done.
      * by rewrite insert_insert_eq, <- app_assoc.
    + destruct Hbest as [-> | (f' & Hin & ->)].
      * destruct (gtb (result_evaluation partial_result) best_eval); cbn.
        -- right. exists f. split; [apply list_elem_of_here | done].
        -- by left.
      * right. exists f'. split; [by apply list_elem_of_further | done].
Qed.

Lemma Forall2_Forall_r {A B} (P : A -> B -> Prop) (Q : B -> Prop) l k :
  Forall2 P l k -> (forall a b, P a b -> Q b) -> Forall Q k.
Proof. induction 1; intros HPQ; constructor; eauto. Qed.

(** The [while] loop, run with two units of fuel more than the number of
    features that may still be added. *)
Lemma forward_loop_spec output_file maximum :
  forall fuel protected feature_names results st,
  (Z.to_nat (maximum - Z.of_nat (length protected)) + 2 <= fuel)%nat ->
  exists r st',
    forward_loop gtb zero fit fuel output_file maximum (Some protected)
                 feature_names results st = Some (r, st') /\
    (fits st' <= fits st + Z.to_nat (maximum - Z.of_nat (length protected))
                           * length feature_names)%nat /\
    match r with
    | inl e => e = TypeError "object of type 'NoneType' has no len()" \/
               exists call fs, tune_lasso_linear_model fit call fs = inl e
    | inr results' =>
      exists new,
        results' = (results ++ new)%list /\
        fits st' = (fits st + length new)%nat /\
        Forall (fun r => result_number_features r = Some (length (names r)) /\
                         (length protected < length (names r))%nat /\
                         Z.of_nat (length (names r)) <= maximum) new /\
        files st' = match new with
                    | [] => files st
                    | _ => <[output_file := (results ++ new)%list]> (files st)
                    end
    end.
Proof.
  induction fuel as [|fuel IH]; intros protected feature_names results st Hfuel; [lia |].
  cbn [forward_loop]. destruct (Z.ltb_spec (Z.of_nat (length protected)) maximum) as [Hlt|Hge].
  2: { exists (inr results), st. split; [done |]. split; [lia |].
       exists []. rewrite app_nil_r. split; [done |]. split; [cbn; lia |].
       split; [constructor | done]. }
  set (remaining := filter (fun x => negb (mem x protected)) feature_names).
  assert (Hrem : (length remaining <= length feature_names)%nat) by apply length_filter.
  destruct (try_features gtb fit output_file protected remaining zero None results st)
    as [r1 st1] eqn:Htry.
  apply try_features_spec in Htry as [Hfits1 Hr1].
  destruct r1 as [e|[best' results1]].
  { exists (inl e), st1. split; [done |]. split; [nia | by right]. }
  destruct Hr1 as (new1 & -> & Hf1 & Hall1 & Hfiles1 & Hbest).
  assert (Hlen1 : length new1 = length remaining).
  { symmetry. eapply Forall2_length, Hall1. }
  destruct Hbest as [-> | (f & Hin & ->)].
  - destruct fuel as [|fuel]; [lia |]. cbn [forward_loop].
    exists (inl (TypeError "object of type 'NoneType' has no len()")), st1.
    split; [done |]. split; [nia | by left].
  - destruct (IH (protected ++ [f])%list remaining (results ++ new1)%list st1)
      as (r & st' & Hrun & Hfits & Hr).
    { rewrite length_app. cbn [length]. lia. }
    exists r, st'. split; [done |]. rewrite length_app in Hfits, Hr. cbn [length] in Hfits, Hr.
    split; [nia |]. destruct r as [e|results']; [done |].
    destruct Hr as (new & -> & Hf & Hall & Hfiles).
    exists (new1 ++ new)%list. split; [by rewrite app_assoc |].
    split; [rewrite length_app; lia |]. split.
    + apply Forall_app. split.
      * eapply Forall2_Forall_r; [exact Hall1 |]. cbn beta.
        intros a b [-> ->]. rewrite length_app. cbn [length].
        split; [f_equal; lia |]. lia.
      * eapply Forall_impl; [exact Hall |]. cbn beta. intros x (? & ? & ?).
        split; [done |]. lia.
    + rewrite Hfiles, Hfiles1. destruct new1 as [|a new1], new as [|b new]; cbn [Datatypes.app].
      * done.
      * by rewrite app_nil_r.
      * by rewrite app_nil_r.
      * by rewrite insert_insert_eq, <- app_assoc.
Qed.

Lemma features_limit_le feature_names maximum_number_of_features :
  features_limit feature_names maximum_number_of_features
  <= Z.of_nat (length feature_names).
Proof. unfold features_limit. lia. Qed.

(** X24: [forward_selection_model_search] always ends, whatever the tuner
    does: with [n] features it makes at most [1 + n * n] fits, and an
    exception it ends with is one the fitting raised or the [TypeError] of
    [len(None)]. *)
Theorem forward_selection_model_search_ends folder_dir project_name feature_names
    maximum_number_of_features output_file protected_features st :
  exists r st',
    forward_selection_model_search gtb zero fit folder_dir project_name feature_names
      maximum_number_of_features output_file protected_features st = Some (r, st') /\
    (fits st' <= fits st + 1 + length feature_names * length feature_names)%nat /\
    forall e, r = inl e ->
      e = TypeError "object of type 'NoneType' has no len()" \/
      exists call fs, tune_lasso_linear_model fit call fs = inl e.
Proof.
  unfold forward_selection_model_search.
  pose proof (features_limit_le feature_names maximum_number_of_features) as Hle.
  set (limit := features_limit feature_names maximum_number_of_features) in *.
  set (out := path_join (path_join folder_dir project_name) output_file).
  assert (Hloop : forall protected results st0,
    exists r st',
      forward_loop gtb zero fit (S (S (length feature_names))) out limit
        (Some protected) feature_names results st0 = Some (r, st') /\
      (fits st' <= fits st0 + length feature_names * length feature_names)%nat /\
      forall e, r = inl e ->
        e = TypeError "object of type 'NoneType' has no len()" \/
        exists call fs, tune_lasso_linear_model fit call fs = inl e).
  { intros protected results st0.
    destruct (forward_loop_spec out limit (S (S (length feature_names))) protected
                feature_names results st0) as (r & st' & Hrun & Hfits & Hr); [lia |].
    exists r, st'. split; [done |]. split; [nia |]. by intros e ->. }
  destruct protected_features as [[|p ps]|].
  - destruct (Hloop [] (load out st) st) as (r & st' & Hrun & Hfits & Hr).
    exists r, st'. split; [done |]. split; [lia | done].
  - destruct (forward_selection_iteration fit (fits st) (p :: ps))
      as [e|partial_result] eqn:Hit.
    + exists (inl e), (fitted st). split; [done |]. split; [cbn; lia |].
      intros e' [= <-]. right. apply forward_selection_iteration_raises in Hit.
      by eexists _, _.
    + destruct (Hloop (p :: ps) (load out st ++ [partial_result])%list (fitted st))
        as (r & st' & Hrun & Hfits & Hr).
      exists r, st'. split; [done |]. split; [cbn in Hfits; lia | done].
  - destruct (Hloop [] (load out st) st) as (r & st' & Hrun & Hfits & Hr).
    exists r, st'. split; [done |]. split; [lia | done].
Qed.

(** X25: the results [forward_selection_model_search] returns are the
    results found in the output file, then the entry of the fit on the
    protected features when some were given, then one entry per fit of the
    search; each of these records the number of features it was fitted on,
    which is more than the number of protected features and at most the
    limit.  The output file holds what is returned when the search made a
    fit, and is left as it was otherwise: the entry of the protected features
    alone is not written. *)
Theorem forward_selection_model_search_results folder_dir project_name feature_names
    maximum_number_of_features output_file protected_features st results st' :
  forward_selection_model_search gtb zero fit folder_dir project_name feature_names
    maximum_number_of_features output_file protected_features st
    = Some (inr results, st') ->
  exists first new,
    results =
      (load (path_join (path_join folder_dir project_name) output_file) st
       ++ first ++ new)%list /\
    fits st' = (fits st + length first + length new)%nat /\
    match protected_features with
    | None | Some [] => first = []
    | Some protected =>
      exists r, first = [r] /\ names r = protected /\
                result_number_features r = Some (length protected)
    end /\
    Forall (fun r =>
              result_number_features r = Some (length (names r)) /\
              (length (default [] protected_features) < length (names r))%nat /\
              Z.of_nat (length (names r))
              <= features_limit feature_names maximum_number_of_features) new /\
    (new <> [] ->
     files st' !! path_join (path_join folder_dir project_name) output_file
       = Some results) /\
    (new = [] -> files st' = files st).
Proof.
  unfold forward_selection_model_search.
  pose proof (features_limit_le feature_names maximum_number_of_features) as Hle.
  set (limit := features_limit feature_names maximum_number_of_features) in *.
  set (out := path_join (path_join folder_dir project_name) output_file).
  assert (Hloop : forall protected loaded st0,
    forward_loop gtb zero fit (S (S (length feature_names))) out limit
      (Some protected) feature_names loaded st0 = Some (inr results, st') ->
    exists new,
      results = (loaded ++ new)%list /\
      fits st' = (fits st0 + length new)%nat /\
      Forall (fun r => result_number_features r = Some (length (names r)) /\
                       (length protected < length (names r))%nat /\
                       Z.of_nat (length (names r)) <= limit) new /\
      (new <> [] -> files st' !! out = Some results) /\
      (new = [] -> files st' = files st0)).
  { intros protected loaded st0 Hrun.
    destruct (forward_loop_spec out limit (S (S (length feature_names))) protected
                feature_names loaded st0) as (r & st1 & Hrun1 & _ & Hr); [lia |].
    rewrite Hrun1 in Hrun. injection Hrun as -> ->.
    destruct Hr as (new & -> & Hf & Hall & Hfiles). exists new.
    split; [done |]. split; [done |]. split; [done |]. rewrite Hfiles.
    destruct new; [by split |]. split; [| done]. intros _. apply lookup_insert_eq. }
  destruct protected_features as [[|p ps]|].
  - intros (new & -> & Hf & Hall & Hfiles)%Hloop. exists [], new.
    split; [done |]. split; [cbn; lia |]. by split.
  - destruct (forward_selection_iteration fit (fits st) (p :: ps))
      as [e|partial_result] eqn:Hit; [done |].
    apply forward_selection_iteration_returns in Hit as (Hn & Hnum & _).
    intros (new & -> & Hf & Hall & Hfiles)%Hloop. exists [partial_result], new.
    split; [by rewrite <- app_assoc |]. split; [cbn in Hf |- *; lia |].
    split; [by exists partial_result |]. by split.
  - intros (new & -> & Hf & Hall & Hfiles)%Hloop. exists [], new.
    split; [done |]. split; [cbn; lia |]. by split.
Qed.

(** A round in which no evaluation is greater than 0 finds no feature. *)
Lemma try_features_no_best output_file protected :
  (forall call fs w e h,
     tune_lasso_linear_model fit call fs = inr (w, e, h) -> gtb e zero = false) ->
  forall feature_names results st best' results' st',
  try_features gtb fit output_file protected feature_names zero None results st
    = (inr (best', results'), st') ->
  best' = None.
Proof.
  intros Hlow. induction feature_names as [|f rest IH];
    intros results st best' results' st' Hrun.
  - by injection Hrun as <- _ _.
  - cbn [try_features] in Hrun.
    destruct (forward_selection_iteration fit (fits st) (protected ++ [f]))
      as [e|partial_result] eqn:Hit; [done |].
    apply forward_selection_iteration_returns in Hit as (_ & _ & w & h & Htune).
    rewrite (Hlow _ _ _ _ _ Htune) in Hrun. by apply IH in Hrun.
Qed.

(** X26: a search that is to add a feature, and in which no fit is
    evaluated above 0, does not return: it ends with an exception, the
    [TypeError] of [len(None)] when the fitting raised none. *)
Theorem forward_selection_without_improvement folder_dir project_name feature_names
    maximum_number_of_features output_file protected_features st :
  (forall call fs w e h,
     tune_lasso_linear_model fit call fs = inr (w, e, h) -> gtb e zero = false) ->
  Z.of_nat (length (default [] protected_features))
  < features_limit feature_names maximum_number_of_features ->
  exists e st',
    forward_selection_model_search gtb zero fit folder_dir project_name feature_names
      maximum_number_of_features output_file protected_features st
      = Some (inl e, st') /\
    (e = TypeError "object of type 'NoneType' has no len()" \/
     exists call fs, tune_lasso_linear_model fit call fs = inl e).
Proof.
  intros Hlow Hroom. unfold forward_selection_model_search.
  set (limit := features_limit feature_names maximum_number_of_features) in *.
  set (out := path_join (path_join folder_dir project_name) output_file).
  assert (Hloop : forall protected loaded st0,
    Z.of_nat (length protected) < limit ->
    exists e st',
      forward_loop gtb zero fit (S (S (length feature_names))) out limit
        (Some protected) feature_names loaded st0 = Some (inl e, st') /\
      (e = TypeError "object of type 'NoneType' has no len()" \/
       exists call fs, tune_lasso_linear_model fit call fs = inl e)).
  { intros protected loaded st0 Hlt. cbn [forward_loop].
    destruct (Z.ltb_spec (Z.of_nat (length protected)) limit) as [_|]; [| lia].
    destruct (try_features gtb fit out protected _ zero None loaded st0)
      as [[e|[best' results']] st1] eqn:Htry.
    - apply try_features_spec in Htry as [_ Hraised].
      exists e, st1. split; [done | by right].
    - apply try_features_no_best in Htry as ->; [| done].
      eexists _, st1. split; [done | by left]. }
  destruct protected_features as [[|p ps]|]; cbn [default] in Hroom.
  - by apply Hloop.
  - destruct (forward_selection_iteration fit (fits st) (p :: ps))
      as [e|partial_result] eqn:Hit.
    + exists e, (fitted st). split; [done |]. right.
      apply forward_selection_iteration_raises in Hit. by eexists _, _.
    + by apply Hloop.
  - by apply Hloop.
Qed.

Section Improving.

(** Every fit succeeds and is evaluated above 0. *)
Hypothesis improving : forall call fs, exists w e h,
  tune_lasso_linear_model fit call fs = inr (w, e, h) /\ gtb e zero = true.

Lemma try_features_picks output_file protected :
  forall feature_names best_eval best_features results st,
  exists best' results' st',
    try_features gtb fit output_file protected feature_names best_eval best_features
                 results st = (inr (best', results'), st') /\
    (feature_names <> [] -> best_eval = zero ->
     exists f, f ∈ feature_names /\ best' = Some (protected ++ [f])%list).
Proof.
  induction feature_names as [|f rest IH]; intros best_eval best_features results st.
  - by eexists _, _, _.
  - cbn [try_features].
    destruct (improving (fits st) (protected ++ [f])%list) as (w & e & h & Htune & Hgt).
    unfold forward_selection_iteration at 1. rewrite Htune. cbn [result_evaluation].
    set (partial_result := {| result_number_features := _ |}).
    set (best := if gtb e best_eval then _ else _).
    destruct (IH best.1 best.2 (results ++ [partial_result])%list
                 (dump output_file (results ++ [partial_result])%list (fitted st)))
      as (best' & results' & st' & Hrun & _).
    exists best', results', st'. split; [done |]. intros _ ->.
    apply try_features_spec in Hrun as [_ (new & _ & _ & _ & _ & Hbest)].
    subst best. rewrite Hgt in Hbest. cbn in Hbest.
    destruct Hbest as [-> | (f' & Hin & ->)].
    + exists f. split; [apply list_elem_of_here | done].
    + exists f'. split; [by apply list_elem_of_further | done].
Qed.

Lemma filter_not_in_nil (l : list string) :
  filter (fun x => negb (mem x [])) l = l.
Proof.
  induction l as [|x l IH]; [done |]. rewrite filter_cons, IH.
  by destruct (decide _) as [|Hno]; [| destruct Hno].
Qed.

(** Of candidates none of which is protected, exactly the chosen one goes
    when it is added to the protected features. *)
Lemma filter_chosen_length protected f : forall l : list string,
  NoDup l -> f ∈ l -> Forall (fun x => mem x protected = false) l ->
  S (length (filter (fun x => negb (mem x (protected ++ [f]))) l)) = length l.
Proof.
  assert (Hmem : forall x, mem x protected = false ->
                   mem x (protected ++ [f]) = String.eqb x f).
  { intros x Hx. unfold mem in *. rewrite existsb_app, Hx. cbn. by rewrite orb_false_r. }
  assert (Hrest : forall l : list string,
             f ∉ l -> Forall (fun x => mem x protected = false) l ->
             filter (fun x => negb (mem x (protected ++ [f]))) l = l).
  { induction l as [|x l IH]; intros Hnin Hall; [done |].
    apply Forall_cons in Hall as [Hx Hall]. apply not_elem_of_cons in Hnin as [Hne Hnin].
    rewrite filter_cons, (Hmem x Hx).
    destruct (String.eqb_spec x f) as [->|_]; [done |]. cbn. by rewrite IH. }
  induction l as [|x l IH]; intros Hnd Hin Hall; [by apply elem_of_nil in Hin |].
  apply Forall_cons in Hall as [Hx Hall]. apply NoDup_cons in Hnd as [Hnx Hnd].
  rewrite filter_cons, (Hmem x Hx). destruct (String.eqb_spec x f) as [->|Hne]; cbn.
  - by rewrite Hrest.
  - apply elem_of_cons in Hin as [-> | Hin]; [done |]. f_equal. by apply IH.
Qed.

Lemma filter_not_protected protected (l : list string) :
  Forall (fun x => mem x protected = false)
         (filter (fun x => negb (mem x protected)) l).
Proof.
  apply Forall_forall. intros x [Hx _]%list_elem_of_filter.
  by destruct (mem x protected).
Qed.

(** The [while] loop on distinct features, when every feature is to be
    added. *)
Lemma forward_loop_full output_file maximum :
  forall fuel protected feature_names results st,
  NoDup feature_names ->
  Z.of_nat (length protected
            + length (filter (fun x => negb (mem x protected)) feature_names))
  = maximum ->
  (length (filter (fun x => negb (mem x protected)) feature_names) + 2 <= fuel)%nat ->
  exists new st',
    forward_loop gtb zero fit fuel output_file maximum (Some protected)
                 feature_names results st = Some (inr (results ++ new)%list, st') /\
    (2 * length new =
     length (filter (fun x => negb (mem x protected)) feature_names)
     * S (length (filter (fun x => negb (mem x protected)) feature_names)))%nat.
Proof.
  induction fuel as [|fuel IH];
    intros protected feature_names results st Hnd Hmax Hfuel; [lia |].
  cbn [forward_loop].
  set (remaining := filter (fun x => negb (mem x protected)) feature_names) in *.
  destruct (Z.ltb_spec (Z.of_nat (length protected)) maximum) as [Hlt|Hge].
  2: { exists [], st. rewrite app_nil_r. split; [done |].
       assert (length remaining = 0%nat) as -> by lia. done. }
  destruct (try_features_picks output_file protected remaining zero None results st)
    as (best' & results' & st1 & Htry & Hbest). rewrite Htry.
  destruct Hbest as (f & Hin & ->); [by intros Hnil; rewrite Hnil in Hmax; cbn in Hmax; lia | done |].
  apply try_features_spec in Htry as [_ (new1 & -> & _ & Hall1 & _)].
  apply Forall2_length in Hall1.
  pose proof (filter_chosen_length protected f remaining
                (NoDup_filter _ _ Hnd) Hin (filter_not_protected _ _)) as Hone.
  destruct (IH (protected ++ [f])%list remaining (results ++ new1)%list st1)
    as (new & st' & Hrun & Hcount).
  - by apply NoDup_filter.
  - rewrite length_app. cbn [length]. lia.
  - lia.
  - exists (new1 ++ new)%list, st'. split; [by rewrite app_assoc |].
    rewrite length_app. nia.
Qed.

(** X27: on distinct features, with no feature protected and no limit
    below their number, a search in which every fit succeeds and is
    evaluated above 0 returns, after [n * (n + 1) / 2] fits for [n]
    features. *)
Theorem forward_selection_quadratic folder_dir project_name feature_names
    maximum_number_of_features output_file st :
  NoDup feature_names ->
  features_limit feature_names maximum_number_of_features
  = Z.of_nat (length feature_names) ->
  exists new st',
    forward_selection_model_search gtb zero fit folder_dir project_name feature_names
      maximum_number_of_features output_file None st
    = Some (inr (load (path_join (path_join folder_dir project_name) output_file) st
                 ++ new)%list, st') /\
    (2 * length new = length feature_names * S (length feature_names))%nat /\
    fits st' = (fits st + length new)%nat.
Proof.
  intros Hnd Hlimit. unfold forward_selection_model_search. rewrite Hlimit.
  set (out := path_join (path_join folder_dir project_name) output_file).
  destruct (forward_loop_full out (Z.of_nat (length feature_names))
              (S (S (length feature_names))) [] feature_names (load out st) st)
    as (new & st' & Hrun & Hcount); [done | | |].
  - by rewrite filter_not_in_nil.
  - rewrite filter_not_in_nil. lia.
  - rewrite filter_not_in_nil in Hcount. exists new, st'. split; [done |].
    split; [done |].
    destruct (forward_loop_spec out (Z.of_nat (length feature_names))
                (S (S (length feature_names))) [] feature_names (load out st) st)
      as (r & st1 & Hrun1 & _ & Hr); [cbn; lia |].
    rewrite Hrun in Hrun1. injection Hrun1 as <- <-.
    destruct Hr as (new' & Heq & Hf & _). by apply app_inv_head in Heq as <-.
Qed.

End Improving.

End ForwardSelection.

(** ** The searches and the loader on examples *)

Lemma load_full_data_raises_witness :
  exists split_type,
    split_type ∈ effective_split_types (Some ["train"; "test"]) /\
    train_dev_loader split_type = inl (Raised "ValueError: qrels file is missing").
Proof.
  apply (load_full_data_raises train_dev_loader (Some ["train"; "test"])).
  vm_compute. reflexivity.
Defined.

Lemma load_full_data_returns_witness :
  dom (Ranking.split train_dev_data) = list_to_set (effective_split_types None) /\
  (forall st, st ∈ effective_split_types None ->
     exists c q r, train_dev_loader st = inr (c, q, r) /\
       Ranking.split train_dev_data !! st
         = Some {| split_qrels := r; split_queries := q |}) /\
  exists st c q r,
    last (effective_split_types None) = Some st /\
    train_dev_loader st = inr (c, q, r) /\
    Ranking.corpus train_dev_data = Some c.
Proof.
  apply (load_full_data_returns train_dev_loader None train_dev_data).
  vm_compute. reflexivity.
Defined.

Lemma lasso_model_search_results_witness :
  exists new,
    returned example_lasso_search =
      (load (path_join (path_join "/tmp" "proj") "out.json") no_files ++ new)%list /\
    fits (left_in example_lasso_search no_files) = (fits no_files + length new)%nat /\
    (new <> [] ->
     files (left_in example_lasso_search no_files)
       !! path_join (path_join "/tmp" "proj") "out.json"
       = Some (returned example_lasso_search)) /\
    (new = [] -> files (left_in example_lasso_search no_files) = files no_files).
Proof.
  apply (lasso_model_search_results Z.ltb Z.abs name_length_fit "/tmp" "proj"
           ["bm25"; "nativeRank"; "age"; "bm25"] (Some ["age"]) "out.json" no_files).
  vm_compute. reflexivity.
Defined.

Lemma lasso_model_search_keeps_protected_witness :
  exists new,
    returned example_lasso_search =
      (load (path_join (path_join "/tmp" "proj") "out.json") no_files ++ new)%list /\
    (forall first,
       head (map (fun r => weights_feature_names (result_weights r)) new) = Some first ->
       first = ["bm25"; "nativeRank"; "age"; "bm25"]) /\
    Forall (fun fs =>
              fs `sublist_of` ["bm25"; "nativeRank"; "age"; "bm25"] /\
              forall p f, Some ["age"] = Some p ->
                          f ∈ p -> f ∈ ["bm25"; "nativeRank"; "age"; "bm25"] -> f ∈ fs)
           (map (fun r => weights_feature_names (result_weights r)) new) /\
    (forall i a b,
       map (fun r => weights_feature_names (result_weights r)) new !! i = Some a ->
       map (fun r => weights_feature_names (result_weights r)) new !! S i = Some b ->
       (length b < length a)%nat).
Proof.
  apply (lasso_model_search_keeps_protected Z.ltb Z.abs name_length_fit "/tmp" "proj"
           ["bm25"; "nativeRank"; "age"; "bm25"] (Some ["age"]) "out.json" no_files
           (returned example_lasso_search) (left_in example_lasso_search no_files)).
  vm_compute. reflexivity.
Defined.

(** The weights of a kernel with one row per feature, each of one entry,
    are read back in the order of the rows. *)
Lemma kernel_column_singletons {W} (ws : list W) : forall pre : list (list W),
  kernel_column (pre ++ map (fun w => [w]) ws) (seq (length pre) (length ws)) = inr ws.
Proof.
  induction ws as [|w ws IH]; intros pre; [done |].
  cbn [map length seq kernel_column]. unfold index at 1.
  rewrite lookup_app_r, Nat.sub_diag by lia. cbn [lookup list_lookup index].
  specialize (IH (pre ++ [[w]])%list).
  rewrite <- app_assoc, length_app in IH. cbn [length] in IH.
  rewrite Nat.add_1_r in IH. by rewrite cons_middle, IH.
Qed.

Lemma name_length_fit_tunes call feature_names :
  exists w h,
    tune_lasso_linear_model (fun _ => name_length_fit call) 0 feature_names
    = inr (w, Z.of_nat call, h).
Proof.
  unfold tune_lasso_linear_model, name_length_fit. cbn [weights_3 val_ndcg_stateless].
  pose proof (kernel_column_singletons
                (map (fun f => Z.of_nat (String.length f)) feature_names) []) as Hk.
  rewrite map_map, length_map in Hk. cbn [Datatypes.app length] in Hk. rewrite Hk.
  by eexists _, _.
Qed.

Lemma flat_fit_never_improves call fs w e h :
  tune_lasso_linear_model flat_fit call fs = inr (w, e, h) -> (e >? 0) = false.
Proof.
  destruct (name_length_fit_tunes 0 fs) as (w' & h' & Htune).
  unfold tune_lasso_linear_model in *. unfold flat_fit. rewrite Htune.
  by intros [= _ <- _].
Qed.

Lemma rising_fit_improves call fs :
  exists w e h,
    tune_lasso_linear_model rising_fit call fs = inr (w, e, h) /\ (e >? 0) = true.
Proof.
  destruct (name_length_fit_tunes (S call) fs) as (w' & h' & Htune).
  exists w', (Z.of_nat (S call)), h'. split.
  - unfold tune_lasso_linear_model in *. unfold rising_fit. exact Htune.
  - rewrite Z.gtb_ltb. apply Z.ltb_lt. lia.
Qed.

Lemma forward_selection_model_search_results_witness :
  exists first new,
    returned example_forward_search =
      (load (path_join (path_join "/tmp" "proj") "fw.json") no_files
       ++ first ++ new)%list /\
    fits (left_in example_forward_search no_files)
      = (fits no_files + length first + length new)%nat /\
    (exists r, first = [r] /\ weights_feature_names (result_weights r) = ["age"] /\
               result_number_features r = Some (length ["age"])) /\
    Forall (fun r =>
              result_number_features r
                = Some (length (weights_feature_names (result_weights r))) /\
              (length (default [] (Some ["age"]))
               < length (weights_feature_names (result_weights r)))%nat /\
              Z.of_nat (length (weights_feature_names (result_weights r)))
              <= features_limit ["bm25"; "nativeRank"; "age"] None) new /\
    (new <> [] ->
     files (left_in example_forward_search no_files)
       !! path_join (path_join "/tmp" "proj") "fw.json"
       = Some (returned example_forward_search)) /\
    (new = [] -> files (left_in example_forward_search no_files) = files no_files).
Proof.
  apply (forward_selection_model_search_results Z.gtb 0 name_length_fit "/tmp" "proj"
           ["bm25"; "nativeRank"; "age"] None "fw.json" (Some ["age"]) no_files
           (returned example_forward_search) (left_in example_forward_search no_files)).
  vm_compute. reflexivity.
Defined.

Lemma forward_selection_without_improvement_witness :
  exists e st',
    forward_selection_model_search Z.gtb 0 flat_fit "/tmp" "proj" ["bm25"; "age"]
      None "fw.json" None no_files = Some (inl e, st') /\
    (e = TypeError "object of type 'NoneType' has no len()" \/
     exists call fs, tune_lasso_linear_model flat_fit call fs = inl e).
Proof.
  apply (forward_selection_without_improvement Z.gtb 0 flat_fit "/tmp" "proj"
           ["bm25"; "age"] None "fw.json" None no_files).
  - exact flat_fit_never_improves.
  - vm_compute. reflexivity.
Defined.

Lemma forward_selection_quadratic_witness :
  exists new st',
    forward_selection_model_search Z.gtb 0 rising_fit "/tmp" "proj"
      ["bm25"; "nativeRank"; "age"] None "fw.json" None no_files
    = Some (inr (load (path_join (path_join "/tmp" "proj") "fw.json") no_files
                 ++ new)%list, st') /\
    (2 * length new = length ["bm25"; "nativeRank"; "age"]
                      * S (length ["bm25"; "nativeRank"; "age"]))%nat /\
    fits st' = (fits no_files + length new)%nat.
Proof.
  apply (forward_selection_quadratic Z.gtb 0 rising_fit rising_fit_improves "/tmp" "proj"
           ["bm25"; "nativeRank"; "age"] None "fw.json" no_files).
  - apply (bool_decide_unpack (NoDup ["bm25"; "nativeRank"; "age"])). vm_compute. exact I.
  - vm_compute. reflexivity.
Defined.

End RankingFacts.

(** * Unescaping the API key *)

Lemma has_escaped_newline_cons a t :
  has_escaped_newline (String a t) =
  match t with
  | String b _ => (Ascii.eqb a "092" && Ascii.eqb b "n") || has_escaped_newline t
  | EmptyString => false
  end.
Proof. reflexivity. Qed.

Lemma unescape_newlines_cons c c' r :
  unescape_newlines (String c (String c' r)) =
  if (Ascii.eqb c "092" && Ascii.eqb c' "n")%bool
  then String "010" (unescape_newlines r)
  else String c (unescape_newlines (String c' r)).
Proof. reflexivity. Qed.

Lemma unescape_newlines_head c r :
  exists h t, unescape_newlines (String c r) = String h t /\ (h = c \/ h = "010"%char).
Proof.
  destruct r as [|c' r]; [by exists c, EmptyString; split; [| left] |].
  rewrite unescape_newlines_cons.
  destruct (Ascii.eqb c "092" && Ascii.eqb c' "n")%bool; eexists _, _; split;
    try reflexivity; [by right | by left].
Qed.

Lemma unescape_newlines_clean_upto n : forall s,
  (String.length s <= n)%nat -> has_escaped_newline (unescape_newlines s) = false.
Proof.
  induction n as [|n IH]; intros s Hlen.
  - destruct s; [done | cbn in Hlen; lia].
  - destruct s as [|c [|c' r]]; [done | done |].
    rewrite unescape_newlines_cons.
    destruct (Ascii.eqb c "092" && Ascii.eqb c' "n")%bool eqn:Hm.
    + rewrite has_escaped_newline_cons.
      destruct (unescape_newlines r) as [|b t] eqn:Hr; [done |].
      rewrite <- Hr. cbn [Ascii.eqb andb orb]. apply IH. cbn in Hlen. lia.
    + rewrite has_escaped_newline_cons.
      destruct (unescape_newlines_head c' r) as (h & t & Heq & Hh). rewrite Heq.
      rewrite <- Heq, IH by (cbn in Hlen |- *; lia). rewrite orb_false_r.
      destruct (Ascii.eqb_spec c "092") as [->|]; [| done]. cbn [andb] in Hm |- *.
      destruct Hh as [-> | ->]; [done | done].
Qed.

Lemma unescape_newlines_unchanged_upto n : forall s,
  (String.length s <= n)%nat ->
  has_escaped_newline s = false -> unescape_newlines s = s.
Proof.
  induction n as [|n IH]; intros s Hlen H.
  - destruct s; [done | cbn in Hlen; lia].
  - destruct s as [|c [|c' r]]; [done | done |].
    rewrite has_escaped_newline_cons in H. apply orb_false_elim in H as [Hm Hrest].
    rewrite unescape_newlines_cons, Hm. f_equal. apply IH; [cbn in Hlen |- *; lia | done].
Qed.

(** X16: what [replace(r"\n", "\n")] returns holds no backslash followed by
    [n] any more, so unescaping a key twice is the same as unescaping it
    once, and a key without that pair is returned as it is. *)
Theorem unescape_newlines_idempotent s :
  has_escaped_newline (unescape_newlines s) = false /\
  unescape_newlines (unescape_newlines s) = unescape_newlines s /\
  (has_escaped_newline s = false -> unescape_newlines s = s).
Proof.
  assert (Hclean : has_escaped_newline (unescape_newlines s) = false)
    by (by apply unescape_newlines_clean_upto with (String.length s)).
  split; [done |]. split.
  - by apply unescape_newlines_unchanged_upto with (String.length (unescape_newlines s)).
  - by apply unescape_newlines_unchanged_upto with (String.length s).
Qed.

Lemma unescape_newlines_idempotent_witness :
  unescape_newlines "-----BEGIN KEY-----" = "-----BEGIN KEY-----".
Proof.
  apply (unescape_newlines_idempotent "-----BEGIN KEY-----"). reflexivity.
Defined.

(** * The dev test from set-up to tear-down *)

(** X28: the dev test never removes what it deploys.  After a [setUp] that
    returned, [tearDown] returns too; it only removes the folder
    [sample_application] of the work directory, taking no time and logging
    nothing but that, so it makes no call to the cloud, and the deployment is
    still [Running] if no removal had been acknowledged before. *)
Theorem dev_test_leaves_deployment cloud s s1 :
  setUp_dev cloud s = Some (inr tt, s1) ->
  exists work_dir s2,
    environ (world s) !! "WORK_DIR" = Some work_dir /\
    tearDown_dev s1 = Some (inr tt, s2) /\
    disk (world s2) !! path_join work_dir "sample_application" = None /\
    self s2 = self s1 /\
    now (world s2) = now (world s1) /\
    log (world s2)
      = {| ev_time := now (world s1);
           ev_call := Ermtree (path_join work_dir "sample_application");
           ev_ok := true |} :: log (world s1) /\
    (removal_acknowledged (log (world s)) = false -> lifecycle_phase s2 = Running).
Proof.
  unfold setUp_dev, tearDown_dev, rmtree, bind, new_VespaCloud, os_getenv, bind, get_world,
    set_world, assign, bind, get_self, set_self, attr, deploy, bind, get_world, remote,
    raise, ret.
  cbn -[Z.of_N path_join].
  destruct (environ (world s) !! "VESPA_CLOUD_USER_KEY") as [key|]; cbn -[Z.of_N path_join];
    [| done].
  destruct (environ (world s) !! "WORK_DIR") as [dir|]; cbn -[Z.of_N path_join]; [| done].
  destruct (outcome (on_deploy cloud (calls is_deploy (log (world s))))) as [e|a] eqn:Hd;
    [done |].
  intros [= <-]. cbn -[Z.of_N path_join]. eexists dir, _. split; [done |].
  split; [reflexivity |]. cbn -[Z.of_N path_join].
  split; [apply lookup_delete_eq |]. split; [done |]. split; [done |]. split; [done |].
  intros Hack. unfold lifecycle_phase. cbn -[Z.of_N path_join]. by rewrite Hack.
Qed.

Lemma dev_test_leaves_deployment_witness :
  exists work_dir s2,
    environ (world (fresh 0)) !! "WORK_DIR" = Some work_dir /\
    tearDown_dev (final (setUp_dev healthy (fresh 0)) (fresh 0)) = Some (inr tt, s2) /\
    disk (world s2) !! path_join work_dir "sample_application" = None /\
    self s2 = self (final (setUp_dev healthy (fresh 0)) (fresh 0)) /\
    now (world s2) = now (world (final (setUp_dev healthy (fresh 0)) (fresh 0))) /\
    log (world s2)
      = {| ev_time := now (world (final (setUp_dev healthy (fresh 0)) (fresh 0)));
           ev_call := Ermtree (path_join work_dir "sample_application");
           ev_ok := true |}
        :: log (world (final (setUp_dev healthy (fresh 0)) (fresh 0))) /\
    (removal_acknowledged (log (world (fresh 0))) = false -> lifecycle_phase s2 = Running).
Proof.
  apply (dev_test_leaves_deployment healthy (fresh 0)
           (final (setUp_dev healthy (fresh 0)) (fresh 0))).
  vm_compute. reflexivity.
Defined.
